(** * ZATCA QR / Code128 / PDF-metadata helpers of [src/app.py], shallowly embedded.

    Python [str] values are lists of Unicode code points ([Z]); Python
    [bytes] values are lists of integers in [0, 255]. Functions that can raise
    return a [result]; the exception raised is named by [exn]. *)

From Stdlib Require Import ZArith List String Ascii Bool Lia.
Import ListNotations.
Open Scope Z_scope.

(** ** Python values and exceptions *)

Definition pystr := list Z.
Definition pybytes := list Z.

Inductive exn : Type :=
  | ValueTooLarge          (* ValueError("TLV>255B") raised by _tlv *)
  | ByteRangeError         (* ValueError: bytes must be in range(0, 256) *)
  | UnicodeEncodeError     (* str.encode("utf-8") on a lone surrogate *)
  | InvalidOperation.      (* decimal.InvalidOperation *)

Inductive result (A : Type) : Type :=
  | Ok (a : A)
  | Raise (e : exn).
Arguments Ok {A} a.
Arguments Raise {A} e.

Definition bind {A B} (m : result A) (k : A -> result B) : result B :=
  match m with Ok a => k a | Raise e => Raise e end.

Notation "x <- m ;; k" := (bind m (fun x => k))
  (at level 61, m at next level, right associativity).

(** A Python string literal made of ASCII characters. *)
Definition py (s : string) : pystr :=
  map (fun a => Z.of_nat (nat_of_ascii a)) (list_ascii_of_string s).

(** ** [str.encode("utf-8")] (strict error handler) *)

Definition utf8_char (c : Z) : result pybytes :=
  if c <? 128 then Ok [c]
  else if c <? 2048 then
    Ok [Z.lor 192 (Z.shiftr c 6); Z.lor 128 (Z.land c 63)]
  else if c <? 65536 then
    if (55296 <=? c) && (c <=? 57343) then Raise UnicodeEncodeError
    else Ok [Z.lor 224 (Z.shiftr c 12);
             Z.lor 128 (Z.land (Z.shiftr c 6) 63);
             Z.lor 128 (Z.land c 63)]
  else
    Ok [Z.lor 240 (Z.shiftr c 18);
        Z.lor 128 (Z.land (Z.shiftr c 12) 63);
        Z.lor 128 (Z.land (Z.shiftr c 6) 63);
        Z.lor 128 (Z.land c 63)].

Fixpoint utf8_encode (s : pystr) : result pybytes :=
  match s with
  | [] => Ok []
  | c :: s' =>
      b <- utf8_char c ;;
      bs <- utf8_encode s' ;;
      Ok (b ++ bs)
  end.

(** ** [bytes([x, y])] *)

Definition in_byte_range (x : Z) : bool := (0 <=? x) && (x <=? 255).

Definition bytes_of_list (xs : list Z) : result pybytes :=
  if forallb in_byte_range xs then Ok xs else Raise ByteRangeError.

(** ** [_tlv] (app.py lines 58-61)
<<
def _tlv(tag: int, val: str) -> bytes:
    b = val.encode("utf-8")
    if len(b) > 255: raise ValueError("TLV>255B")
    return bytes([tag, len(b)]) + b
>> *)

Definition _tlv (tag : Z) (val : pystr) : result pybytes :=
  b <- utf8_encode val ;;
  if Z.of_nat (List.length b) >? 255 then Raise ValueTooLarge
  else
    hd <- bytes_of_list [tag; Z.of_nat (List.length b)] ;;
    Ok (hd ++ b).

(** ** [base64.b64encode] (RFC 4648 alphabet, padded, no line breaks) *)

Definition b64_char (i : Z) : Z :=
  if i <? 26 then 65 + i
  else if i <? 52 then 97 + (i - 26)
  else if i <? 62 then 48 + (i - 52)
  else if i =? 62 then 43 else 47.

Fixpoint b64encode (bs : pybytes) : pystr :=
  match bs with
  | a :: b :: c :: rest =>
      let n := a * 65536 + b * 256 + c in
      [b64_char (n / 262144); b64_char (n / 4096 mod 64);
       b64_char (n / 64 mod 64); b64_char (n mod 64)] ++ b64encode rest
  | [a; b] =>
      let n := a * 65536 + b * 256 in
      [b64_char (n / 262144); b64_char (n / 4096 mod 64);
       b64_char (n / 64 mod 64); 61]
  | [a] =>
      let n := a * 65536 in
      [b64_char (n / 262144); b64_char (n / 4096 mod 64); 61; 61]
  | [] => []
  end.

(** ** [build_zatca_base64] (app.py lines 63-65)
<<
def build_zatca_base64(seller, vat, dt_iso, total, vat_s):
    payload = bytes().join([_tlv(1,seller), _tlv(2,vat), _tlv(3,dt_iso), _tlv(4,total), _tlv(5,vat_s)])
    return base64.b64encode(payload).decode("ascii")
>>
    [zatca_payload] is the byte-assembly step (line 64): the list elements are
    evaluated left to right, and the first exception aborts the call before
    the join runs. (The source writes the empty bytes literal where
    [bytes()] is shown.) *)

Definition zatca_payload (seller vat dt_iso total vat_s : pystr) : result pybytes :=
  t1 <- _tlv 1 seller ;;
  t2 <- _tlv 2 vat ;;
  t3 <- _tlv 3 dt_iso ;;
  t4 <- _tlv 4 total ;;
  t5 <- _tlv 5 vat_s ;;
  Ok (List.concat [t1; t2; t3; t4; t5]).

Definition build_zatca_base64 (seller vat dt_iso total vat_s : pystr) : result pystr :=
  payload <- zatca_payload seller vat dt_iso total vat_s ;;
  Ok (b64encode payload).

(** ** Receiving side of the QR payload

    The scanner of the QR symbol base64-decodes the text (RFC 4648, padded)
    and reads the TLV records back. Neither step is in [app.py]; they are the
    standard decoders the payload format is defined against. *)

Definition b64_index (c : Z) : option Z :=
  if (65 <=? c) && (c <=? 90) then Some (c - 65)
  else if (97 <=? c) && (c <=? 122) then Some (c - 97 + 26)
  else if (48 <=? c) && (c <=? 57) then Some (c - 48 + 52)
  else if c =? 43 then Some 62
  else if c =? 47 then Some 63
  else None.

Definition opt_bind {A B} (m : option A) (k : A -> option B) : option B :=
  match m with Some a => k a | None => None end.

Fixpoint b64decode (s : pystr) : option pybytes :=
  match s with
  | [] => Some []
  | c1 :: c2 :: c3 :: c4 :: rest =>
      opt_bind (b64_index c1) (fun i1 =>
      opt_bind (b64_index c2) (fun i2 =>
      match rest with
      | [] =>
          if (c3 =? 61) && (c4 =? 61) then
            Some [(i1 * 262144 + i2 * 4096) / 65536]
          else if c4 =? 61 then
            opt_bind (b64_index c3) (fun i3 =>
              let n := i1 * 262144 + i2 * 4096 + i3 * 64 in
              Some [n / 65536; n / 256 mod 256])
          else
            opt_bind (b64_index c3) (fun i3 =>
            opt_bind (b64_index c4) (fun i4 =>
              let n := i1 * 262144 + i2 * 4096 + i3 * 64 + i4 in
              Some [n / 65536; n / 256 mod 256; n mod 256]))
      | _ =>
          opt_bind (b64_index c3) (fun i3 =>
          opt_bind (b64_index c4) (fun i4 =>
          opt_bind (b64decode rest) (fun bs =>
            let n := i1 * 262144 + i2 * 4096 + i3 * 64 + i4 in
            Some ([n / 65536; n / 256 mod 256; n mod 256] ++ bs))))
      end))
  | _ => None
  end.

(** One TLV record read off the front of a byte string:
    (tag, length, value bytes, remaining bytes). *)
Definition decode_tlv (bs : pybytes) : option (Z * Z * pybytes * pybytes) :=
  match bs with
  | t :: l :: rest =>
      if Nat.leb (Z.to_nat l) (List.length rest)
      then Some (t, l, firstn (Z.to_nat l) rest, skipn (Z.to_nat l) rest)
      else None
  | _ => None
  end.

(** [n] TLV records read one after the other off a byte string, with
    nothing left over: the (tag, value bytes) pairs. *)
Fixpoint decode_records (n : nat) (bs : pybytes) : option (list (Z * pybytes)) :=
  match n with
  | O => match bs with [] => Some [] | _ => None end
  | S n' =>
      opt_bind (decode_tlv bs) (fun '(t, _, v, rest) =>
      opt_bind (decode_records n' rest) (fun rs => Some ((t, v) :: rs)))
  end.

(** ** Unicode character classes used by Python's [str] and [re]

    [is_nd]: general category Nd (decimal digits) of the Unicode database
    shipped with CPython 3.11 (Unicode 14.0). Python's [re] matches [\d] on
    [str] patterns with exactly these characters, and [int()] and
    [Decimal()] read them as digits. Every Nd block is a run 0..9. *)

Definition nd_starts : list Z :=
  [48; 1632; 1776; 1984; 2406; 2534; 2662; 2790; 2918; 3046; 3174; 3302;
   3430; 3558; 3664; 3792; 3872; 4160; 4240; 6112; 6160; 6470; 6608; 6784;
   6800; 6992; 7088; 7232; 7248; 42528; 43216; 43264; 43472; 43504; 43600;
   44016; 65296; 66720; 68912; 69734; 69872; 69942; 70096; 70384; 70736;
   70864; 71248; 71360; 71472; 71904; 72016; 72784; 73040; 73120; 92768;
   92864; 93008;
   (* U+1D7CE..U+1D7FF: five runs of mathematical digits *)
   120782; 120792; 120802; 120812; 120822;
   123200; 123632; 125264; 130032].

(** The digit value of [c], when [c] is in category Nd. *)
Definition nd_value (c : Z) : option Z :=
  fold_right (fun st acc => if (st <=? c) && (c <? st + 10) then Some (c - st) else acc)
    None nd_starts.

Definition is_nd (c : Z) : bool :=
  match nd_value c with Some _ => true | None => false end.

(** [str.isspace], which [str.strip()] with no argument uses. *)
Definition py_isspace (c : Z) : bool :=
  ((9 <=? c) && (c <=? 13)) || ((28 <=? c) && (c <=? 32)) || (c =? 133) ||
  (c =? 160) || (c =? 5760) || ((8192 <=? c) && (c <=? 8202)) ||
  (c =? 8232) || (c =? 8233) || (c =? 8239) || (c =? 8287) || (c =? 12288).

Fixpoint lstrip (s : pystr) : pystr :=
  match s with
  | c :: s' => if py_isspace c then lstrip s' else s
  | [] => []
  end.

(** [str.strip()] *)
Definition py_strip (s : pystr) : pystr := rev (lstrip (rev (lstrip s))).

(** ** [_clean_vat] (app.py line 44)
<<
def _clean_vat(v: str) -> str: return re.sub(r"\D", '', v or '')
>>
    [\D] matches every character that is not in category Nd; those are
    deleted. The argument is always a [str] here, so [v or ''] is [v]. *)

Definition _clean_vat (v : pystr) : pystr := filter is_nd v.

(** ** [sanitize] (app.py lines 77-82)
<<
ARABIC_DIGITS = str.maketrans("<U+0660 .. U+0669>", "0123456789")
def sanitize(s: str) -> str:
    s = (s or '').translate(ARABIC_DIGITS)
    s = re.sub(r"[\u200e\u200f\u202a-\u202e\u2066-\u2069\ufeff]", '', s)
    return ''.join(ch for ch in s if ord(ch) < 128).strip()
>> *)

Definition ARABIC_DIGITS (c : Z) : Z :=
  if (1632 <=? c) && (c <=? 1641) then c - 1632 + 48 else c.

Definition is_bidi_control (c : Z) : bool :=
  (c =? 8206) || (c =? 8207) || ((8234 <=? c) && (c <=? 8238)) ||
  ((8294 <=? c) && (c <=? 8297)) || (c =? 65279).

Definition sanitize (s : pystr) : pystr :=
  let s1 := map ARABIC_DIGITS s in
  let s2 := filter (fun c => negb (is_bidi_control c)) s1 in
  py_strip (filter (fun ch => ch <? 128) s2).

(** ** [decimal.Decimal] (CPython's C implementation, default context)

    A decimal is finite (sign, coefficient, exponent), infinite, or a NaN
    (sign, diagnostic payload, signalling flag). *)

Inductive decimal : Type :=
  | Finite (neg : bool) (coef : Z) (exp : Z)
  | DInf (neg : bool)
  | DNaN (neg : bool) (payload : Z) (signaling : bool).

(** Decimal digits of a natural number, most significant first ("0" for 0). *)
Fixpoint digits_fuel (fuel : nat) (n : Z) (acc : pystr) : pystr :=
  match fuel with
  | O => acc
  | S f => if n <? 10 then (48 + n) :: acc
           else digits_fuel f (n / 10) ((48 + n mod 10) :: acc)
  end.

Definition digits_of (n : Z) : pystr :=
  digits_fuel (S (Z.to_nat (Z.log2 n))) n [].

Definition ndigits (n : Z) : Z := Z.of_nat (List.length (digits_of n)).

Definition is_ascii_digit (c : Z) : bool := (48 <=? c) && (c <=? 57).

Definition value_of_digits (ds : pystr) : Z :=
  fold_left (fun acc d => acc * 10 + (d - 48)) ds 0.

Fixpoint span_digits (s : pystr) : pystr * pystr :=
  match s with
  | c :: s' =>
      if is_ascii_digit c then let (ds, r) := span_digits s' in (c :: ds, r)
      else ([], s)
  | [] => ([], [])
  end.

Definition to_lower (c : Z) : Z := if (65 <=? c) && (c <=? 90) then c + 32 else c.

(** Conversion of the argument to ASCII, as [numeric_as_ascii] in
    [_decimal.c] does: surrounding whitespace stripped, underscores dropped,
    inner whitespace kept as a space (which then fails to parse), non-ASCII
    decimal digits replaced by their ASCII digit, any other non-ASCII
    character (or NUL) making the conversion fail. *)
Fixpoint ascii_digits_of (s : pystr) : option pystr :=
  match s with
  | [] => Some []
  | c :: s' =>
      opt_bind (ascii_digits_of s') (fun r =>
        if c =? 95 then Some r
        else if (0 <? c) && (c <=? 127) then Some (c :: r)
        else if py_isspace c then Some (32 :: r)
        else match nd_value c with
             | Some d => Some ((48 + d) :: r)
             | None => None
             end)
  end.

Definition numeric_as_ascii (s : pystr) : option pystr := ascii_digits_of (py_strip s).

Definition parse_sign (s : pystr) : bool * pystr :=
  match s with
  | c :: r => if c =? 45 then (true, r) else if c =? 43 then (false, r) else (false, s)
  | [] => (false, [])
  end.

(** Numeric-string syntax of the [decimal] documentation, on ASCII input:
    [sign] (digits ['.' [digits]] | '.' digits) [('e'|'E') [sign] digits],
    or [sign] ("inf" | "infinity"), or [sign] ["s"] "nan" [digits], letters
    in any case. *)
Definition parse_numeric (s : pystr) : option decimal :=
  let (neg, body) := parse_sign s in
  let (ip, r1) := span_digits body in
  let '(fp, r2) := match r1 with
                   | c :: r => if c =? 46 then span_digits r else ([], r1)
                   | [] => ([], [])
                   end in
  let low := map to_lower body in
  if negb (Nat.eqb (List.length ip) 0 && Nat.eqb (List.length fp) 0) then
    let coef := value_of_digits (ip ++ fp) in
    let fexp := - Z.of_nat (List.length fp) in
    match r2 with
    | [] => Some (Finite neg coef fexp)
    | e :: r3 =>
        if to_lower e =? 101 then
          let (eneg, r4) := parse_sign r3 in
          let (ed, r5) := span_digits r4 in
          if negb (Nat.eqb (List.length ed) 0) && Nat.eqb (List.length r5) 0 then
            let ev := value_of_digits ed in
            Some (Finite neg coef ((if eneg then - ev else ev) + fexp))
          else None
        else None
    end
  else if list_eq_dec Z.eq_dec low (py "inf") then Some (DInf neg)
  else if list_eq_dec Z.eq_dec low (py "infinity") then Some (DInf neg)
  else
    let '(sig, r) := match low with
                     | c :: r => if c =? 115 then (true, r) else (false, low)
                     | [] => (false, [])
                     end in
    match r with
    | n1 :: a :: n2 :: diag =>
        if (n1 =? 110) && (a =? 97) && (n2 =? 110) then
          let (dd, rest) := span_digits diag in
          if Nat.eqb (List.length rest) 0
          then Some (DNaN neg (value_of_digits dd) sig) else None
        else None
    | _ => None
    end.

(** Exponent limits of the maximal context used for an exact conversion
    (64-bit build): [Emax = 10^18 - 1], [Etiny = Emin - prec + 1]. A finite
    value whose exponent falls outside them is rounded or clamped, which the
    conversion reports as [InvalidOperation]. *)
Definition MAX_EMAX : Z := 999999999999999999.
Definition MAX_ETINY : Z := -1999999999999999997.

Definition exact_in_maxcontext (d : decimal) : bool :=
  match d with
  | Finite _ c e =>
      if c =? 0 then (MAX_ETINY <=? e) && (e <=? MAX_EMAX)
      else (MAX_ETINY <=? e) && (e + ndigits c - 1 <=? MAX_EMAX)
  | _ => true
  end.

(** [Decimal(x)] for a [str] [x]; [None] is [InvalidOperation]. *)
Definition Decimal_of_str (x : pystr) : option decimal :=
  opt_bind (numeric_as_ascii x) (fun a =>
  opt_bind (parse_numeric a) (fun d =>
    if exact_in_maxcontext d then Some d else None)).

(** [_rescale] with [ROUND_HALF_UP]: drop the [k] last digits of [c] and
    round up when the first dropped digit is 5 or more. Dropping more digits
    than [c] has leaves 0. *)
Definition round_half_up_div (c k : Z) : Z :=
  if k >? ndigits c then 0
  else
    let p := 10 ^ k in
    if 2 * (c mod p) >=? p then c / p + 1 else c / p.

(** [d.quantize(Decimal("0.01"), rounding=ROUND_HALF_UP)] in the default
    context (prec 28, Emax 999999, InvalidOperation trapped). *)
Definition quantize_cents (d : decimal) : result decimal :=
  match d with
  | DNaN neg p false => Ok (DNaN neg (p mod 10 ^ 28) false)
  | DNaN _ _ true => Raise InvalidOperation
  | DInf _ => Raise InvalidOperation
  | Finite neg c e =>
      if c =? 0 then Ok (Finite neg 0 (-2))
      else
        let adj := e + ndigits c - 1 in
        if adj >? 999999 then Raise InvalidOperation
        else if adj + 2 + 1 >? 28 then Raise InvalidOperation
        else
          let c' := if e >=? -2 then c * 10 ^ (e + 2)
                    else round_half_up_div c (-2 - e) in
          if ndigits c' >? 28 then Raise InvalidOperation
          else Ok (Finite neg c' (-2))
  end.

(** [format(d, "f")] *)
Definition format_f (d : decimal) : pystr :=
  match d with
  | DNaN neg p _ =>
      (if neg then [45] else []) ++ py "NaN" ++ (if p =? 0 then [] else digits_of p)
  | DInf neg => (if neg then [45] else []) ++ py "Infinity"
  | Finite neg c e0 =>
      let e := if (c =? 0) && (e0 >? 0) then 0 else e0 in
      let ds := digits_of c in
      let dotplace := e + Z.of_nat (List.length ds) in
      let '(intpart, fracpart) :=
        if dotplace <? 0 then ([48], repeat 48 (Z.to_nat (- dotplace)) ++ ds)
        else if dotplace >? Z.of_nat (List.length ds) then
          (ds ++ repeat 48 (Z.to_nat dotplace - List.length ds), [])
        else
          (match firstn (Z.to_nat dotplace) ds with [] => [48] | ip => ip end,
           skipn (Z.to_nat dotplace) ds) in
      (if neg then [45] else []) ++ intpart ++
      (match fracpart with [] => [] | _ => 46 :: fracpart end)
  end.

(** ** [_fmt2] (app.py lines 46-49)
<<
def _fmt2(x: str) -> str:
    try: q = Decimal(x)
    except InvalidOperation: q = Decimal("0")
    return format(q.quantize(Decimal("0.01"), rounding=ROUND_HALF_UP), "f")
>> *)

Definition _fmt2 (x : pystr) : result pystr :=
  let q := match Decimal_of_str x with
           | Some d => d
           | None => Finite false 0 0
           end in
  r <- quantize_cents q ;;
  Ok (format_f r).

(** ** Calendar values ([datetime.date], [datetime.time]) *)

Record date := mkdate { year : Z; month : Z; day : Z }.
Record time := mktime { hour : Z; minute : Z; second : Z }.

(** ** The "generate QR" button handler (app.py lines 250-262)
<<
    if st.button(...):
        vclean = _clean_vat(st.session_state["qr_vat_number"])
        if len(vclean) != 15:
            st.error(...)
        else:
            iso = _iso_utc(st.session_state["qr_date"], st.session_state["qr_time"])
            b64 = build_zatca_base64(
                st.session_state["qr_seller"].strip(),
                vclean,
                iso,
                _fmt2(st.session_state["qr_total"]),
                _fmt2(st.session_state["qr_vat"])
            )
            st.code(b64, language="text")
            ...
>>
    The model covers the handler up to [st.code] (line 263): it either
    shows the VAT-length error, raises, or shows the base64 text. The
    arguments of [build_zatca_base64] are evaluated left to right before the
    call. The QR image drawn next by [make_qr(b64)] (line 264, the [qrcode]
    and PIL libraries, a fixed symbol version 14) is not modelled; it can
    raise on its own after the text is shown. *)

Record session := mksession {
  qr_vat_number : pystr;
  qr_seller : pystr;
  qr_total : pystr;
  qr_vat : pystr;
  qr_date : date;
  qr_time : time }.

Inductive qr_outcome : Type :=
  | VatLengthError
  | QrRaised (e : exn)
  | QrShown (b64 : pystr).

Section QrButton.

(** [_iso_utc] converts the naive local date-time through the machine's
    local timezone; the handler is stated for any such conversion. *)
Variable _iso_utc : date -> time -> pystr.

Definition qr_button (ss : session) : qr_outcome :=
  let vclean := _clean_vat (qr_vat_number ss) in
  if negb (Nat.eqb (List.length vclean) 15) then VatLengthError
  else
    let iso := _iso_utc (qr_date ss) (qr_time ss) in
    match (total <- _fmt2 (qr_total ss) ;;
           vat_s <- _fmt2 (qr_vat ss) ;;
           build_zatca_base64 (py_strip (qr_seller ss)) vclean iso total vat_s)
    with
    | Ok b64 => QrShown b64
    | Raise e => QrRaised e
    end.

End QrButton.

(** ** Backtracking regular-expression matching

    A matcher returns every way it can consume a prefix of the input, in the
    order Python's backtracking [re] engine tries them; [re.match] takes the
    first one. *)

Definition matcher (A : Type) : Type := pystr -> list (A * pystr).

Definition m_char (p : Z -> bool) : matcher Z :=
  fun s => match s with c :: r => if p c then [(c, r)] else [] | [] => [] end.

Definition m_alt {A} (m1 m2 : matcher A) : matcher A := fun s => m1 s ++ m2 s.

Definition m_bind {A B} (m : matcher A) (k : A -> matcher B) : matcher B :=
  fun s => flat_map (fun '(a, r) => k a r) (m s).

Definition m_ret {A} (a : A) : matcher A := fun s => [(a, s)].

(** Two characters in sequence, captured together. *)
Definition m_two (p q : Z -> bool) : matcher pystr :=
  m_bind (m_char p) (fun a => m_bind (m_char q) (fun b => m_ret [a; b])).

Definition m_one (p : Z -> bool) : matcher pystr :=
  m_bind (m_char p) (fun a => m_ret [a]).

Definition is_lit (c : Z) : Z -> bool := fun x => x =? c.
Definition in_range (lo hi : Z) : Z -> bool := fun x => (lo <=? x) && (x <=? hi).

(** [\s+] (greedy): the longest run of whitespace first, then shorter ones. *)
Fixpoint ws_run (s : pystr) : nat :=
  match s with c :: r => if py_isspace c then S (ws_run r) else O | [] => O end.

Definition m_ws_plus : matcher unit :=
  fun s => map (fun k => (tt, skipn k s)) (rev (seq 1 (ws_run s))).

(** ** [datetime.strptime(s, "%d/%m/%Y, %H:%M:%S")]

    [_strptime] turns the format into the regex
    [(?P<d>3[0-1]|[1-2]\d|0[1-9]|[1-9]| [1-9])/(?P<m>1[0-2]|0[1-9]|[1-9])/(?P<Y>\d\d\d\d),\s+(?P<H>2[0-3]|[0-1]\d|\d):(?P<M>[0-5]\d|\d):(?P<S>6[0-1]|[0-5]\d|\d)],
    takes the first match and rejects it when input is left over
    ("unconverted data remains"); [datetime] then rejects invalid dates and
    seconds 60 and 61. *)

Definition re_d : matcher pystr :=
  m_alt (m_two (is_lit 51) (in_range 48 49))
  (m_alt (m_two (in_range 49 50) is_nd)
  (m_alt (m_two (is_lit 48) (in_range 49 57))
  (m_alt (m_one (in_range 49 57))
         (m_two (is_lit 32) (in_range 49 57))))).

Definition re_m : matcher pystr :=
  m_alt (m_two (is_lit 49) (in_range 48 50))
  (m_alt (m_two (is_lit 48) (in_range 49 57))
         (m_one (in_range 49 57))).

Definition re_Y : matcher pystr :=
  m_bind (m_two is_nd is_nd) (fun a => m_bind (m_two is_nd is_nd) (fun b => m_ret (a ++ b))).

Definition re_H : matcher pystr :=
  m_alt (m_two (is_lit 50) (in_range 48 51))
  (m_alt (m_two (in_range 48 49) is_nd)
         (m_one is_nd)).

Definition re_M : matcher pystr :=
  m_alt (m_two (in_range 48 53) is_nd) (m_one is_nd).

Definition re_S : matcher pystr :=
  m_alt (m_two (is_lit 54) (in_range 48 49))
  (m_alt (m_two (in_range 48 53) is_nd)
         (m_one is_nd)).

Definition m_lit (c : Z) : matcher unit := m_bind (m_char (is_lit c)) (fun _ => m_ret tt).

Definition display_regex : matcher (pystr * pystr * pystr * pystr * pystr * pystr) :=
  m_bind re_d (fun d => m_bind (m_lit 47) (fun _ =>
  m_bind re_m (fun mo => m_bind (m_lit 47) (fun _ =>
  m_bind re_Y (fun y => m_bind (m_lit 44) (fun _ => m_bind m_ws_plus (fun _ =>
  m_bind re_H (fun h => m_bind (m_lit 58) (fun _ =>
  m_bind re_M (fun mi => m_bind (m_lit 58) (fun _ =>
  m_bind re_S (fun se => m_ret (d, mo, y, h, mi, se))))))))))))).

(** [int()] of a captured group: the groups hold decimal digits, possibly
    after one leading space ([ [1-9]] in [%d]). *)
Definition int_of_group (g : pystr) : Z :=
  fold_left (fun acc c => acc * 10 + match nd_value c with Some v => v | None => 0 end)
    (lstrip g) 0.

Record datetime := mkdt {
  dt_year : Z; dt_month : Z; dt_day : Z; dt_hour : Z; dt_minute : Z; dt_second : Z }.

Definition is_leap (y : Z) : bool :=
  (y mod 4 =? 0) && (negb (y mod 100 =? 0) || (y mod 400 =? 0)).

Definition days_in_month (y m : Z) : Z :=
  if m =? 2 then (if is_leap y then 29 else 28)
  else if (m =? 4) || (m =? 6) || (m =? 9) || (m =? 11) then 30 else 31.

(** The argument checks of the [datetime] constructor. *)
Definition valid_datetime (dt : datetime) : bool :=
  in_range 1 9999 (dt_year dt) && in_range 1 12 (dt_month dt) &&
  in_range 1 (days_in_month (dt_year dt) (dt_month dt)) (dt_day dt) &&
  in_range 0 23 (dt_hour dt) && in_range 0 59 (dt_minute dt) &&
  in_range 0 59 (dt_second dt).

Definition strptime_display (s : pystr) : option datetime :=
  match display_regex s with
  | ((d, mo, y, h, mi, se), rest) :: _ =>
      match rest with
      | [] =>
          let dt := mkdt (int_of_group y) (int_of_group mo) (int_of_group d)
                         (int_of_group h) (int_of_group mi) (int_of_group se) in
          if valid_datetime dt then Some dt else None
      | _ :: _ => None
      end
  | [] => None
  end.

(** ** [strftime]

    [%m %d %H %M %S] are two-digit zero-padded. [%Y] is the C library's:
    with glibc (CPython on Linux) the year is written without padding, so
    year 999 is "999". *)
Definition pad2 (n : Z) : pystr := [48 + n / 10; 48 + n mod 10].
Definition strftime_Y (y : Z) : pystr := digits_of y.

Definition strftime_pdf (dt : datetime) : pystr :=
  py "D:" ++ strftime_Y (dt_year dt) ++ pad2 (dt_month dt) ++ pad2 (dt_day dt) ++
  pad2 (dt_hour dt) ++ pad2 (dt_minute dt) ++ pad2 (dt_second dt) ++ py "+03'00'".

Definition strftime_display (dt : datetime) : pystr :=
  pad2 (dt_day dt) ++ [47] ++ pad2 (dt_month dt) ++ [47] ++ strftime_Y (dt_year dt) ++
  py ", " ++ pad2 (dt_hour dt) ++ [58] ++ pad2 (dt_minute dt) ++ [58] ++ pad2 (dt_second dt).

(** ** [display_date_to_pdf_date] (app.py lines 116-118)
<<
def display_date_to_pdf_date(s):
    try: return datetime.strptime(s,"%d/%m/%Y, %H:%M:%S").strftime("D:%Y%m%d%H%M%S+03'00'")
    except: return s
>> *)

Definition display_date_to_pdf_date (s : pystr) : pystr :=
  match strptime_display s with
  | Some dt => strftime_pdf dt
  | None => s
  end.

(** ** [pdf_date_to_display_date] (app.py lines 106-114), on [str] arguments
<<
def pdf_date_to_display_date(s):
    if not s or not isinstance(s, str): return ''
    if s.startswith("D:"): s = s[2:]
    m = re.match(r"^(\d{4})(\d{2})(\d{2})(\d{2})(\d{2})(\d{2})", s)
    if m:
        y,M,d,H,m_,sec = m.groups()
        try: return datetime(int(y),int(M),int(d),int(H),int(m_),int(sec)).strftime("%d/%m/%Y, %H:%M:%S")
        except: return s
    return s
>> *)

(** [\d{n}] at the front of the string. *)
Fixpoint take_digits (n : nat) (s : pystr) : option (pystr * pystr) :=
  match n with
  | O => Some ([], s)
  | S k =>
      match s with
      | c :: r => if is_nd c then
                    opt_bind (take_digits k r) (fun '(ds, r') => Some (c :: ds, r'))
                  else None
      | [] => None
      end
  end.

Definition pdf_regex (s : pystr) : option (pystr * pystr * pystr * pystr * pystr * pystr) :=
  opt_bind (take_digits 4 s) (fun '(y, r1) =>
  opt_bind (take_digits 2 r1) (fun '(mo, r2) =>
  opt_bind (take_digits 2 r2) (fun '(d, r3) =>
  opt_bind (take_digits 2 r3) (fun '(h, r4) =>
  opt_bind (take_digits 2 r4) (fun '(mi, r5) =>
  opt_bind (take_digits 2 r5) (fun '(se, _) =>
    Some (y, mo, d, h, mi, se))))))).

Definition starts_with_D (s : pystr) : bool :=
  match s with 68 :: 58 :: _ => true | _ => false end.

Definition pdf_date_to_display_date (s0 : pystr) : pystr :=
  match s0 with
  | [] => []
  | _ :: _ =>
      let s := if starts_with_D s0 then skipn 2 s0 else s0 in
      match pdf_regex s with
      | Some (y, mo, d, h, mi, se) =>
          let dt := mkdt (int_of_group y) (int_of_group mo) (int_of_group d)
                         (int_of_group h) (int_of_group mi) (int_of_group se) in
          if valid_datetime dt then strftime_display dt else s
      | None => s
      end
  end.

(** ** The display and PDF date forms with a zero-padded four-digit year *)

Definition pad4 (y : Z) : pystr :=
  [48 + y / 1000; 48 + y / 100 mod 10; 48 + y / 10 mod 10; 48 + y mod 10].

Definition display_form (dt : datetime) : pystr :=
  pad2 (dt_day dt) ++ [47] ++ pad2 (dt_month dt) ++ [47] ++ pad4 (dt_year dt) ++
  py ", " ++ pad2 (dt_hour dt) ++ [58] ++ pad2 (dt_minute dt) ++ [58] ++ pad2 (dt_second dt).

Definition pdf_form (dt : datetime) : pystr :=
  py "D:" ++ pad4 (dt_year dt) ++ pad2 (dt_month dt) ++ pad2 (dt_day dt) ++
  pad2 (dt_hour dt) ++ pad2 (dt_minute dt) ++ pad2 (dt_second dt) ++ py "+03'00'".

(** The fourteen digits YYYYMMDDHHMMSS of a PDF date, as the regular
    expression of [pdf_date_to_display_date] reads them. *)
Definition pdf_digits (dt : datetime) : pystr :=
  pad4 (dt_year dt) ++ pad2 (dt_month dt) ++ pad2 (dt_day dt) ++
  pad2 (dt_hour dt) ++ pad2 (dt_minute dt) ++ pad2 (dt_second dt).

(** The text [pdf_date_to_display_date] falls back to: its input without a
    leading "D:". *)
Definition drop_D (s : pystr) : pystr := if starts_with_D s then skipn 2 s else s.

(** ** [_iso_utc] (app.py lines 51-56)
<<
def _iso_utc(d: date, t: time) -> str:
    local_dt = datetime.combine(d, t.replace(microsecond=0))
    try:
        return local_dt.astimezone(timezone.utc).strftime("%Y-%m-%dT%H:%M:%SZ")
    except Exception:
        return local_dt.strftime("%Y-%m-%dT%H:%M:%SZ")
>>
    [astimezone] reads the machine's timezone database, so it is an argument
    here: [None] stands for the exception it raises (an overflow at the ends
    of the supported range), [Some u] for the converted date-time. The
    [time] record carries no microseconds, so [t.replace(microsecond=0)] is
    [t]. *)

Definition datetime_combine (d : date) (t : time) : datetime :=
  mkdt (year d) (month d) (day d) (hour t) (minute t) (second t).

Definition strftime_iso (dt : datetime) : pystr :=
  strftime_Y (dt_year dt) ++ [45] ++ pad2 (dt_month dt) ++ [45] ++ pad2 (dt_day dt) ++
  [84] ++ pad2 (dt_hour dt) ++ [58] ++ pad2 (dt_minute dt) ++ [58] ++ pad2 (dt_second dt) ++
  [90].

Definition _iso_utc (astimezone_utc : datetime -> option datetime) (d : date) (t : time)
  : pystr :=
  let local_dt := datetime_combine d t in
  match astimezone_utc local_dt with
  | Some u => strftime_iso u
  | None => strftime_iso local_dt
  end.

(** ** [parse_display_dt] (app.py lines 120-125)
<<
def parse_display_dt(s: str):
    try:
        dt = datetime.strptime(s.strip(), "%d/%m/%Y, %H:%M:%S")
        return dt.date(), dt.time().replace(microsecond=0)
    except Exception:
        return None, None
>>
    [None] is the pair [(None, None)]. *)

Definition parse_display_dt (s : pystr) : option (date * time) :=
  match strptime_display (py_strip s) with
  | Some dt => Some (mkdate (dt_year dt) (dt_month dt) (dt_day dt),
                     mktime (dt_hour dt) (dt_minute dt) (dt_second dt))
  | None => None
  end.

(** ** Sending /CreationDate to the QR generator (app.py lines 207-217, 245-247)
<<
        if st.button(...):
            cre = st.session_state.get("/CreationDate", '')
            d, t = parse_display_dt(cre)
            if d and t:
                st.session_state["qr_date"]    = d
                st.session_state["qr_time"]    = t
                st.session_state["qr_time_hm"] = t.replace(second=0)
                st.session_state["qr_secs"]    = t.second
                st.success(...)
            else:
                st.error(...)
    ...
    st.session_state["qr_time"] = time(hm_time.hour, hm_time.minute, int(secs))
>>
    [date] and [time] objects are always true (since Python 3.5), so the
    test [d and t] is the success of the parse. The QR section rebuilds
    [qr_time] from the hour-minute widget and the seconds widget on every
    run ([qr_time_of]). *)

Inductive send_outcome : Type :=
  | SendError
  | SendDone (d : date) (t : time) (time_hm : time) (secs : Z).

Definition send_creation_to_qr (cre : pystr) : send_outcome :=
  match parse_display_dt cre with
  | Some (d, t) => SendDone d t (mktime (hour t) (minute t) 0) (second t)
  | None => SendError
  end.

Definition qr_time_of (hm_time : time) (secs : Z) : time :=
  mktime (hour hm_time) (minute hm_time) secs.

(** ** Python dicts

    A dict is an association list in insertion order; assigning to an
    existing key replaces its value in place, assigning to a new key appends
    it. *)

Inductive pyval : Type :=
  | VStr (s : pystr)      (* a [str], [TextStringObject] included *)
  | VObj (id : Z).        (* any other object, e.g. an indirect PDF object *)

Definition dict (V : Type) : Type := list (pystr * V).

Definition pystr_eqb (a b : pystr) : bool :=
  if list_eq_dec Z.eq_dec a b then true else false.

Fixpoint dict_get {V} (d : dict V) (k : pystr) : option V :=
  match d with
  | [] => None
  | (k', v) :: d' => if pystr_eqb k' k then Some v else dict_get d' k
  end.

(** [d.get(k, default)] *)
Definition dict_get_or {V} (d : dict V) (k : pystr) (default : V) : V :=
  match dict_get d k with Some v => v | None => default end.

(** [d[k] = v] *)
Fixpoint dict_set {V} (d : dict V) (k : pystr) (v : V) : dict V :=
  match d with
  | [] => [(k, v)]
  | (k', v') :: d' => if pystr_eqb k' k then (k', v) :: d' else (k', v') :: dict_set d' k v
  end.

(** [k in d] *)
Definition dict_mem {V} (d : dict V) (k : pystr) : bool :=
  match dict_get d k with Some _ => true | None => false end.

(** [d.setdefault(k, v)] (its return value unused) *)
Definition dict_setdefault {V} (d : dict V) (k : pystr) (v : V) : dict V :=
  if dict_mem d k then d else dict_set d k v.

(** [k in l] for a list or tuple of strings *)
Definition list_mem (k : pystr) (l : list pystr) : bool := existsb (pystr_eqb k) l.

(** ** [read_meta] (app.py lines 104, 127-134)
<<
BASE_KEYS = ["/ModDate","/CreationDate","/Producer","/Title","/Author","/Subject","/Keywords","/Creator"]
def read_meta(file):
    file.seek(0); r = PdfReader(file); md = r.metadata or {}
    keys = BASE_KEYS + [k for k in md.keys() if k not in BASE_KEYS]
    out = {}
    for k in keys:
        v = md.get(k, '')
        out[k] = pdf_date_to_display_date(v) if k in ("/CreationDate","/ModDate") else v
    return out, keys
>>
    The argument is [r.metadata]: [None] or the document-information
    dictionary (an empty one is falsy and replaced by an empty dict, which
    changes nothing). [pdf_date_to_display_date] returns '' for a value that
    is not a [str]. *)

Definition BASE_KEYS : list pystr :=
  map py ["/ModDate"; "/CreationDate"; "/Producer"; "/Title"; "/Author"; "/Subject";
          "/Keywords"; "/Creator"]%string.

Definition is_date_key (k : pystr) : bool := list_mem k [py "/CreationDate"; py "/ModDate"].

Definition pdf_date_to_display_date_v (v : pyval) : pystr :=
  match v with VStr s => pdf_date_to_display_date s | VObj _ => [] end.

Definition read_meta (metadata : option (dict pyval)) : dict pyval * list pystr :=
  let md := match metadata with Some m => m | None => [] end in
  let keys := BASE_KEYS ++ filter (fun k => negb (list_mem k BASE_KEYS)) (map fst md) in
  let out := fold_left (fun out k =>
                let v := dict_get_or md k (VStr []) in
                dict_set out k (if is_date_key k then VStr (pdf_date_to_display_date_v v) else v))
              keys [] in
  (out, keys).

(** ** [write_meta] (app.py lines 136-143)
<<
def write_meta(file, new_md):
    file.seek(0)
    r = PdfReader(file); w = PdfWriter()
    for p in r.pages: w.add_page(p)
    final = {}
    for k,v in new_md.items():
        final[k] = display_date_to_pdf_date(v) if k in ("/CreationDate","/ModDate") else v
    out = io.BytesIO(); w.write(out); out.seek(0); return out
>>
    The written file is the writer's page list and its document-information
    dictionary; a fresh [PdfWriter()] starts with [writer_default_info].
    The values of [new_md] come from text inputs and are strings. *)

Section WriteMeta.

Variable page : Type.
Variable writer_default_info : dict pyval.

Record pdf_writer := mkwriter { w_pages : list page; w_info : dict pyval }.

Definition add_page (w : pdf_writer) (p : page) : pdf_writer :=
  mkwriter (w_pages w ++ [p]) (w_info w).

Definition write_meta (pages : list page) (new_md : dict pystr) : list page * dict pyval :=
  let w := fold_left add_page pages (mkwriter [] writer_default_info) in
  let final := fold_left (fun final '(k, v) =>
                 dict_set final k (if is_date_key k then display_date_to_pdf_date v else v))
               new_md [] in
  (w_pages w, w_info w).

End WriteMeta.

(** ** Streamlit session state of the PDF section

    [st.session_state] is a dict from names to values; the values the PDF
    section reads and writes are strings or PDF objects ([SV]), the key list
    ([SKeys]) and the metadata dict ([SMeta]); [SOther] is any other value
    (dates, times, flags of the other sections). *)

Inductive sval : Type :=
  | SV (v : pyval)
  | SKeys (ks : list pystr)
  | SMeta (m : dict pyval)
  | SOther (id : Z).

Definition pyval_eq_dec (a b : pyval) : {a = b} + {a <> b}.
Proof. decide equality; [apply (list_eq_dec Z.eq_dec) | apply Z.eq_dec]. Defined.

Definition sval_eq_dec (a b : sval) : {a = b} + {a <> b}.
Proof.
  decide equality;
    [apply pyval_eq_dec | apply (list_eq_dec (list_eq_dec Z.eq_dec)) | | apply Z.eq_dec].
  apply list_eq_dec. intros [k1 v1] [k2 v2].
  destruct (list_eq_dec Z.eq_dec k1 k2), (pyval_eq_dec v1 v2);
    [left; congruence | right; congruence | right; congruence | right; congruence].
Defined.

(** Python [==] on these values *)
Definition sval_eqb (a b : sval) : bool := if sval_eq_dec a b then true else false.

(** The upload step (app.py lines 174-184)
<<
    if up:
        if "meta_dict" not in st.session_state or st.session_state.get("_last_file_name") != up.name:
            meta, keys = read_meta(up)
            st.session_state.meta_keys = keys
            st.session_state.meta_dict = meta
            st.session_state._last_file_name = up.name
            for k, v in meta.items():
                if k not in st.session_state:
                    st.session_state[k] = v
            st.session_state.setdefault("_prev_creation", st.session_state.get("/CreationDate", ''))
            st.session_state.setdefault("_prev_mod",       st.session_state.get("/ModDate", ''))
>> *)

Definition on_upload (ss : dict sval) (name : pystr) (metadata : option (dict pyval))
  : dict sval :=
  let reload := negb (dict_mem ss (py "meta_dict")) ||
                match dict_get ss (py "_last_file_name") with
                | Some v => negb (sval_eqb v (SV (VStr name)))
                | None => true
                end in
  if reload then
    let '(meta, keys) := read_meta metadata in
    let ss1 := dict_set ss (py "meta_keys") (SKeys keys) in
    let ss2 := dict_set ss1 (py "meta_dict") (SMeta meta) in
    let ss3 := dict_set ss2 (py "_last_file_name") (SV (VStr name)) in
    let ss4 := fold_left (fun s '(k, v) => if dict_mem s k then s else dict_set s k (SV v))
                 meta ss3 in
    let ss5 := dict_setdefault ss4 (py "_prev_creation")
                 (dict_get_or ss4 (py "/CreationDate") (SV (VStr []))) in
    dict_setdefault ss5 (py "_prev_mod") (dict_get_or ss5 (py "/ModDate") (SV (VStr [])))
  else ss.

(** The two-way synchronisation of /ModDate and /CreationDate (app.py
    lines 188-198), run on every rerun while the checkbox is ticked:
<<
        if auto:
            c_now = st.session_state.get("/CreationDate", '')
            m_now = st.session_state.get("/ModDate", '')
            pc = st.session_state.get("_prev_creation", c_now)
            pm = st.session_state.get("_prev_mod", m_now)
            if c_now != pc and m_now == pm:
                st.session_state["/ModDate"] = c_now; m_now = c_now
            elif m_now != pm and c_now == pc:
                st.session_state["/CreationDate"] = m_now; c_now = m_now
            st.session_state["_prev_creation"] = c_now
            st.session_state["_prev_mod"]      = m_now
>> *)

Definition auto_sync (ss : dict sval) : dict sval :=
  let c_now := dict_get_or ss (py "/CreationDate") (SV (VStr [])) in
  let m_now := dict_get_or ss (py "/ModDate") (SV (VStr [])) in
  let pc := dict_get_or ss (py "_prev_creation") c_now in
  let pm := dict_get_or ss (py "_prev_mod") m_now in
  let '(ss1, c1, m1) :=
    if negb (sval_eqb c_now pc) && sval_eqb m_now pm then
      (dict_set ss (py "/ModDate") c_now, c_now, c_now)
    else if negb (sval_eqb m_now pm) && sval_eqb c_now pc then
      (dict_set ss (py "/CreationDate") m_now, m_now, m_now)
    else (ss, c_now, m_now) in
  dict_set (dict_set ss1 (py "_prev_creation") c1) (py "_prev_mod") m1.

(** ** Fixtures and reference definitions used by the proofs *)

(** A matcher's first result. *)
Definition first_match {A} (m : matcher A) (s : pystr) (a : A) (r : pystr) : Prop :=
  exists tl, m s = (a, r) :: tl.

(** What the Code128 path promises for one input character: Arabic-Indic
    digits become ASCII digits, other ASCII characters stay, everything else
    (bidirectional controls included) goes. *)
Definition sanitize_char_spec (c : Z) : pystr :=
  if (1632 <=? c) && (c <=? 1641) then [c - 1632 + 48]
  else if c <? 128 then [c]
  else [].

Definition iso_fixed (_ : date) (_ : time) : pystr := py "2024-01-01T12:00:00Z".

Definition session_blank_seller : session :=
  mksession (py "123456789012345") [32; 32] (py "115.00") (py "15.00")
    (mkdate 2024 1 1) (mktime 15 0 0).

(** A session whose VAT number is fifteen Arabic-Indic digits
    (U+0661..U+0669, U+0660, U+0661..U+0665). *)
Definition session_arabic_vat : session :=
  mksession [1633; 1634; 1635; 1636; 1637; 1638; 1639; 1640; 1641; 1632;
             1633; 1634; 1635; 1636; 1637]
    (py "Acme") (py "115.00") (py "15.00") (mkdate 2024 1 1) (mktime 12 0 0).

(** A session whose total does not fit the 28-digit quantization, and a
    timezone conversion that always overflows (the fallback path). *)
Definition session_huge_total : session :=
  mksession (py "300000000000003") (py " Acme ") (py "1e30") (py "15")
    (mkdate 2024 1 1) (mktime 12 0 0).

Definition tz_overflow (_ : datetime) : option datetime := None.

(** An ASCII decimal digit. *)
Definition is_digit_char (c : Z) : Prop := 48 <= c <= 57.

(** A decimal with non-negative coefficient or payload, as [Decimal()]
    builds them. *)
Definition dec_nonneg (d : decimal) : Prop :=
  match d with
  | Finite _ c _ => 0 <= c
  | DNaN _ p _ => 0 <= p
  | DInf _ => True
  end.

(** The values [quantize_cents] returns: a finite number with exponent -2
    and at most 28 digits, or a quiet NaN with at most 28 payload digits. *)
Definition cents_form (r : decimal) : Prop :=
  (exists neg c, r = Finite neg c (-2) /\ 0 <= c < 10 ^ 28) \/
  (exists neg p, r = DNaN neg p false /\ 0 <= p < 10 ^ 28).

Definition sign_str (neg : bool) : pystr := if neg then [45] else [].

(** * Proofs *)

(** ** TLV encoder *)

Lemma tlv_eq (tag : Z) (val : pystr) (b : pybytes) :
  0 <= tag <= 255 ->
  utf8_encode val = Ok b ->
  _tlv tag val =
    if Z.of_nat (List.length b) >? 255 then Raise ValueTooLarge
    else Ok (tag :: Z.of_nat (List.length b) :: b).
Proof.
  intros Htag Hb. unfold _tlv. rewrite Hb. simpl.
  destruct (Z.of_nat (List.length b) >? 255) eqn:E; [reflexivity |].
  rewrite Z.gtb_ltb, Z.ltb_ge in E.
  unfold bytes_of_list, in_byte_range. simpl.
  replace ((0 <=? tag) && (tag <=? 255)) with true
    by (symmetry; apply andb_true_iff; split; apply Z.leb_le; lia).
  replace ((0 <=? Z.of_nat (List.length b)) && (Z.of_nat (List.length b) <=? 255))
    with true by (symmetry; apply andb_true_iff; split; apply Z.leb_le; lia).
  reflexivity.
Qed.

(** C2: for a tag in [1, 255] and a value whose UTF-8 encoding [b] has at
    most 255 bytes, [_tlv] returns the tag byte, the length byte
    [len(b)], then [b] and nothing else; decoding that record gives back the
    tag, the length and exactly the bytes [b], with nothing left over. *)
Theorem tlv_roundtrip (tag : Z) (val : pystr) (b : pybytes) :
  1 <= tag <= 255 ->
  utf8_encode val = Ok b ->
  Z.of_nat (List.length b) <= 255 ->
  _tlv tag val = Ok (tag :: Z.of_nat (List.length b) :: b) /\
  decode_tlv (tag :: Z.of_nat (List.length b) :: b)
    = Some (tag, Z.of_nat (List.length b), b, []).
Proof.
  intros Htag Hb Hlen. split.
  - rewrite (tlv_eq tag val b) by (auto; lia).
    replace (Z.of_nat (List.length b) >? 255) with false
      by (symmetry; rewrite Z.gtb_ltb; apply Z.ltb_ge; lia).
    reflexivity.
  - unfold decode_tlv. rewrite Nat2Z.id, Nat.leb_refl.
    rewrite firstn_all, skipn_all. reflexivity.
Qed.

Lemma tlv_roundtrip_witness :
  utf8_encode (py "Acme") = Ok (py "Acme") /\
  _tlv 1 (py "Acme") = Ok (1 :: 4 :: py "Acme") /\
  decode_tlv (1 :: 4 :: py "Acme") = Some (1, 4, py "Acme", []).
Proof.
  split; [reflexivity |].
  exact (tlv_roundtrip 1 (py "Acme") (py "Acme")
           ltac:(lia) eq_refl ltac:(simpl; lia)).
Defined.

(** C3: when the UTF-8 encoding of the value is longer than 255 bytes,
    [_tlv] raises [ValueTooLarge] (whatever the tag) and returns no bytes. *)
Theorem tlv_oversize (tag : Z) (val : pystr) (b : pybytes) :
  utf8_encode val = Ok b ->
  Z.of_nat (List.length b) > 255 ->
  _tlv tag val = Raise ValueTooLarge.
Proof.
  intros Hb Hlen. unfold _tlv. rewrite Hb. simpl.
  replace (Z.of_nat (List.length b) >? 255) with true
    by (symmetry; rewrite Z.gtb_ltb; apply Z.ltb_lt; lia).
  reflexivity.
Qed.

Lemma tlv_oversize_witness :
  utf8_encode (repeat 97 256) = Ok (repeat 97 256) /\
  Z.of_nat (List.length (repeat 97 256)) > 255 /\
  _tlv 0 (repeat 97 256) = Raise ValueTooLarge.
Proof.
  split; [vm_compute; reflexivity |]. split; [vm_compute; reflexivity |].
  exact (tlv_oversize 0 (repeat 97 256) (repeat 97 256)
           ltac:(vm_compute; reflexivity) ltac:(vm_compute; reflexivity)).
Defined.

(** ** Payload assembly *)

Lemma tlv_within (tag : Z) (val : pystr) (b : pybytes) :
  0 <= tag <= 255 -> utf8_encode val = Ok b ->
  Z.of_nat (List.length b) <= 255 ->
  _tlv tag val = Ok (tag :: Z.of_nat (List.length b) :: b).
Proof.
  intros Ht Hb Hl. rewrite (tlv_eq tag val b Ht Hb).
  replace (Z.of_nat (List.length b) >? 255) with false
    by (symmetry; rewrite Z.gtb_ltb; apply Z.ltb_ge; lia).
  reflexivity.
Qed.

(** Each field of [zatca_payload] either encodes or raises [ValueTooLarge]. *)
Lemma tlv_ok_or_too_large (tag : Z) (val : pystr) (b : pybytes) :
  0 <= tag <= 255 -> utf8_encode val = Ok b ->
  (Z.of_nat (List.length b) <= 255 /\
     _tlv tag val = Ok (tag :: Z.of_nat (List.length b) :: b)) \/
  (Z.of_nat (List.length b) > 255 /\ _tlv tag val = Raise ValueTooLarge).
Proof.
  intros Ht Hb.
  destruct (Z_le_gt_dec (Z.of_nat (List.length b)) 255) as [Hl | Hl].
  - left. split; [exact Hl | apply tlv_within; assumption].
  - right. split; [exact Hl | apply (tlv_oversize tag val b); assumption].
Qed.

(** C1: for five fields that have UTF-8 encodings, if every encoding has at
    most 255 bytes then the byte-assembly step returns exactly
    [_tlv(1,seller) ++ _tlv(2,vat) ++ _tlv(3,dt_iso) ++ _tlv(4,total) ++
    _tlv(5,vat_s)]; if any of them is longer than 255 bytes, the whole call
    raises [ValueTooLarge] and returns no payload. *)
Theorem zatca_payload_all_or_nothing
    (seller vat dt_iso total vat_s : pystr) (b1 b2 b3 b4 b5 : pybytes) :
  utf8_encode seller = Ok b1 -> utf8_encode vat = Ok b2 ->
  utf8_encode dt_iso = Ok b3 -> utf8_encode total = Ok b4 ->
  utf8_encode vat_s = Ok b5 ->
  (Forall (fun b : pybytes => Z.of_nat (List.length b) <= 255)
          [b1; b2; b3; b4; b5] ->
   exists e1 e2 e3 e4 e5,
     _tlv 1 seller = Ok e1 /\ _tlv 2 vat = Ok e2 /\ _tlv 3 dt_iso = Ok e3 /\
     _tlv 4 total = Ok e4 /\ _tlv 5 vat_s = Ok e5 /\
     zatca_payload seller vat dt_iso total vat_s
       = Ok (e1 ++ e2 ++ e3 ++ e4 ++ e5)) /\
  (Exists (fun b : pybytes => Z.of_nat (List.length b) > 255)
          [b1; b2; b3; b4; b5] ->
   zatca_payload seller vat dt_iso total vat_s = Raise ValueTooLarge).
Proof.
  intros H1 H2 H3 H4 H5. split.
  - intros Hall.
    repeat match goal with H : Forall _ (_ :: _) |- _ => inversion_clear H end.
    exists (1 :: Z.of_nat (List.length b1) :: b1),
           (2 :: Z.of_nat (List.length b2) :: b2),
           (3 :: Z.of_nat (List.length b3) :: b3),
           (4 :: Z.of_nat (List.length b4) :: b4),
           (5 :: Z.of_nat (List.length b5) :: b5).
    unfold zatca_payload.
    rewrite (tlv_within 1 seller b1), (tlv_within 2 vat b2),
      (tlv_within 3 dt_iso b3), (tlv_within 4 total b4),
      (tlv_within 5 vat_s b5) by (assumption || lia).
    repeat split.
    unfold bind. cbn [List.concat]. rewrite app_nil_r. reflexivity.
  - intros Hex. unfold zatca_payload.
    destruct (tlv_ok_or_too_large 1 seller b1 ltac:(lia) H1) as [[L1 ->] | [L1 ->]];
      [| reflexivity]; simpl.
    destruct (tlv_ok_or_too_large 2 vat b2 ltac:(lia) H2) as [[L2 ->] | [L2 ->]];
      [| reflexivity]; simpl.
    destruct (tlv_ok_or_too_large 3 dt_iso b3 ltac:(lia) H3) as [[L3 ->] | [L3 ->]];
      [| reflexivity]; simpl.
    destruct (tlv_ok_or_too_large 4 total b4 ltac:(lia) H4) as [[L4 ->] | [L4 ->]];
      [| reflexivity]; simpl.
    destruct (tlv_ok_or_too_large 5 vat_s b5 ltac:(lia) H5) as [[L5 ->] | [L5 ->]];
      [| reflexivity].
    exfalso.
    repeat match goal with H : Exists _ _ |- _ => inversion_clear H end; lia.
Qed.

Lemma zatca_payload_all_or_nothing_witness :
  zatca_payload (py "Acme") (py "123456789012345") (py "2024-01-01T12:00:00Z")
    (py "115.00") (repeat 55 300) = Raise ValueTooLarge.
Proof.
  apply (proj2 (zatca_payload_all_or_nothing
            (py "Acme") (py "123456789012345") (py "2024-01-01T12:00:00Z")
            (py "115.00") (repeat 55 300)
            (py "Acme") (py "123456789012345") (py "2024-01-01T12:00:00Z")
            (py "115.00") (repeat 55 300)
            eq_refl eq_refl eq_refl eq_refl
            ltac:(vm_compute; reflexivity))).
  do 4 apply Exists_cons_tl. apply Exists_cons_hd. vm_compute. reflexivity.
Defined.

(** ** Known vector *)

(** C4: for seller "Acme", VAT "123456789012345", timestamp
    "2024-01-01T12:00:00Z", total "115.00" and VAT amount "15.00" the TLV
    payload starts with 0x01 0x04 'A' 'c' 'm' 'e' 0x02 0x0F '1' '2' '3', and
    base64-decoding the text returned by [build_zatca_base64] gives back the
    same payload. *)
Theorem known_vector :
  exists payload,
    zatca_payload (py "Acme") (py "123456789012345")
      (py "2024-01-01T12:00:00Z") (py "115.00") (py "15.00") = Ok payload /\
    firstn 11 payload = [1; 4; 65; 99; 109; 101; 2; 15; 49; 50; 51] /\
    exists text,
      build_zatca_base64 (py "Acme") (py "123456789012345")
        (py "2024-01-01T12:00:00Z") (py "115.00") (py "15.00") = Ok text /\
      b64decode text = Some payload.
Proof.
  eexists. split; [vm_compute; reflexivity |].
  split; [vm_compute; reflexivity |].
  eexists. split; [vm_compute; reflexivity |].
  vm_compute. reflexivity.
Qed.

(** ** [str.strip()] *)

Lemma lstrip_skipn (s : pystr) : exists k, lstrip s = skipn k s.
Proof.
  induction s as [| c s IH]; simpl.
  - exists O. reflexivity.
  - destruct (py_isspace c).
    + destruct IH as [k Hk]. exists (S k). exact Hk.
    + exists O. reflexivity.
Qed.

Lemma lstrip_head (s : pystr) (c : Z) (r : pystr) :
  lstrip s = c :: r -> py_isspace c = false.
Proof.
  induction s as [| c' s IH]; simpl; [discriminate |].
  destruct (py_isspace c') eqn:E; [exact IH |].
  intros H; injection H as -> _. exact E.
Qed.

Lemma firstn_cons_inv (n : nat) (x : pystr) (c : Z) (r : pystr) :
  firstn n x = c :: r -> exists x', x = c :: x'.
Proof.
  destruct n, x; simpl; try discriminate.
  intros H; injection H as -> _. eexists. reflexivity.
Qed.

(** The result of [strip()] neither starts nor ends with whitespace. *)
Lemma py_strip_edges (s : pystr) :
  (forall c r, py_strip s = c :: r -> py_isspace c = false) /\
  (forall c r, py_strip s = r ++ [c] -> py_isspace c = false).
Proof.
  unfold py_strip. split.
  - intros c r H.
    destruct (lstrip_skipn (rev (lstrip s))) as [k Hk]. rewrite Hk in H.
    rewrite skipn_rev, rev_involutive in H.
    destruct (firstn_cons_inv _ _ _ _ H) as [x' Hx].
    apply (lstrip_head s c x' Hx).
  - intros c r H.
    apply (f_equal (@rev Z)) in H. rewrite rev_involutive, rev_app_distr in H.
    simpl in H. exact (lstrip_head _ c (rev r) H).
Qed.

Lemma Forall_lstrip (P : Z -> Prop) (s : pystr) : Forall P s -> Forall P (lstrip s).
Proof.
  induction 1 as [| c s Hc Hs IH]; simpl; [constructor |].
  destruct (py_isspace c); [exact IH | constructor; assumption].
Qed.

Lemma Forall_py_strip (P : Z -> Prop) (s : pystr) : Forall P s -> Forall P (py_strip s).
Proof.
  intros H. unfold py_strip.
  apply Forall_rev, Forall_lstrip, Forall_rev, Forall_lstrip, H.
Qed.

(** ** VAT gate *)

(** C5: the "generate QR" handler stops with the VAT-length error exactly
    when the digits kept by [_clean_vat] are not 15 characters long; in that
    case no payload, base64 text or QR image is produced (the outcome
    carries none), whatever the other fields and the timezone conversion. *)
Theorem qr_button_vat_gate (iso : date -> time -> pystr) (ss : session) :
  qr_button iso ss = VatLengthError <->
  List.length (_clean_vat (qr_vat_number ss)) <> 15%nat.
Proof.
  unfold qr_button.
  destruct (Nat.eqb (List.length (_clean_vat (qr_vat_number ss))) 15) eqn:E; simpl.
  - apply Nat.eqb_eq in E. split; [| intros H; contradiction].
    destruct (bind _ _); discriminate.
  - apply Nat.eqb_neq in E. tauto.
Qed.

(** ** [_clean_vat] *)

Lemma is_nd_ascii_range :
  forallb (fun n => Bool.eqb (is_nd (Z.of_nat n)) (is_ascii_digit (Z.of_nat n)))
    (seq 0 128) = true.
Proof. vm_compute. reflexivity. Qed.

Lemma is_nd_ascii (c : Z) : 0 <= c < 128 -> is_nd c = is_ascii_digit c.
Proof.
  intros Hc.
  pose proof (proj1 (forallb_forall _ _) is_nd_ascii_range (Z.to_nat c)) as H.
  cbv beta in H. rewrite Z2Nat.id in H by lia. apply Bool.eqb_prop, H.
  apply in_seq. lia.
Qed.

(** C6 (failing input): [\D] is Unicode-aware, so Arabic-Indic digits are
    kept: [_clean_vat("١٢")] is ["١٢"], which is not made of ASCII digits. *)
Lemma clean_vat_keeps_arabic_indic :
  _clean_vat [1633; 1634] = [1633; 1634] /\
  ~ Forall (fun c => 48 <= c <= 57) (_clean_vat [1633; 1634]).
Proof.
  assert (E : _clean_vat [1633; 1634] = [1633; 1634]) by reflexivity.
  split; [exact E |].
  rewrite E. intros H. inversion H as [| x l Hx _]. lia.
Qed.

(** ** [_fmt2] *)

(** C7: the documented vectors hold ("10" gives "10.00", "10.005" gives
    "10.01", "abc" gives "0.00"), but inputs that [Decimal] parses and
    [quantize] rejects escape the [try]: "1e30" (more than 28 digits at two
    decimals) and "Infinity" raise [InvalidOperation], and "NaN" is returned
    as "NaN", not as a two-decimal amount. *)
Theorem fmt2_vectors_and_failures :
  _fmt2 (py "10") = Ok (py "10.00") /\
  _fmt2 (py "10.005") = Ok (py "10.01") /\
  _fmt2 (py "abc") = Ok (py "0.00") /\
  _fmt2 (py "1e30") = Raise InvalidOperation /\
  _fmt2 (py "Infinity") = Raise InvalidOperation /\
  _fmt2 (py "NaN") = Ok (py "NaN").
Proof. vm_compute. repeat split. Qed.

(** ** [sanitize] *)

Lemma sanitize_filters (s : pystr) :
  filter (fun ch => ch <? 128)
    (filter (fun c => negb (is_bidi_control c)) (map ARABIC_DIGITS s))
  = flat_map sanitize_char_spec s.
Proof.
  induction s as [| c s IH]; [reflexivity |].
  simpl. rewrite <- IH. unfold ARABIC_DIGITS, sanitize_char_spec.
  destruct ((1632 <=? c) && (c <=? 1641)) eqn:A.
  - apply andb_true_iff in A as [A1 A2].
    apply Z.leb_le in A1. apply Z.leb_le in A2.
    replace (is_bidi_control (c - 1632 + 48)) with false
      by (symmetry; unfold is_bidi_control;
          repeat (apply orb_false_iff; split); try apply andb_false_iff;
          try (left; apply Z.leb_gt; lia); apply Z.eqb_neq; lia).
    simpl. replace (c - 1632 + 48 <? 128) with true
      by (symmetry; apply Z.ltb_lt; lia).
    reflexivity.
  - destruct (is_bidi_control c) eqn:B; simpl.
    + replace (c <? 128) with false; [reflexivity |].
      symmetry. apply Z.ltb_ge. unfold is_bidi_control in B.
      repeat rewrite orb_true_iff in B. repeat rewrite andb_true_iff in B.
      repeat rewrite Z.eqb_eq in B. repeat rewrite Z.leb_le in B. lia.
    + destruct (c <? 128); reflexivity.
Qed.

(** C9: [sanitize] transliterates Arabic-Indic digits U+0660..U+0669 to
    '0'..'9', removes bidirectional controls and every other non-ASCII
    character, and strips surrounding whitespace: it equals [strip] applied
    to the per-character transformation [sanitize_char_spec]. Every
    character of the result is ASCII (code point below 128), and the result
    neither starts nor ends with whitespace. *)
Theorem sanitize_ascii (s : pystr) :
  Forall (fun c => 0 <= c <= 1114111) s ->
  sanitize s = py_strip (flat_map sanitize_char_spec s) /\
  Forall (fun c => 0 <= c < 128) (sanitize s) /\
  (forall c r, sanitize s = c :: r -> py_isspace c = false) /\
  (forall c r, sanitize s = r ++ [c] -> py_isspace c = false).
Proof.
  intros Hs.
  assert (E : sanitize s = py_strip (flat_map sanitize_char_spec s))
    by (unfold sanitize; rewrite sanitize_filters; reflexivity).
  split; [exact E |]. split.
  - rewrite E. apply Forall_py_strip.
    apply Forall_forall. intros c Hc. apply in_flat_map in Hc as [x [Hx Hc]].
    rewrite Forall_forall in Hs. specialize (Hs x Hx).
    unfold sanitize_char_spec in Hc.
    destruct ((1632 <=? x) && (x <=? 1641)) eqn:A.
    + apply andb_true_iff in A as [A1 A2].
      apply Z.leb_le in A1. apply Z.leb_le in A2.
      destruct Hc as [<- | []]. lia.
    + destruct (x <? 128) eqn:L; [| destruct Hc].
      apply Z.ltb_lt in L. destruct Hc as [<- | []]. lia.
  - unfold sanitize. apply py_strip_edges.
Qed.

Lemma sanitize_ascii_witness :
  Forall (fun c => 0 <= c <= 1114111) [32; 1633; 8206; 49; 1777; 65; 32] /\
  sanitize [32; 1633; 8206; 49; 1777; 65; 32] = py "11A".
Proof.
  assert (H : Forall (fun c => 0 <= c <= 1114111) [32; 1633; 8206; 49; 1777; 65; 32])
    by (repeat constructor; lia).
  split; [exact H |].
  rewrite (proj1 (sanitize_ascii _ H)). reflexivity.
Defined.

(** ** Seller field of a generated payload *)

Lemma tlv_ok_inv (tag : Z) (val : pystr) (e : pybytes) :
  _tlv tag val = Ok e ->
  exists b, utf8_encode val = Ok b /\ e = tag :: Z.of_nat (List.length b) :: b.
Proof.
  unfold _tlv. destruct (utf8_encode val) as [b |]; simpl; [| discriminate].
  destruct (Z.of_nat (List.length b) >? 255); [discriminate |].
  unfold bytes_of_list. destruct (forallb _ _); simpl; [| discriminate].
  intros H. injection H as <-. exists b. split; reflexivity.
Qed.

Lemma zatca_payload_first (s1 s2 s3 s4 s5 : pystr) (p : pybytes) :
  zatca_payload s1 s2 s3 s4 s5 = Ok p ->
  exists e1 rest, _tlv 1 s1 = Ok e1 /\ p = e1 ++ rest.
Proof.
  unfold zatca_payload.
  destruct (_tlv 1 s1) as [e1 |]; simpl; [| discriminate].
  destruct (_tlv 2 s2); simpl; [| discriminate].
  destruct (_tlv 3 s3); simpl; [| discriminate].
  destruct (_tlv 4 s4); simpl; [| discriminate].
  destruct (_tlv 5 s5); simpl; [| discriminate].
  intros H. injection H as <-. eexists _, _. split; reflexivity.
Qed.

(** C8 (counterexample): nothing rejects an empty seller. With a
    whitespace-only seller and a valid VAT number the handler shows a
    payload whose tag-1 record has length 0 and an empty value. *)
Lemma qr_button_blank_seller :
  exists text payload rest,
    qr_button iso_fixed session_blank_seller = QrShown text /\
    b64decode text = Some payload /\
    decode_tlv payload = Some (1, 0, [], rest).
Proof.
  do 3 eexists. split; [vm_compute; reflexivity |].
  split; vm_compute; reflexivity.
Qed.

(** C8 (amended): whenever the handler shows a payload, its tag-1 record is
    the UTF-8 encoding of the seller name after [strip()], so the encoded
    seller neither starts nor ends with whitespace; it may be empty. *)
Theorem qr_button_seller_stripped
    (iso : date -> time -> pystr) (ss : session) (text : pystr) :
  qr_button iso ss = QrShown text ->
  exists total vat_s payload sb rest,
    _fmt2 (qr_total ss) = Ok total /\ _fmt2 (qr_vat ss) = Ok vat_s /\
    zatca_payload (py_strip (qr_seller ss)) (_clean_vat (qr_vat_number ss))
      (iso (qr_date ss) (qr_time ss)) total vat_s = Ok payload /\
    text = b64encode payload /\
    utf8_encode (py_strip (qr_seller ss)) = Ok sb /\
    payload = 1 :: Z.of_nat (List.length sb) :: sb ++ rest /\
    (forall c r, py_strip (qr_seller ss) = c :: r -> py_isspace c = false) /\
    (forall c r, py_strip (qr_seller ss) = r ++ [c] -> py_isspace c = false).
Proof.
  unfold qr_button.
  destruct (negb _); [discriminate |].
  destruct (_fmt2 (qr_total ss)) as [t |] eqn:Ft; simpl; [| discriminate].
  destruct (_fmt2 (qr_vat ss)) as [v |] eqn:Fv; simpl; [| discriminate].
  unfold build_zatca_base64.
  destruct (zatca_payload _ _ _ _ _) as [p |] eqn:P; simpl; [| discriminate].
  intros H. injection H as <-.
  destruct (zatca_payload_first _ _ _ _ _ _ P) as [e1 [rest [T1 ->]]].
  destruct (tlv_ok_inv _ _ _ T1) as [sb [Hsb ->]].
  exists t, v, ((1 :: Z.of_nat (List.length sb) :: sb) ++ rest), sb, rest.
  split; [reflexivity |]. split; [reflexivity |]. split; [exact P |]. split; [reflexivity |]. split; [exact Hsb |].
  split; [reflexivity |]. apply py_strip_edges.
Qed.

Lemma qr_button_seller_stripped_witness :
  exists text payload sb rest,
    qr_button iso_fixed (mksession (py "SA-123456789012345") (py " Acme ")
      (py "115") (py "15") (mkdate 2024 1 1) (mktime 15 0 0)) = QrShown text /\
    text = b64encode payload /\ utf8_encode (py "Acme") = Ok sb /\
    payload = 1 :: Z.of_nat (List.length sb) :: sb ++ rest.
Proof.
  assert (H : qr_button iso_fixed (mksession (py "SA-123456789012345") (py " Acme ")
      (py "115") (py "15") (mkdate 2024 1 1) (mktime 15 0 0))
      = QrShown (b64encode (List.concat
          [1 :: 4 :: py "Acme"; 2 :: 15 :: py "123456789012345";
           3 :: 20 :: py "2024-01-01T12:00:00Z"; 4 :: 6 :: py "115.00";
           5 :: 5 :: py "15.00"])))
    by (vm_compute; reflexivity).
  destruct (qr_button_seller_stripped _ _ _ H)
    as [t [v [payload [sb [rest [_ [_ [_ [Ht [Hsb Hp]]]]]]]]]].
  exists (b64encode (List.concat
          [1 :: 4 :: py "Acme"; 2 :: 15 :: py "123456789012345";
           3 :: 20 :: py "2024-01-01T12:00:00Z"; 4 :: 6 :: py "115.00";
           5 :: 5 :: py "15.00"])), payload, sb, rest.
  split; [exact H |]. split; [exact Ht |]. split; [exact Hsb | apply Hp].
Defined.

(** ** PDF date transcoding *)

Lemma ascii_digit_facts (k : Z) :
  0 <= k <= 9 ->
  is_nd (48 + k) = true /\ nd_value (48 + k) = Some k /\ py_isspace (48 + k) = false.
Proof.
  intros Hk.
  assert (E : k = 0 \/ k = 1 \/ k = 2 \/ k = 3 \/ k = 4 \/ k = 5 \/ k = 6 \/
              k = 7 \/ k = 8 \/ k = 9) by lia.
  repeat destruct E as [-> | E]; subst; vm_compute; auto.
Qed.

Lemma first_bind {A B} (m : matcher A) (k : A -> matcher B) s a r b r' :
  first_match m s a r -> first_match (k a) r b r' -> first_match (m_bind m k) s b r'.
Proof.
  intros [tl Hm] [tl' Hk]. unfold first_match, m_bind. rewrite Hm. simpl. rewrite Hk.
  eexists. reflexivity.
Qed.

Lemma first_ret {A} (a : A) s : first_match (m_ret a) s a s.
Proof. exists []. reflexivity. Qed.

Lemma first_lit (c : Z) (r : pystr) : first_match (m_lit c) (c :: r) tt r.
Proof. exists []. unfold m_lit, m_bind, m_char, is_lit. simpl. rewrite Z.eqb_refl. reflexivity. Qed.

Lemma first_ws (c : Z) (r : pystr) :
  py_isspace c = false -> first_match m_ws_plus (32 :: c :: r) tt (c :: r).
Proof. intros H. exists []. unfold m_ws_plus. simpl. rewrite H. reflexivity. Qed.

Lemma first_two_nd (c1 c2 : Z) (r : pystr) :
  is_nd c1 = true -> is_nd c2 = true -> first_match (m_two is_nd is_nd) (c1 :: c2 :: r) [c1; c2] r.
Proof.
  intros H1 H2. exists []. unfold m_two, m_bind, m_char, m_ret. simpl.
  rewrite H1. simpl. rewrite H2. reflexivity.
Qed.

(** Enumerates a bounded [Z] field and checks each value by computation. *)
Ltac enum_field n :=
  let k := fresh "k" in
  let Hk := fresh "Hk" in
  assert (Hk : exists k, n = Z.of_nat k) by (exists (Z.to_nat n); lia);
  destruct Hk as [k ->];
  repeat (first [exfalso; lia
                | destruct k as [| k];
                  [first [exfalso; lia | eexists; cbn; reflexivity] |]]).

Lemma first_re_d (d : Z) (r : pystr) : 1 <= d <= 31 -> first_match re_d (pad2 d ++ r) (pad2 d) r.
Proof. intros. enum_field d. Qed.

Lemma first_re_m (m : Z) (r : pystr) : 1 <= m <= 12 -> first_match re_m (pad2 m ++ r) (pad2 m) r.
Proof. intros. enum_field m. Qed.

Lemma first_re_H (h : Z) (r : pystr) : 0 <= h <= 23 -> first_match re_H (pad2 h ++ r) (pad2 h) r.
Proof. intros. enum_field h. Qed.

Lemma first_re_M (m : Z) (r : pystr) : 0 <= m <= 59 -> first_match re_M (pad2 m ++ r) (pad2 m) r.
Proof. intros. enum_field m. Qed.

Lemma first_re_S (s : Z) (r : pystr) : 0 <= s <= 59 -> first_match re_S (pad2 s ++ r) (pad2 s) r.
Proof. intros. enum_field s. Qed.

Lemma pad4_digits (y : Z) :
  0 <= y <= 9999 ->
  exists a b c d, pad4 y = [48 + a; 48 + b; 48 + c; 48 + d] /\
    0 <= a <= 9 /\ 0 <= b <= 9 /\ 0 <= c <= 9 /\ 0 <= d <= 9 /\
    y = ((a * 10 + b) * 10 + c) * 10 + d.
Proof.
  intros Hy. exists (y / 1000), (y / 100 mod 10), (y / 10 mod 10), (y mod 10).
  split; [reflexivity |].
  replace (y / 1000) with (y / 10 / 10 / 10) by (rewrite !Z.div_div by lia; reflexivity).
  replace (y / 100) with (y / 10 / 10) by (rewrite !Z.div_div by lia; reflexivity).
  pose proof (Z.div_mod y 10 ltac:(lia)).
  pose proof (Z.div_mod (y / 10) 10 ltac:(lia)).
  pose proof (Z.div_mod (y / 10 / 10) 10 ltac:(lia)).
  pose proof (Z.mod_pos_bound y 10 ltac:(lia)).
  pose proof (Z.mod_pos_bound (y / 10) 10 ltac:(lia)).
  pose proof (Z.mod_pos_bound (y / 10 / 10) 10 ltac:(lia)).
  lia.
Qed.

Lemma pad2_digits (n : Z) :
  0 <= n <= 99 ->
  exists a b, pad2 n = [48 + a; 48 + b] /\ 0 <= a <= 9 /\ 0 <= b <= 9 /\ n = a * 10 + b.
Proof.
  intros Hn. exists (n / 10), (n mod 10). split; [reflexivity |].
  pose proof (Z.div_mod n 10 ltac:(lia)).
  pose proof (Z.mod_pos_bound n 10 ltac:(lia)).
  lia.
Qed.

Lemma first_re_Y (y : Z) (r : pystr) :
  0 <= y <= 9999 -> first_match re_Y (pad4 y ++ r) (pad4 y) r.
Proof.
  intros Hy. destruct (pad4_digits y Hy) as [a [b [c [d [E [Ha [Hb [Hc [Hd _]]]]]]]]].
  rewrite E. unfold re_Y.
  eapply first_bind.
  { apply first_two_nd; apply ascii_digit_facts; assumption. }
  eapply first_bind.
  { apply first_two_nd; apply ascii_digit_facts; assumption. }
  apply first_ret.
Qed.

Lemma int_of_group_pad2 (n : Z) : 0 <= n <= 99 -> int_of_group (pad2 n) = n.
Proof.
  intros Hn. destruct (pad2_digits n Hn) as [a [b [E [Ha [Hb Hab]]]]].
  rewrite E. unfold int_of_group.
  destruct (ascii_digit_facts a Ha) as [_ [Va Sa]].
  destruct (ascii_digit_facts b Hb) as [_ [Vb _]].
  cbn [lstrip]. rewrite Sa. cbn [fold_left]. rewrite Va, Vb. lia.
Qed.

Lemma int_of_group_pad4 (y : Z) : 0 <= y <= 9999 -> int_of_group (pad4 y) = y.
Proof.
  intros Hy. destruct (pad4_digits y Hy) as [a [b [c [d [E [Ha [Hb [Hc [Hd Hv]]]]]]]]].
  rewrite E. unfold int_of_group.
  destruct (ascii_digit_facts a Ha) as [_ [Va Sa]].
  destruct (ascii_digit_facts b Hb) as [_ [Vb _]].
  destruct (ascii_digit_facts c Hc) as [_ [Vc _]].
  destruct (ascii_digit_facts d Hd) as [_ [Vd _]].
  cbn [lstrip]. rewrite Sa. cbn [fold_left]. rewrite Va, Vb, Vc, Vd. lia.
Qed.

Lemma first_ws_pad2 (n : Z) (r : pystr) :
  0 <= n <= 99 -> first_match m_ws_plus ([32] ++ pad2 n ++ r) tt (pad2 n ++ r).
Proof.
  intros Hn. destruct (pad2_digits n Hn) as [a [b [E [Ha _]]]].
  rewrite E. apply first_ws, ascii_digit_facts, Ha.
Qed.

Lemma valid_datetime_bounds (dt : datetime) :
  valid_datetime dt = true ->
  1 <= dt_year dt <= 9999 /\ 1 <= dt_month dt <= 12 /\ 1 <= dt_day dt <= 31 /\
  0 <= dt_hour dt <= 23 /\ 0 <= dt_minute dt <= 59 /\ 0 <= dt_second dt <= 59.
Proof.
  unfold valid_datetime, in_range. intros H.
  repeat rewrite andb_true_iff in H. repeat rewrite Z.leb_le in H.
  assert (days_in_month (dt_year dt) (dt_month dt) <= 31)
    by (unfold days_in_month; destruct (dt_month dt =? 2);
        [destruct (is_leap _) | destruct (_ || _)]; lia).
  lia.
Qed.

Lemma strptime_display_form (dt : datetime) :
  valid_datetime dt = true -> strptime_display (display_form dt) = Some dt.
Proof.
  intros V. pose proof (valid_datetime_bounds dt V) as (Hy & Hm & Hd & Hh & Hmi & Hs).
  assert (F : first_match display_regex (display_form dt)
                (pad2 (dt_day dt), pad2 (dt_month dt), pad4 (dt_year dt),
                 pad2 (dt_hour dt), pad2 (dt_minute dt), pad2 (dt_second dt)) []).
  { unfold display_regex, display_form. change (py ", ") with [44; 32].
    eapply first_bind; [apply first_re_d; lia |].
    eapply first_bind; [apply first_lit |].
    eapply first_bind; [apply first_re_m; lia |].
    eapply first_bind; [apply first_lit |].
    eapply first_bind; [apply first_re_Y; lia |].
    eapply first_bind; [apply first_lit |].
    eapply first_bind.
    { apply first_ws_pad2. lia. }
    eapply first_bind; [apply first_re_H; lia |].
    eapply first_bind; [apply first_lit |].
    eapply first_bind; [apply first_re_M; lia |].
    eapply first_bind; [apply first_lit |].
    eapply first_bind; [rewrite <- (app_nil_r (pad2 (dt_second dt))); apply first_re_S; lia |].
    apply first_ret. }
  destruct F as [tl F]. unfold strptime_display. rewrite F.
  rewrite !int_of_group_pad2, int_of_group_pad4 by lia.
  destruct dt. simpl. simpl in V. rewrite V. reflexivity.
Qed.

Lemma strftime_Y_pad4 (y : Z) : 1000 <= y <= 9999 -> strftime_Y y = pad4 y.
Proof.
  intros Hy. unfold strftime_Y, digits_of.
  assert (L : 9 <= Z.log2 y).
  { change 9 with (Z.log2 512). apply Z.log2_le_mono. lia. }
  replace (S (Z.to_nat (Z.log2 y))) with (S (S (S (S (Z.to_nat (Z.log2 y) - 3)))))%nat by lia.
  cbn [digits_fuel].
  replace (y <? 10) with false by (symmetry; apply Z.ltb_ge; lia).
  replace (y / 10 <? 10) with false
    by (symmetry; apply Z.ltb_ge; apply Z.div_le_lower_bound; lia).
  replace (y / 10 / 10 <? 10) with false
    by (symmetry; apply Z.ltb_ge; rewrite Z.div_div by lia;
        apply Z.div_le_lower_bound; lia).
  replace (y / 10 / 10 / 10 <? 10) with true
    by (symmetry; apply Z.ltb_lt; rewrite !Z.div_div by lia;
        apply Z.div_lt_upper_bound; lia).
  unfold pad4.
  replace (y / 10 / 10 / 10) with (y / 1000) by (rewrite !Z.div_div by lia; reflexivity).
  replace (y / 10 / 10) with (y / 100) by (rewrite !Z.div_div by lia; reflexivity).
  reflexivity.
Qed.

Lemma take_two_pad2 (n : Z) (r : pystr) :
  0 <= n <= 99 -> take_digits 2 (pad2 n ++ r) = Some (pad2 n, r).
Proof.
  intros Hn. destruct (pad2_digits n Hn) as [a [b [E [Ha [Hb _]]]]].
  rewrite E. cbn [take_digits app].
  rewrite (proj1 (ascii_digit_facts a Ha)), (proj1 (ascii_digit_facts b Hb)).
  reflexivity.
Qed.

Lemma take_four_pad4 (y : Z) (r : pystr) :
  0 <= y <= 9999 -> take_digits 4 (pad4 y ++ r) = Some (pad4 y, r).
Proof.
  intros Hy. destruct (pad4_digits y Hy) as [a [b [c [d [E [Ha [Hb [Hc [Hd _]]]]]]]]].
  rewrite E. cbn [take_digits app].
  rewrite (proj1 (ascii_digit_facts a Ha)), (proj1 (ascii_digit_facts b Hb)),
    (proj1 (ascii_digit_facts c Hc)), (proj1 (ascii_digit_facts d Hd)).
  reflexivity.
Qed.

Lemma pdf_to_display_pdf_form (dt : datetime) :
  valid_datetime dt = true -> 1000 <= dt_year dt ->
  pdf_date_to_display_date (pdf_form dt) = display_form dt.
Proof.
  intros V Hy1. pose proof (valid_datetime_bounds dt V) as (Hy & Hm & Hd & Hh & Hmi & Hs).
  unfold pdf_date_to_display_date, pdf_form. change (py "D:") with [68; 58].
  cbn [app]. change (starts_with_D (68 :: 58 :: ?r)) with true. cbn [skipn].
  unfold pdf_regex.
  rewrite take_four_pad4 by lia. cbn [opt_bind].
  rewrite take_two_pad2 by lia. cbn [opt_bind].
  rewrite take_two_pad2 by lia. cbn [opt_bind].
  rewrite take_two_pad2 by lia. cbn [opt_bind].
  rewrite take_two_pad2 by lia. cbn [opt_bind].
  rewrite take_two_pad2 by lia. cbn [opt_bind].
  rewrite !int_of_group_pad2, int_of_group_pad4 by lia.
  destruct dt as [y mo d h mi se]. cbn [dt_year dt_month dt_day dt_hour dt_minute dt_second] in *.
  rewrite V. unfold strftime_display, display_form. cbn [dt_year dt_month dt_day dt_hour dt_minute dt_second].
  rewrite strftime_Y_pad4 by lia. reflexivity.
Qed.

Lemma display_to_pdf_display_form (dt : datetime) :
  valid_datetime dt = true -> 1000 <= dt_year dt ->
  display_date_to_pdf_date (display_form dt) = pdf_form dt.
Proof.
  intros V Hy1. pose proof (valid_datetime_bounds dt V) as (Hy & _).
  unfold display_date_to_pdf_date. rewrite strptime_display_form by exact V.
  unfold strftime_pdf, pdf_form. rewrite strftime_Y_pad4 by lia. reflexivity.
Qed.

Lemma pdf_date_to_display_date_nonempty (s : pystr) :
  s <> [] ->
  pdf_date_to_display_date s =
    match pdf_regex (drop_D s) with
    | Some (y, mo, d, h, mi, se) =>
        let dt := mkdt (int_of_group y) (int_of_group mo) (int_of_group d)
                       (int_of_group h) (int_of_group mi) (int_of_group se) in
        if valid_datetime dt then strftime_display dt else drop_D s
    | None => drop_D s
    end.
Proof. destruct s; [contradiction | reflexivity]. Qed.

Lemma pdf_regex_digits (dt : datetime) (r : pystr) :
  valid_datetime dt = true -> 1000 <= dt_year dt ->
  pdf_regex (pdf_digits dt ++ r) =
    Some (pad4 (dt_year dt), pad2 (dt_month dt), pad2 (dt_day dt),
          pad2 (dt_hour dt), pad2 (dt_minute dt), pad2 (dt_second dt)).
Proof.
  intros V Hy1. pose proof (valid_datetime_bounds dt V) as (Hy & Hm & Hd & Hh & Hmi & Hs).
  unfold pdf_regex, pdf_digits. rewrite <- !app_assoc.
  rewrite take_four_pad4 by lia. cbn [opt_bind].
  rewrite take_two_pad2 by lia. cbn [opt_bind].
  rewrite take_two_pad2 by lia. cbn [opt_bind].
  rewrite take_two_pad2 by lia. cbn [opt_bind].
  rewrite take_two_pad2 by lia. cbn [opt_bind].
  rewrite take_two_pad2 by lia. cbn [opt_bind].
  reflexivity.
Qed.

Lemma starts_with_D_digit (a : Z) (r : pystr) :
  0 <= a <= 9 -> starts_with_D (48 + a :: r) = false.
Proof.
  intros Ha.
  assert (E : a = 0 \/ a = 1 \/ a = 2 \/ a = 3 \/ a = 4 \/ a = 5 \/ a = 6 \/
              a = 7 \/ a = 8 \/ a = 9) by lia.
  repeat destruct E as [-> | E]; subst; reflexivity.
Qed.

(** A PDF date whose first fourteen characters after an optional "D:" are
    the digits of a valid date-time (year 1000 or later) reads as the
    display string, whatever follows them ("Z", "+03'00'", "+00'00'",
    nothing, ...). *)
Lemma pdf_to_display_digits (dt : datetime) (pre r : pystr) :
  valid_datetime dt = true -> 1000 <= dt_year dt -> (pre = [] \/ pre = py "D:") ->
  pdf_date_to_display_date (pre ++ pdf_digits dt ++ r) = display_form dt.
Proof.
  intros V Hy1 Hpre. pose proof (valid_datetime_bounds dt V) as (Hy & _).
  assert (Hne : pre ++ pdf_digits dt ++ r <> []).
  { unfold pdf_digits, pad4. destruct pre; discriminate. }
  assert (D : drop_D (pre ++ pdf_digits dt ++ r) = pdf_digits dt ++ r).
  { destruct Hpre as [-> | ->]; [| reflexivity].
    destruct (pad4_digits (dt_year dt) ltac:(lia)) as (a & b & c & d & E & Ha & _).
    unfold drop_D. cbn [app].
    replace (starts_with_D (pdf_digits dt ++ r)) with false; [reflexivity |].
    unfold pdf_digits. rewrite E. cbn [app]. symmetry. apply starts_with_D_digit, Ha. }
  rewrite (pdf_date_to_display_date_nonempty _ Hne), D.
  rewrite pdf_regex_digits by assumption. cbv zeta.
  pose proof (valid_datetime_bounds dt V) as (_ & Hm & Hd & Hh & Hmi & Hs).
  rewrite !int_of_group_pad2, int_of_group_pad4 by lia.
  destruct dt as [y mo d h mi se]. cbn [dt_year dt_month dt_day dt_hour dt_minute dt_second] in *.
  rewrite V. unfold strftime_display, display_form. cbn [dt_year dt_month dt_day dt_hour dt_minute dt_second].
  rewrite strftime_Y_pad4 by lia. reflexivity.
Qed.

(** C10 (counterexample): [pdf_date_to_display_date] does not return an
    unmatched input unchanged, it drops the leading "D:" ("D:xyz" gives
    "xyz"); and a valid zero-padded date in year 0999 does not round-trip,
    since [strftime("%Y")] writes "999" and the PDF string no longer has the
    14-digit layout. *)
Lemma pdf_dates_counterexample :
  pdf_date_to_display_date (py "D:xyz") = py "xyz" /\ py "xyz" <> py "D:xyz" /\
  valid_datetime (mkdt 999 1 1 0 0 0) = true /\
  display_form (mkdt 999 1 1 0 0 0) = py "01/01/0999, 00:00:00" /\
  display_date_to_pdf_date (display_form (mkdt 999 1 1 0 0 0))
    = py "D:9990101000000+03'00'" /\
  pdf_date_to_display_date (display_date_to_pdf_date (display_form (mkdt 999 1 1 0 0 0)))
    = py "9990101000000+03'00'" /\
  py "9990101000000+03'00'" <> display_form (mkdt 999 1 1 0 0 0).
Proof.
  repeat split; try (vm_compute; reflexivity); discriminate.
Qed.

(** C10 (amended): for a valid date-time with a year from 1000 to 9999, the
    zero-padded display string "dd/mm/YYYY, HH:MM:SS" is turned into
    "D:YYYYMMDDHHMMSS+03'00'" and back into the same display string.
    [display_date_to_pdf_date] returns its input unchanged when [strptime]
    rejects it. [pdf_date_to_display_date] returns the empty string for the
    empty string and for a value that is not a string, and, when the text after an optional leading "D:" does not
    start with fourteen digits forming a valid date-time, returns that text
    (its input with the "D:" removed). *)
Theorem pdf_dates_roundtrip (dt : datetime) :
  valid_datetime dt = true -> 1000 <= dt_year dt ->
  (display_date_to_pdf_date (display_form dt) = pdf_form dt /\
   pdf_date_to_display_date (display_date_to_pdf_date (display_form dt)) = display_form dt) /\
  (forall s, strptime_display s = None -> display_date_to_pdf_date s = s) /\
  pdf_date_to_display_date [] = [] /\
  (forall o, pdf_date_to_display_date_v (VObj o) = []) /\
  (forall s, s <> [] ->
     (pdf_regex (drop_D s) = None \/
      exists y mo d h mi se,
        pdf_regex (drop_D s) = Some (y, mo, d, h, mi, se) /\
        valid_datetime (mkdt (int_of_group y) (int_of_group mo) (int_of_group d)
          (int_of_group h) (int_of_group mi) (int_of_group se)) = false) ->
     pdf_date_to_display_date s = drop_D s).
Proof.
  intros V Hy. split; [| split; [| split; [| split]]].
  - rewrite display_to_pdf_display_form by assumption.
    split; [reflexivity |]. apply pdf_to_display_pdf_form; assumption.
  - intros s Hs. unfold display_date_to_pdf_date. rewrite Hs. reflexivity.
  - reflexivity.
  - intros o. reflexivity.
  - intros s Hne Hfail. rewrite (pdf_date_to_display_date_nonempty s Hne).
    destruct Hfail as [N | (y & mo & d & h & mi & se & M & F)].
    + rewrite N. reflexivity.
    + rewrite M. cbv zeta. rewrite F. reflexivity.
Qed.

Lemma pdf_dates_roundtrip_witness :
  valid_datetime (mkdt 2024 1 1 12 0 0) = true /\
  display_date_to_pdf_date (py "01/01/2024, 12:00:00") = py "D:20240101120000+03'00'" /\
  pdf_date_to_display_date (py "D:20240101120000+03'00'") = py "01/01/2024, 12:00:00".
Proof.
  assert (V : valid_datetime (mkdt 2024 1 1 12 0 0) = true) by reflexivity.
  destruct (pdf_dates_roundtrip (mkdt 2024 1 1 12 0 0) V ltac:(simpl; lia))
    as [[H1 H2] _].
  split; [exact V |].
  change (py "01/01/2024, 12:00:00") with (display_form (mkdt 2024 1 1 12 0 0)).
  change (py "D:20240101120000+03'00'") with (pdf_form (mkdt 2024 1 1 12 0 0)).
  split; [exact H1 |]. rewrite <- H1. exact H2.
Defined.

(** ** Python dicts *)

Lemma pystr_eqb_eq (a b : pystr) : pystr_eqb a b = true <-> a = b.
Proof. unfold pystr_eqb. destruct (list_eq_dec Z.eq_dec a b); split; congruence. Qed.

Lemma pystr_eqb_refl (a : pystr) : pystr_eqb a a = true.
Proof. apply pystr_eqb_eq. reflexivity. Qed.

Lemma pystr_eqb_sym (a b : pystr) : pystr_eqb a b = pystr_eqb b a.
Proof.
  destruct (pystr_eqb a b) eqn:E, (pystr_eqb b a) eqn:E'; try reflexivity;
    [apply pystr_eqb_eq in E; subst; rewrite pystr_eqb_refl in E'
    | apply pystr_eqb_eq in E'; subst; rewrite pystr_eqb_refl in E]; discriminate.
Qed.

Lemma sval_eqb_eq (a b : sval) : sval_eqb a b = true <-> a = b.
Proof. unfold sval_eqb. destruct (sval_eq_dec a b); split; congruence. Qed.

Lemma sval_eqb_refl (a : sval) : sval_eqb a a = true.
Proof. apply sval_eqb_eq. reflexivity. Qed.

Lemma dict_get_set {V} (d : dict V) (k : pystr) (v : V) (k' : pystr) :
  dict_get (dict_set d k v) k' = if pystr_eqb k k' then Some v else dict_get d k'.
Proof.
  induction d as [| [k0 v0] d IH]; simpl.
  - destruct (pystr_eqb k k'); reflexivity.
  - destruct (pystr_eqb k0 k) eqn:E.
    + apply pystr_eqb_eq in E; subst k0. simpl. destruct (pystr_eqb k k'); reflexivity.
    + simpl. rewrite IH. destruct (pystr_eqb k0 k') eqn:E'; [| reflexivity].
      apply pystr_eqb_eq in E'; subst k'. rewrite pystr_eqb_sym, E. reflexivity.
Qed.

Lemma dict_set_get_same {V} (d : dict V) (k : pystr) (v : V) :
  dict_get d k = Some v -> dict_set d k v = d.
Proof.
  induction d as [| [k0 v0] d IH]; simpl; [discriminate |].
  destruct (pystr_eqb k0 k) eqn:E; intros H.
  - injection H as ->. reflexivity.
  - rewrite IH by exact H. reflexivity.
Qed.

Lemma dict_get_or_set {V} (d : dict V) (k : pystr) (v : V) (k' : pystr) (def : V) :
  dict_get_or (dict_set d k v) k' def = if pystr_eqb k k' then v else dict_get_or d k' def.
Proof. unfold dict_get_or. rewrite dict_get_set. destruct (pystr_eqb k k'); reflexivity. Qed.

(** Comparisons of two literal keys are decided by computation. *)
Ltac keys_simpl :=
  repeat match goal with
  | |- context [pystr_eqb (py ?a) (py ?b)] =>
      let e := eval vm_compute in (pystr_eqb (py a) (py b)) in
      change (pystr_eqb (py a) (py b)) with e
  end; cbv iota beta.

(** ** Session state of the PDF section *)

Lemma auto_sync_shape (ss : dict sval) :
  exists ss1 c1 m1,
    auto_sync ss = dict_set (dict_set ss1 (py "_prev_creation") c1) (py "_prev_mod") m1 /\
    dict_get_or ss1 (py "/CreationDate") (SV (VStr [])) = c1 /\
    dict_get_or ss1 (py "/ModDate") (SV (VStr [])) = m1.
Proof.
  unfold auto_sync.
  set (c := dict_get_or ss (py "/CreationDate") (SV (VStr []))).
  set (m := dict_get_or ss (py "/ModDate") (SV (VStr []))).
  set (pc := dict_get_or ss (py "_prev_creation") c).
  set (pm := dict_get_or ss (py "_prev_mod") m).
  destruct (negb (sval_eqb c pc) && sval_eqb m pm) eqn:B1.
  - exists (dict_set ss (py "/ModDate") c), c, c.
    split; [reflexivity |]. rewrite !dict_get_or_set. keys_simpl. split; reflexivity.
  - destruct (negb (sval_eqb m pm) && sval_eqb c pc) eqn:B2.
    + exists (dict_set ss (py "/CreationDate") m), m, m.
      split; [reflexivity |]. rewrite !dict_get_or_set. keys_simpl. split; reflexivity.
    + exists ss, c, m. split; [reflexivity | split; reflexivity].
Qed.

(** The two-way date synchronisation records the dates it has seen: after a
    run, [_prev_creation] and [_prev_mod] hold the current /CreationDate and
    /ModDate (the empty string for a missing one), so a rerun without an
    edit changes nothing: the block is idempotent. *)
Theorem auto_sync_stable (ss : dict sval) :
  dict_get (auto_sync ss) (py "_prev_creation")
    = Some (dict_get_or (auto_sync ss) (py "/CreationDate") (SV (VStr []))) /\
  dict_get (auto_sync ss) (py "_prev_mod")
    = Some (dict_get_or (auto_sync ss) (py "/ModDate") (SV (VStr []))) /\
  auto_sync (auto_sync ss) = auto_sync ss.
Proof.
  destruct (auto_sync_shape ss) as (ss1 & c1 & m1 & E & Hc & Hm). rewrite E.
  set (ss' := dict_set (dict_set ss1 (py "_prev_creation") c1) (py "_prev_mod") m1).
  assert (GPC : dict_get ss' (py "_prev_creation") = Some c1).
  { unfold ss'. rewrite !dict_get_set. keys_simpl. reflexivity. }
  assert (GPM : dict_get ss' (py "_prev_mod") = Some m1).
  { unfold ss'. rewrite !dict_get_set. keys_simpl. reflexivity. }
  assert (GC : dict_get_or ss' (py "/CreationDate") (SV (VStr [])) = c1).
  { unfold ss'. rewrite !dict_get_or_set. keys_simpl. exact Hc. }
  assert (GM : dict_get_or ss' (py "/ModDate") (SV (VStr [])) = m1).
  { unfold ss'. rewrite !dict_get_or_set. keys_simpl. exact Hm. }
  split; [rewrite GPC, GC; reflexivity |].
  split; [rewrite GPM, GM; reflexivity |].
  unfold auto_sync at 1. rewrite GC, GM.
  replace (dict_get_or ss' (py "_prev_creation") c1) with c1
    by (unfold dict_get_or; rewrite GPC; reflexivity).
  replace (dict_get_or ss' (py "_prev_mod") m1) with m1
    by (unfold dict_get_or; rewrite GPM; reflexivity).
  rewrite !sval_eqb_refl. cbv [negb andb]. cbv iota beta.
  rewrite (dict_set_get_same ss' _ _ GPC), (dict_set_get_same ss' _ _ GPM). reflexivity.
Qed.

Lemma sval_eqb_false (a b : sval) : a <> b -> sval_eqb a b = false.
Proof. intros H. destruct (sval_eqb a b) eqn:E; [apply sval_eqb_eq in E; contradiction | reflexivity]. Qed.

Lemma sval_eqb_true (a b : sval) : a = b -> sval_eqb a b = true.
Proof. intros ->. apply sval_eqb_refl. Qed.

(** The synchronisation copies a one-sided edit: when only /CreationDate
    differs from the value seen on the previous run, /ModDate takes its
    value, and the other way round. When neither or both were edited, the
    two dates keep their values. *)
Theorem auto_sync_propagates (ss : dict sval) :
  let c := dict_get_or ss (py "/CreationDate") (SV (VStr [])) in
  let m := dict_get_or ss (py "/ModDate") (SV (VStr [])) in
  let pc := dict_get_or ss (py "_prev_creation") c in
  let pm := dict_get_or ss (py "_prev_mod") m in
  (c <> pc -> m = pm ->
     dict_get (auto_sync ss) (py "/ModDate") = Some c /\
     dict_get (auto_sync ss) (py "/CreationDate") = dict_get ss (py "/CreationDate")) /\
  (m <> pm -> c = pc ->
     dict_get (auto_sync ss) (py "/CreationDate") = Some m /\
     dict_get (auto_sync ss) (py "/ModDate") = dict_get ss (py "/ModDate")) /\
  ((c = pc <-> m = pm) ->
     dict_get (auto_sync ss) (py "/CreationDate") = dict_get ss (py "/CreationDate") /\
     dict_get (auto_sync ss) (py "/ModDate") = dict_get ss (py "/ModDate")).
Proof.
  intros c m pc pm. unfold auto_sync. fold c m. fold pc pm.
  split; [| split].
  - intros H1 H2. rewrite (sval_eqb_false _ _ H1), (sval_eqb_true _ _ H2).
    cbv [negb andb]. cbv iota beta. rewrite !dict_get_set. keys_simpl.
    split; reflexivity.
  - intros H1 H2. rewrite (sval_eqb_false _ _ H1), (sval_eqb_true _ _ H2).
    cbv [negb andb]. cbv iota beta. rewrite !dict_get_set. keys_simpl.
    split; reflexivity.
  - intros H. destruct (sval_eq_dec c pc) as [E | E].
    + rewrite (sval_eqb_true _ _ E), (sval_eqb_true _ _ (proj1 H E)).
      cbv [negb andb]. cbv iota beta. rewrite !dict_get_set. keys_simpl.
      split; reflexivity.
    + assert (E' : m <> pm) by (intros E'; apply E, H, E').
      rewrite (sval_eqb_false _ _ E), (sval_eqb_false _ _ E').
      cbv [negb andb]. cbv iota beta. rewrite !dict_get_set. keys_simpl.
      split; reflexivity.
Qed.

Lemma pystr_eqb_not_in (a k : pystr) (l : list pystr) :
  In a l -> ~ In k l -> pystr_eqb a k = false.
Proof.
  intros Ha Hk. destruct (pystr_eqb a k) eqn:E; [| reflexivity].
  apply pystr_eqb_eq in E. subst. contradiction.
Qed.

(** The synchronisation writes only the two dates and the two
    previous-value markers; every other session entry is left as it is. *)
Theorem auto_sync_frame (ss : dict sval) (k : pystr) :
  ~ In k [py "/CreationDate"; py "/ModDate"; py "_prev_creation"; py "_prev_mod"] ->
  dict_get (auto_sync ss) k = dict_get ss k.
Proof.
  intros Hk.
  assert (N1 : pystr_eqb (py "/CreationDate") k = false)
    by (refine (pystr_eqb_not_in _ k _ _ Hk); simpl; auto).
  assert (N2 : pystr_eqb (py "/ModDate") k = false)
    by (refine (pystr_eqb_not_in _ k _ _ Hk); simpl; auto).
  assert (N3 : pystr_eqb (py "_prev_creation") k = false)
    by (refine (pystr_eqb_not_in _ k _ _ Hk); simpl; auto).
  assert (N4 : pystr_eqb (py "_prev_mod") k = false)
    by (refine (pystr_eqb_not_in _ k _ _ Hk); simpl; auto).
  unfold auto_sync.
  repeat match goal with |- context [sval_eqb ?a ?b] => destruct (sval_eqb a b) end;
    cbv [negb andb]; cbv iota beta; rewrite !dict_get_set, ?N1, ?N2, ?N3, ?N4; reflexivity.
Qed.

Lemma auto_sync_frame_witness :
  ~ In (py "/Title") [py "/CreationDate"; py "/ModDate"; py "_prev_creation"; py "_prev_mod"] /\
  dict_get (auto_sync [(py "/Title", SV (VStr (py "T"))); (py "/ModDate", SV (VStr (py "x")))])
    (py "/Title") = Some (SV (VStr (py "T"))).
Proof.
  assert (H : ~ In (py "/Title")
                [py "/CreationDate"; py "/ModDate"; py "_prev_creation"; py "_prev_mod"])
    by (simpl; intuition discriminate).
  split; [exact H |].
  rewrite (auto_sync_frame _ _ H). reflexivity.
Defined.

(** ** [read_meta] *)

Lemma list_mem_In (k : pystr) (l : list pystr) : list_mem k l = true <-> In k l.
Proof.
  unfold list_mem. rewrite existsb_exists. split.
  - intros [x [Hx E]]. apply pystr_eqb_eq in E. subst. exact Hx.
  - intros H. exists k. split; [exact H | apply pystr_eqb_refl].
Qed.

Lemma dict_get_In {V} (d : dict V) (k : pystr) (v : V) :
  dict_get d k = Some v -> In k (map fst d).
Proof.
  induction d as [| [k0 v0] d IH]; simpl; [discriminate |].
  destruct (pystr_eqb k0 k) eqn:E; intros H.
  - apply pystr_eqb_eq in E. left. exact E.
  - right. apply IH, H.
Qed.

Lemma fold_dict_set_get {V} (f : pystr -> V) (ks : list pystr) (o : dict V) (k : pystr) :
  dict_get (fold_left (fun out k => dict_set out k (f k)) ks o) k =
  if list_mem k ks then Some (f k) else dict_get o k.
Proof.
  revert o. induction ks as [| k0 ks IH]; intros o; simpl; [reflexivity |].
  rewrite IH, dict_get_set. unfold list_mem at 2. simpl. fold (list_mem k ks).
  destruct (list_mem k ks); [rewrite orb_true_r; reflexivity |].
  rewrite pystr_eqb_sym, orb_false_r.
  destruct (pystr_eqb k k0) eqn:E; [apply pystr_eqb_eq in E; subst; reflexivity | reflexivity].
Qed.

Lemma dict_set_keys {V} (d : dict V) (k : pystr) (v : V) :
  map fst (dict_set d k v) = if list_mem k (map fst d) then map fst d else map fst d ++ [k].
Proof.
  induction d as [| [k0 v0] d IH]; simpl; [reflexivity |].
  unfold list_mem. simpl. fold (list_mem k (map fst d)).
  rewrite (pystr_eqb_sym k k0).
  destruct (pystr_eqb k0 k) eqn:E; simpl; [reflexivity |].
  rewrite IH. destruct (list_mem k (map fst d)); reflexivity.
Qed.

Lemma fold_dict_set_keys {V} (f : pystr -> V) (ks : list pystr) (o : dict V) :
  NoDup ks -> (forall k, In k ks -> ~ In k (map fst o)) ->
  map fst (fold_left (fun out k => dict_set out k (f k)) ks o) = map fst o ++ ks.
Proof.
  revert o. induction ks as [| k0 ks IH]; intros o Hnd Hdis; simpl; [symmetry; apply app_nil_r |].
  inversion Hnd as [| ? ? Hk0 Hks]; subst.
  rewrite IH; [| exact Hks |].
  - rewrite dict_set_keys.
    destruct (list_mem k0 (map fst o)) eqn:E.
    + apply list_mem_In in E. exfalso. exact (Hdis k0 (or_introl eq_refl) E).
    + rewrite <- app_assoc. reflexivity.
  - intros k Hk. rewrite dict_set_keys.
    destruct (list_mem k0 (map fst o)); [apply Hdis; right; exact Hk |].
    rewrite in_app_iff. intros [H | [H | []]].
    + exact (Hdis k (or_intror Hk) H).
    + subst. contradiction.
Qed.

Lemma BASE_KEYS_NoDup : NoDup BASE_KEYS.
Proof. repeat constructor; simpl; intuition discriminate. Qed.

Lemma read_meta_keys_In (md : dict pyval) (k : pystr) :
  In k (BASE_KEYS ++ filter (fun k => negb (list_mem k BASE_KEYS)) (map fst md)) <->
  In k BASE_KEYS \/ In k (map fst md).
Proof.
  rewrite in_app_iff, filter_In. split.
  - intros [H | [H _]]; [left | right]; exact H.
  - intros [H | H]; [left; exact H |].
    destruct (list_mem k BASE_KEYS) eqn:E.
    + left. apply list_mem_In, E.
    + right. split; [exact H | reflexivity].
Qed.

(** [read_meta] lists the eight standard keys first, in the order of
    [BASE_KEYS], then the document's other keys; every key of the document
    is listed, none twice, and the returned dict has exactly these keys in
    this order. *)
Theorem read_meta_keys (md : dict pyval) :
  NoDup (map fst md) ->
  firstn 8 (snd (read_meta (Some md))) = BASE_KEYS /\
  (forall k, In k (snd (read_meta (Some md))) <-> In k BASE_KEYS \/ In k (map fst md)) /\
  NoDup (snd (read_meta (Some md))) /\
  map fst (fst (read_meta (Some md))) = snd (read_meta (Some md)).
Proof.
  intros Hnd. unfold read_meta. cbn [fst snd].
  set (keys := BASE_KEYS ++ filter (fun k => negb (list_mem k BASE_KEYS)) (map fst md)).
  assert (Nk : NoDup keys).
  { apply NoDup_app; [apply BASE_KEYS_NoDup | apply NoDup_filter, Hnd |].
    intros a Ha Hf. apply filter_In in Hf as [_ Hf].
    apply list_mem_In in Ha. rewrite Ha in Hf. discriminate. }
  split; [reflexivity |]. split; [apply read_meta_keys_In |]. split; [exact Nk |].
  exact (fold_dict_set_keys (fun k => if is_date_key k
           then VStr (pdf_date_to_display_date_v (dict_get_or md k (VStr [])))
           else dict_get_or md k (VStr [])) keys [] Nk (fun _ _ H => H)).
Qed.

Lemma read_meta_keys_witness :
  NoDup (map fst [(py "/Title", VStr (py "T")); (py "/Foo", VObj 7)]) /\
  In (py "/Foo") (snd (read_meta (Some [(py "/Title", VStr (py "T")); (py "/Foo", VObj 7)]))) /\
  NoDup (snd (read_meta (Some [(py "/Title", VStr (py "T")); (py "/Foo", VObj 7)]))).
Proof.
  assert (H : NoDup (map fst [(py "/Title", VStr (py "T")); (py "/Foo", VObj 7)]))
    by (repeat constructor; simpl; intuition discriminate).
  destruct (read_meta_keys _ H) as [_ [Hin [Hnd _]]].
  split; [exact H | split; [apply Hin; right; simpl; auto | exact Hnd]].
Defined.

Lemma read_meta_get (md : dict pyval) (k : pystr) :
  dict_get (fst (read_meta (Some md))) k =
  if list_mem k (snd (read_meta (Some md))) then
    Some (if is_date_key k then VStr (pdf_date_to_display_date_v (dict_get_or md k (VStr [])))
          else dict_get_or md k (VStr []))
  else None.
Proof.
  unfold read_meta. cbn [fst snd].
  exact (fold_dict_set_get (fun k => if is_date_key k
           then VStr (pdf_date_to_display_date_v (dict_get_or md k (VStr [])))
           else dict_get_or md k (VStr [])) _ [] k).
Qed.

Lemma read_meta_mem (md : dict pyval) (k : pystr) :
  In k BASE_KEYS \/ In k (map fst md) -> list_mem k (snd (read_meta (Some md))) = true.
Proof.
  intros H. apply list_mem_In. unfold read_meta. cbn [snd].
  apply read_meta_keys_In, H.
Qed.

(** What [read_meta] shows for a key: a standard key the document lacks
    reads as the empty string; a key other than the two dates keeps the
    document's value as it is; a date stored as "YYYYMMDDHHmmSS" after an
    optional "D:", with a valid date-time (year 1000 or later) and any
    suffix, reads as "dd/mm/YYYY, HH:MM:SS";
    a date that is not a string reads as the empty string. *)
Theorem read_meta_values (md : dict pyval) (k : pystr) :
  (In k BASE_KEYS -> dict_get md k = None ->
     dict_get (fst (read_meta (Some md))) k = Some (VStr [])) /\
  (is_date_key k = false -> forall v, dict_get md k = Some v ->
     dict_get (fst (read_meta (Some md))) k = Some v) /\
  (is_date_key k = true -> forall dt pre r,
     valid_datetime dt = true -> 1000 <= dt_year dt -> (pre = [] \/ pre = py "D:") ->
     dict_get md k = Some (VStr (pre ++ pdf_digits dt ++ r)) ->
     dict_get (fst (read_meta (Some md))) k = Some (VStr (display_form dt))) /\
  (is_date_key k = true -> forall o, dict_get md k = Some (VObj o) ->
     dict_get (fst (read_meta (Some md))) k = Some (VStr [])).
Proof.
  rewrite read_meta_get. split; [| split; [| split]].
  - intros Hb Hn. rewrite read_meta_mem by (left; exact Hb).
    unfold dict_get_or. rewrite Hn. destruct (is_date_key k); reflexivity.
  - intros Hd v Hv. rewrite read_meta_mem by (right; exact (dict_get_In _ _ _ Hv)).
    rewrite Hd. unfold dict_get_or. rewrite Hv. reflexivity.
  - intros Hd dt pre r V Hy Hpre Hv. rewrite read_meta_mem by (right; exact (dict_get_In _ _ _ Hv)).
    rewrite Hd. unfold dict_get_or. rewrite Hv. cbn [pdf_date_to_display_date_v].
    rewrite pdf_to_display_digits by assumption. reflexivity.
  - intros Hd o Hv. rewrite read_meta_mem by (right; exact (dict_get_In _ _ _ Hv)).
    rewrite Hd. unfold dict_get_or. rewrite Hv. reflexivity.
Qed.

(** ** The upload step *)

Lemma pystr_eqb_hd (n k : pystr) : hd 0 k = 47 -> hd 0 n <> 47 -> pystr_eqb n k = false.
Proof.
  intros Hk Hn. destruct (pystr_eqb n k) eqn:E; [| reflexivity].
  apply pystr_eqb_eq in E. subst. contradiction.
Qed.

Lemma dict_get_setdefault {V} (d : dict V) (k : pystr) (v : V) (k' : pystr) :
  dict_get (dict_setdefault d k v) k' =
  if pystr_eqb k k' then match dict_get d k with Some x => Some x | None => Some v end
  else dict_get d k'.
Proof.
  unfold dict_setdefault, dict_mem. destruct (dict_get d k) eqn:E.
  - destruct (pystr_eqb k k') eqn:E'; [| reflexivity].
    apply pystr_eqb_eq in E'. subst. exact E.
  - rewrite dict_get_set. reflexivity.
Qed.

Lemma dict_get_setdefault_some {V} (d : dict V) (k : pystr) (v : V) (k' : pystr) (x : V) :
  dict_get d k' = Some x -> dict_get (dict_setdefault d k v) k' = Some x.
Proof.
  intros H. rewrite dict_get_setdefault. destruct (pystr_eqb k k') eqn:E; [| exact H].
  apply pystr_eqb_eq in E. subst. rewrite H. reflexivity.
Qed.

Lemma fold_upload_get (meta : dict pyval) (s : dict sval) (k : pystr) :
  dict_get (fold_left (fun s '(k, v) => if dict_mem s k then s else dict_set s k (SV v))
              meta s) k =
  match dict_get s k with Some x => Some x | None => option_map SV (dict_get meta k) end.
Proof.
  revert s. induction meta as [| [k0 v0] meta IH]; intros s; simpl.
  - destruct (dict_get s k); reflexivity.
  - rewrite IH. unfold dict_mem.
    destruct (dict_get s k0) eqn:E0.
    + destruct (pystr_eqb k0 k) eqn:E; [| reflexivity].
      apply pystr_eqb_eq in E. subst. rewrite E0. reflexivity.
    + rewrite dict_get_set. destruct (pystr_eqb k0 k) eqn:E; [| reflexivity].
      apply pystr_eqb_eq in E. subst. rewrite E0. reflexivity.
Qed.

(** Loading a PDF never overwrites a session entry that already exists
    (other than the three bookkeeping entries): when a second file is
    uploaded, fields that already hold a value -- the previous file's
    metadata or the user's edits -- keep it, and the previous-value markers
    of the date synchronisation are not reset. *)
Theorem on_upload_keeps_existing (ss : dict sval) (name : pystr)
    (md : option (dict pyval)) (k : pystr) (v : sval) :
  ~ In k [py "meta_keys"; py "meta_dict"; py "_last_file_name"] ->
  dict_get ss k = Some v ->
  dict_get (on_upload ss name md) k = Some v.
Proof.
  intros Hk Hv. unfold on_upload.
  destruct (_ || _); [| exact Hv].
  destruct (read_meta md) as [meta keys].
  assert (N1 : pystr_eqb (py "meta_keys") k = false)
    by (refine (pystr_eqb_not_in _ k _ _ Hk); simpl; auto).
  assert (N2 : pystr_eqb (py "meta_dict") k = false)
    by (refine (pystr_eqb_not_in _ k _ _ Hk); simpl; auto).
  assert (N3 : pystr_eqb (py "_last_file_name") k = false)
    by (refine (pystr_eqb_not_in _ k _ _ Hk); simpl; auto).
  apply dict_get_setdefault_some, dict_get_setdefault_some.
  rewrite fold_upload_get, !dict_get_set, N1, N2, N3, Hv. reflexivity.
Qed.

Lemma on_upload_keeps_existing_witness :
  ~ In (py "/Title") [py "meta_keys"; py "meta_dict"; py "_last_file_name"] /\
  dict_get [(py "meta_dict", SMeta []); (py "_last_file_name", SV (VStr (py "a.pdf")));
            (py "/Title", SV (VStr (py "Old")))] (py "/Title") = Some (SV (VStr (py "Old"))) /\
  dict_get (on_upload [(py "meta_dict", SMeta []); (py "_last_file_name", SV (VStr (py "a.pdf")));
                       (py "/Title", SV (VStr (py "Old")))]
              (py "b.pdf") (Some [(py "/Title", VStr (py "New"))])) (py "/Title")
    = Some (SV (VStr (py "Old"))).
Proof.
  assert (H : ~ In (py "/Title") [py "meta_keys"; py "meta_dict"; py "_last_file_name"])
    by (simpl; intuition discriminate).
  assert (G : dict_get [(py "meta_dict", SMeta []); (py "_last_file_name", SV (VStr (py "a.pdf")));
                        (py "/Title", SV (VStr (py "Old")))] (py "/Title")
              = Some (SV (VStr (py "Old")))) by reflexivity.
  split; [exact H | split; [exact G |]].
  apply (on_upload_keeps_existing _ _ _ _ _ H G).
Defined.

Lemma dict_setdefault_absent {V} (d : dict V) (k : pystr) (v : V) :
  dict_get d k = None -> dict_setdefault d k v = dict_set d k v.
Proof. intros H. unfold dict_setdefault, dict_mem. rewrite H. reflexivity. Qed.

Lemma auto_sync_fixed (ss : dict sval) :
  dict_get ss (py "_prev_creation") = Some (dict_get_or ss (py "/CreationDate") (SV (VStr []))) ->
  dict_get ss (py "_prev_mod") = Some (dict_get_or ss (py "/ModDate") (SV (VStr []))) ->
  auto_sync ss = ss.
Proof.
  intros GPC GPM. unfold auto_sync.
  set (c := dict_get_or ss (py "/CreationDate") (SV (VStr []))) in *.
  set (m := dict_get_or ss (py "/ModDate") (SV (VStr []))) in *.
  replace (dict_get_or ss (py "_prev_creation") c) with c
    by (unfold dict_get_or; rewrite GPC; reflexivity).
  replace (dict_get_or ss (py "_prev_mod") m) with m
    by (unfold dict_get_or; rewrite GPM; reflexivity).
  rewrite !sval_eqb_refl. cbv [negb andb]. cbv iota beta.
  rewrite (dict_set_get_same ss _ _ GPC), (dict_set_get_same ss _ _ GPM). reflexivity.
Qed.

Lemma read_meta_keys_slash (md : dict pyval) (k : pystr) :
  (forall k, In k (map fst md) -> hd 0 k = 47) ->
  In k (snd (read_meta (Some md))) -> hd 0 k = 47.
Proof.
  intros Hmd Hk. unfold read_meta in Hk. cbn [snd] in Hk.
  apply read_meta_keys_In in Hk as [Hk | Hk]; [| apply Hmd, Hk].
  simpl in Hk. intuition (subst; reflexivity).
Qed.

(** The first load of a PDF into a session that holds none of its fields
    and no synchronisation markers puts [read_meta]'s value of every listed
    key into the session, and the previous-value markers it sets agree with
    the loaded dates, so the synchronisation that runs right after the load
    changes nothing. (PDF dictionary keys are names, which start with
    "/".) *)
Theorem on_upload_first_load (ss : dict sval) (name : pystr) (md : dict pyval) :
  dict_get ss (py "meta_dict") = None ->
  dict_get ss (py "_prev_creation") = None ->
  dict_get ss (py "_prev_mod") = None ->
  (forall k, In k (map fst md) -> hd 0 k = 47) ->
  (forall k, In k (snd (read_meta (Some md))) -> dict_get ss k = None) ->
  (forall k, In k (snd (read_meta (Some md))) ->
     dict_get (on_upload ss name (Some md)) k
       = option_map SV (dict_get (fst (read_meta (Some md))) k)) /\
  auto_sync (on_upload ss name (Some md)) = on_upload ss name (Some md).
Proof.
  intros HMD HPC HPM Hslash Habs.
  assert (Hk47 : forall k, In k (snd (read_meta (Some md))) -> hd 0 k = 47)
    by (intros k; apply read_meta_keys_slash, Hslash).
  assert (Nout : forall k, hd 0 k <> 47 -> dict_get (fst (read_meta (Some md))) k = None).
  { intros k Hk. rewrite read_meta_get.
    destruct (list_mem k (snd (read_meta (Some md)))) eqn:E; [| reflexivity].
    apply list_mem_In, Hk47 in E. contradiction. }
  unfold on_upload.
  replace (dict_mem ss (py "meta_dict")) with false by (unfold dict_mem; rewrite HMD; reflexivity).
  cbv [negb orb]. cbv iota.
  destruct (read_meta (Some md)) as [meta keys]. cbn [fst snd] in *. cbv iota beta.
  set (ss3 := dict_set (dict_set (dict_set ss (py "meta_keys") (SKeys keys))
                (py "meta_dict") (SMeta meta)) (py "_last_file_name") (SV (VStr name))).
  set (ss4 := fold_left (fun s '(k, v) => if dict_mem s k then s else dict_set s k (SV v))
                meta ss3).
  assert (G4PC : dict_get ss4 (py "_prev_creation") = None).
  { unfold ss4. rewrite fold_upload_get. unfold ss3. rewrite !dict_get_set. keys_simpl.
    rewrite HPC, Nout by discriminate. reflexivity. }
  assert (G4PM : dict_get ss4 (py "_prev_mod") = None).
  { unfold ss4. rewrite fold_upload_get. unfold ss3. rewrite !dict_get_set. keys_simpl.
    rewrite HPM, Nout by discriminate. reflexivity. }
  rewrite (dict_setdefault_absent ss4 _ _ G4PC).
  set (ss5 := dict_set ss4 (py "_prev_creation")
                (dict_get_or ss4 (py "/CreationDate") (SV (VStr [])))).
  assert (G5PM : dict_get ss5 (py "_prev_mod") = None).
  { unfold ss5. rewrite dict_get_set. keys_simpl. exact G4PM. }
  rewrite (dict_setdefault_absent ss5 _ _ G5PM).
  split.
  - intros k Hk. pose proof (Hk47 k Hk) as H47.
    rewrite dict_get_set, (pystr_eqb_hd _ _ H47) by discriminate.
    unfold ss5. rewrite dict_get_set, (pystr_eqb_hd _ _ H47) by discriminate.
    unfold ss4. rewrite fold_upload_get. unfold ss3.
    rewrite !dict_get_set, !(pystr_eqb_hd _ _ H47) by discriminate.
    rewrite (Habs k Hk). reflexivity.
  - apply auto_sync_fixed.
    + rewrite dict_get_set. keys_simpl. unfold ss5. rewrite dict_get_set. keys_simpl.
      rewrite !dict_get_or_set. keys_simpl. reflexivity.
    + rewrite dict_get_set. keys_simpl. rewrite !dict_get_or_set. keys_simpl.
      reflexivity.
Qed.

Lemma on_upload_first_load_witness :
  dict_get [] (py "meta_dict") = @None sval /\
  (forall k, In k (map fst [(py "/CreationDate", VStr (py "D:20240101120000+03'00'"));
                            (py "/Title", VStr (py "T"))]) -> hd 0 k = 47) /\
  auto_sync (on_upload [] (py "a.pdf")
               (Some [(py "/CreationDate", VStr (py "D:20240101120000+03'00'"));
                      (py "/Title", VStr (py "T"))]))
  = on_upload [] (py "a.pdf")
      (Some [(py "/CreationDate", VStr (py "D:20240101120000+03'00'"));
             (py "/Title", VStr (py "T"))]).
Proof.
  assert (S : forall k, In k (map fst [(py "/CreationDate", VStr (py "D:20240101120000+03'00'"));
                                       (py "/Title", VStr (py "T"))]) -> hd 0 k = 47)
    by (intros k Hk; simpl in Hk; intuition (subst; reflexivity)).
  split; [reflexivity | split; [exact S |]].
  exact (proj2 (on_upload_first_load [] (py "a.pdf") _ eq_refl eq_refl eq_refl S
                  (fun k _ => eq_refl))).
Defined.

(** ** [parse_display_dt] and the "send /CreationDate" button *)

Lemma lstrip_spaces_app (pre y : pystr) :
  forallb py_isspace pre = true -> py_isspace (hd 0 y) = false -> y <> [] ->
  lstrip (pre ++ y) = y.
Proof.
  intros Hp Hy Hne. induction pre as [| c pre IH]; simpl.
  - destruct y as [| c y]; [contradiction |]. simpl in *. rewrite Hy. reflexivity.
  - simpl in Hp. apply andb_true_iff in Hp as [Hc Hp]. rewrite Hc. apply IH, Hp.
Qed.

Lemma forallb_rev {A} (f : A -> bool) (l : list A) : forallb f (rev l) = forallb f l.
Proof.
  induction l as [| a l IH]; simpl; [reflexivity |].
  rewrite forallb_app, IH. simpl. rewrite andb_true_r, andb_comm. reflexivity.
Qed.

Lemma hd_rev_last (x : pystr) : hd 0 (rev x) = last x 0.
Proof.
  induction x as [| a x IH] using rev_ind; [reflexivity |].
  rewrite rev_app_distr, last_last. reflexivity.
Qed.

(** [strip()] removes surrounding whitespace and nothing else. *)
Lemma py_strip_pad (pre x post : pystr) :
  forallb py_isspace pre = true -> forallb py_isspace post = true -> x <> [] ->
  py_isspace (hd 0 x) = false -> py_isspace (last x 0) = false ->
  py_strip (pre ++ x ++ post) = x.
Proof.
  intros Hpre Hpost Hne Hh Hl. unfold py_strip.
  assert (H1 : py_isspace (hd 0 (x ++ post)) = false) by (destruct x; [contradiction | exact Hh]).
  assert (H2 : x ++ post <> []) by (destruct x; [contradiction | discriminate]).
  rewrite (lstrip_spaces_app pre (x ++ post) Hpre H1 H2).
  rewrite rev_app_distr, lstrip_spaces_app.
  - apply rev_involutive.
  - rewrite forallb_rev. exact Hpost.
  - rewrite hd_rev_last. exact Hl.
  - intros H. apply Hne. apply (f_equal (@rev Z)) in H. rewrite rev_involutive in H. exact H.
Qed.

Lemma display_form_edges (dt : datetime) :
  valid_datetime dt = true ->
  display_form dt <> [] /\ py_isspace (hd 0 (display_form dt)) = false /\
  py_isspace (last (display_form dt) 0) = false.
Proof.
  intros V. pose proof (valid_datetime_bounds dt V) as (_ & _ & Hd & _ & _ & Hs).
  destruct (pad2_digits (dt_day dt) ltac:(lia)) as [a [b [Ed [Ha _]]]].
  destruct (pad2_digits (dt_second dt) ltac:(lia)) as [a' [b' [Es [_ [Hb' _]]]]].
  unfold display_form. rewrite Ed, Es.
  split; [discriminate |]. split.
  - apply ascii_digit_facts, Ha.
  - simpl. apply ascii_digit_facts, Hb'.
Qed.

Lemma parse_display_dt_form (dt : datetime) (pre post : pystr) :
  valid_datetime dt = true ->
  forallb py_isspace pre = true -> forallb py_isspace post = true ->
  parse_display_dt (pre ++ display_form dt ++ post) =
    Some (mkdate (dt_year dt) (dt_month dt) (dt_day dt),
          mktime (dt_hour dt) (dt_minute dt) (dt_second dt)).
Proof.
  intros V Hpre Hpost. destruct (display_form_edges dt V) as (Hne & Hh & Hl).
  unfold parse_display_dt. rewrite py_strip_pad by assumption.
  rewrite strptime_display_form by exact V. reflexivity.
Qed.

(** [parse_display_dt] reads a display string "dd/mm/YYYY, HH:MM:SS" of a
    valid date-time (any year, written with four digits) back into its date
    and time, whatever whitespace surrounds it. *)
Theorem parse_display_dt_padded (dt : datetime) (pre post : pystr) :
  valid_datetime dt = true ->
  forallb py_isspace pre = true -> forallb py_isspace post = true ->
  parse_display_dt (pre ++ display_form dt ++ post) =
    Some (mkdate (dt_year dt) (dt_month dt) (dt_day dt),
          mktime (dt_hour dt) (dt_minute dt) (dt_second dt)).
Proof.
  apply parse_display_dt_form.
Qed.

Lemma parse_display_dt_padded_witness :
  valid_datetime (mkdt 999 12 31 23 59 59) = true /\
  parse_display_dt (py " 31/12/0999, 23:59:59  ")
    = Some (mkdate 999 12 31, mktime 23 59 59).
Proof.
  assert (V : valid_datetime (mkdt 999 12 31 23 59 59) = true) by reflexivity.
  split; [exact V |].
  exact (parse_display_dt_padded (mkdt 999 12 31 23 59 59) [32] [32; 32] V eq_refl eq_refl).
Defined.

(** A /CreationDate read from a PDF as "YYYYMMDDHHmmSS" after an optional
    "D:", followed by any suffix (a valid date-time, year 1000 or later),
    and sent to the QR generator sets the
    QR date and time to that date-time: the hour-minute and seconds values
    the button stores recombine (line 247) into the same time. *)
Theorem send_creation_from_pdf (dt : datetime) (pre r : pystr) :
  valid_datetime dt = true -> 1000 <= dt_year dt -> (pre = [] \/ pre = py "D:") ->
  exists hm secs,
    send_creation_to_qr (pdf_date_to_display_date (pre ++ pdf_digits dt ++ r))
      = SendDone (mkdate (dt_year dt) (dt_month dt) (dt_day dt))
                 (mktime (dt_hour dt) (dt_minute dt) (dt_second dt)) hm secs /\
    qr_time_of hm secs = mktime (dt_hour dt) (dt_minute dt) (dt_second dt).
Proof.
  intros V Hy Hpre. rewrite pdf_to_display_digits by assumption.
  unfold send_creation_to_qr.
  rewrite <- (app_nil_r (display_form dt)), <- (app_nil_l (display_form dt ++ [])).
  rewrite parse_display_dt_form by (try exact V; reflexivity).
  eexists _, _. split; reflexivity.
Qed.

Lemma send_creation_from_pdf_witness :
  valid_datetime (mkdt 2024 3 15 10 20 30) = true /\ 1000 <= 2024 /\
  exists hm secs,
    send_creation_to_qr (pdf_date_to_display_date (py "D:20240315102030Z"))
      = SendDone (mkdate 2024 3 15) (mktime 10 20 30) hm secs /\
    qr_time_of hm secs = mktime 10 20 30.
Proof.
  assert (V : valid_datetime (mkdt 2024 3 15 10 20 30) = true) by reflexivity.
  split; [exact V | split; [lia |]].
  change (py "D:20240315102030Z")
    with (py "D:" ++ pdf_digits (mkdt 2024 3 15 10 20 30) ++ py "Z").
  exact (send_creation_from_pdf (mkdt 2024 3 15 10 20 30) (py "D:") (py "Z") V
           ltac:(simpl; lia) (or_intror eq_refl)).
Defined.

(** ** Decimal digit strings *)

Lemma value_of_digits_fold (l : pystr) (a : Z) :
  fold_left (fun acc d => acc * 10 + (d - 48)) l a
  = a * 10 ^ Z.of_nat (List.length l) + value_of_digits l.
Proof.
  revert a. induction l as [| x l IH]; intros a.
  - unfold value_of_digits. simpl. lia.
  - unfold value_of_digits. simpl fold_left. rewrite !IH.
    cbn [List.length]. rewrite Nat2Z.inj_succ, Z.pow_succ_r by lia. lia.
Qed.

Lemma value_of_digits_app (l1 l2 : pystr) :
  value_of_digits (l1 ++ l2)
  = value_of_digits l1 * 10 ^ Z.of_nat (List.length l2) + value_of_digits l2.
Proof.
  unfold value_of_digits at 1. rewrite fold_left_app.
  rewrite value_of_digits_fold. reflexivity.
Qed.

Lemma value_of_digits_cons (x : Z) (l : pystr) :
  value_of_digits (x :: l) = (x - 48) * 10 ^ Z.of_nat (List.length l) + value_of_digits l.
Proof.
  change (x :: l) with ([x] ++ l). rewrite value_of_digits_app. reflexivity.
Qed.

Lemma value_of_digits_bounds (l : pystr) :
  Forall is_digit_char l ->
  0 <= value_of_digits l < 10 ^ Z.of_nat (List.length l).
Proof.
  induction 1 as [| x l Hx Hl IH]; [vm_compute; split; congruence |].
  rewrite value_of_digits_cons. cbn [List.length]. rewrite Nat2Z.inj_succ, Z.pow_succ_r by lia.
  unfold is_digit_char in Hx. nia.
Qed.

Lemma value_of_digits_zeros (k : nat) (l : pystr) :
  value_of_digits (repeat 48 k ++ l) = value_of_digits l.
Proof.
  rewrite value_of_digits_app.
  replace (value_of_digits (repeat 48 k)) with 0; [lia |].
  induction k as [| k IH]; [reflexivity |].
  cbn [repeat]. rewrite value_of_digits_cons, <- IH. lia.
Qed.

Lemma digits_fuel_digits (fuel : nat) (n : Z) (acc : pystr) :
  0 <= n -> Forall is_digit_char acc -> Forall is_digit_char (digits_fuel fuel n acc).
Proof.
  revert n acc. induction fuel as [| f IH]; intros n acc Hn Hacc; cbn [digits_fuel]; [exact Hacc |].
  destruct (n <? 10) eqn:E.
  - apply Z.ltb_lt in E. constructor; [unfold is_digit_char; lia | exact Hacc].
  - apply IH; [apply Z.div_pos; lia |].
    constructor; [| exact Hacc].
    pose proof (Z.mod_pos_bound n 10 ltac:(lia)). unfold is_digit_char. lia.
Qed.

Lemma digits_fuel_value (fuel : nat) (n : Z) (acc : pystr) :
  0 <= n < 10 ^ Z.of_nat fuel ->
  value_of_digits (digits_fuel fuel n acc)
  = n * 10 ^ Z.of_nat (List.length acc) + value_of_digits acc.
Proof.
  revert n acc. induction fuel as [| f IH]; intros n acc Hn.
  - simpl in Hn. assert (n = 0) by lia. subst. simpl. reflexivity.
  - cbn [digits_fuel]. destruct (n <? 10) eqn:E.
    + rewrite value_of_digits_cons. lia.
    + apply Z.ltb_ge in E.
      rewrite Nat2Z.inj_succ, Z.pow_succ_r in Hn by lia.
      pose proof (Z.div_mod n 10 ltac:(lia)).
      pose proof (Z.mod_pos_bound n 10 ltac:(lia)).
      rewrite IH by (split; [apply Z.div_pos; lia | apply Z.div_lt_upper_bound; lia]).
      rewrite value_of_digits_cons. cbn [List.length]. rewrite Nat2Z.inj_succ, Z.pow_succ_r by lia.
      nia.
Qed.

Lemma digits_fuel_length (fuel : nat) (n : Z) (acc : pystr) (k : nat) :
  0 <= n < 10 ^ Z.of_nat k -> (1 <= k)%nat ->
  (List.length (digits_fuel fuel n acc) <= k + List.length acc)%nat.
Proof.
  revert n acc k. induction fuel as [| f IH]; intros n acc k Hn Hk; cbn [digits_fuel]; [lia |].
  destruct (n <? 10) eqn:E; [cbn [List.length]; lia |].
  apply Z.ltb_ge in E.
  destruct k as [| [| k]]; [lia | simpl in Hn; lia |].
  rewrite Nat2Z.inj_succ, Z.pow_succ_r in Hn by lia.
  specialize (IH (n / 10) ((48 + n mod 10) :: acc) (S k)).
  simpl in IH. apply Nat.le_trans with (S k + S (List.length acc))%nat; [| lia].
  apply IH; [| lia]. split; [apply Z.div_pos; lia | apply Z.div_lt_upper_bound; lia].
Qed.

Lemma digits_fuel_nonempty (f : nat) (n : Z) (acc : pystr) :
  digits_fuel (S f) n acc <> [].
Proof.
  revert n acc. induction f as [| f IH]; intros n acc; cbn [digits_fuel].
  - destruct (n <? 10); discriminate.
  - destruct (n <? 10); [discriminate |]. apply IH.
Qed.

Lemma digits_of_fuel_enough (n : Z) : 0 <= n -> n < 10 ^ Z.of_nat (S (Z.to_nat (Z.log2 n))).
Proof.
  intros Hn. rewrite Nat2Z.inj_succ, Z2Nat.id by apply Z.log2_nonneg.
  destruct (Z.eq_dec n 0) as [-> | Hn0]; [vm_compute; reflexivity |].
  destruct (Z.log2_spec n ltac:(lia)) as [_ H].
  apply Z.lt_le_trans with (2 ^ Z.succ (Z.log2 n)); [exact H |].
  apply Z.pow_le_mono_l. lia.
Qed.

Lemma digits_of_digits (n : Z) : 0 <= n -> Forall is_digit_char (digits_of n).
Proof. intros Hn. apply digits_fuel_digits; [exact Hn | constructor]. Qed.

Lemma digits_of_value (n : Z) : 0 <= n -> value_of_digits (digits_of n) = n.
Proof.
  intros Hn. unfold digits_of. rewrite digits_fuel_value by (split; [exact Hn | apply digits_of_fuel_enough, Hn]).
  change (Z.of_nat (List.length (@nil Z))) with 0. change (value_of_digits []) with 0. lia.
Qed.

Lemma digits_of_length (n : Z) (k : nat) :
  0 <= n < 10 ^ Z.of_nat k -> (1 <= k)%nat -> (List.length (digits_of n) <= k)%nat.
Proof.
  intros Hn Hk. unfold digits_of.
  pose proof (digits_fuel_length (S (Z.to_nat (Z.log2 n))) n [] k Hn Hk) as H.
  cbn [List.length] in H. lia.
Qed.

Lemma digits_of_nonempty (n : Z) : digits_of n <> [].
Proof. apply digits_fuel_nonempty. Qed.

Lemma digits_of_lt (n : Z) : 0 <= n -> n < 10 ^ ndigits n.
Proof.
  intros Hn. unfold ndigits. rewrite <- (digits_of_value n Hn) at 1.
  apply value_of_digits_bounds, digits_of_digits, Hn.
Qed.

Lemma ndigits_le (n : Z) (k : nat) :
  0 <= n < 10 ^ Z.of_nat k -> (1 <= k)%nat -> ndigits n <= Z.of_nat k.
Proof. intros Hn Hk. unfold ndigits. apply Nat2Z.inj_le, digits_of_length; assumption. Qed.

Lemma ndigits_pos (n : Z) : 1 <= ndigits n.
Proof.
  unfold ndigits. destruct (digits_of n) eqn:E; [exfalso; exact (digits_of_nonempty n E) |].
  simpl. lia.
Qed.

(** ** Money formatting *)

Lemma span_digits_spec (s ds r : pystr) :
  span_digits s = (ds, r) -> Forall is_digit_char ds /\ s = ds ++ r.
Proof.
  revert ds r. induction s as [| c s IH]; intros ds r H; simpl in H.
  - injection H as <- <-. split; [constructor | reflexivity].
  - destruct (is_ascii_digit c) eqn:Ec.
    + destruct (span_digits s) as [ds' r'] eqn:Es. injection H as <- <-.
      destruct (IH ds' r' eq_refl) as [Hd ->]. split; [| reflexivity].
      constructor; [| exact Hd]. unfold is_ascii_digit in Ec.
      apply andb_true_iff in Ec as [A B]. apply Z.leb_le in A, B. unfold is_digit_char; lia.
    + injection H as <- <-. split; [constructor | reflexivity].
Qed.

Lemma parse_numeric_nonneg (a : pystr) (d : decimal) :
  parse_numeric a = Some d -> dec_nonneg d.
Proof.
  unfold parse_numeric. intros H.
  repeat (cbv zeta iota beta in H; match type of H with
  | context [span_digits ?x] =>
      let E := fresh "E" in destruct (span_digits x) as [?ds ?rr] eqn:E;
      apply span_digits_spec in E as [? _]
  | context [parse_sign ?x] => destruct (parse_sign x)
  | context [if ?b then _ else _] => destruct b
  | context [match ?l with [] => _ | _ :: _ => _ end] => destruct l
  | Some _ = Some _ => injection H as <-
  | None = Some _ => discriminate H
  end);
  cbn [dec_nonneg]; try exact I; apply value_of_digits_bounds;
  repeat first [apply Forall_app; split | assumption | constructor].
Qed.

Lemma Decimal_of_str_nonneg (x : pystr) (d : decimal) :
  Decimal_of_str x = Some d -> dec_nonneg d.
Proof.
  unfold Decimal_of_str. destruct (numeric_as_ascii x) as [a |]; simpl; [| discriminate].
  destruct (parse_numeric a) as [d' |] eqn:E; simpl; [| discriminate].
  destruct (exact_in_maxcontext d'); [| discriminate].
  intros H. injection H as <-. exact (parse_numeric_nonneg a d' E).
Qed.

Lemma ndigits_bound (n : Z) (k : Z) :
  0 <= n -> ndigits n <= k -> n < 10 ^ k.
Proof.
  intros Hn Hk. eapply Z.lt_le_trans; [apply digits_of_lt, Hn |].
  apply Z.pow_le_mono_r; [lia | exact Hk].
Qed.

Lemma quantize_cents_form (d r : decimal) :
  dec_nonneg d -> quantize_cents d = Ok r -> cents_form r.
Proof.
  intros Hd H. destruct d as [neg c e | neg | neg p [|]]; cbn [dec_nonneg] in Hd; unfold quantize_cents in H.
  - destruct (c =? 0).
    + injection H as <-. left. exists neg, 0. split; [reflexivity | lia].
    + destruct (e + ndigits c - 1 >? 999999); [discriminate |].
      destruct (e + ndigits c - 1 + 2 + 1 >? 28); [discriminate |].
      cbv zeta in H. set (c' := if e >=? -2 then c * 10 ^ (e + 2) else round_half_up_div c (-2 - e)) in H.
      assert (Hc' : 0 <= c').
      { subst c'. destruct (e >=? -2) eqn:Ee.
        - apply Z.geb_ge in Ee. apply Z.mul_nonneg_nonneg; [exact Hd | apply Z.pow_nonneg; lia].
        - unfold round_half_up_div. destruct (-2 - e >? ndigits c); [lia |].
          assert (0 < 10 ^ (-2 - e)) by (apply Z.pow_pos_nonneg; lia).
          destruct (2 * (c mod 10 ^ (-2 - e)) >=? 10 ^ (-2 - e));
            [assert (0 <= c / 10 ^ (-2 - e)) by (apply Z.div_pos; lia); lia |
             apply Z.div_pos; lia]. }
      destruct (ndigits c' >? 28) eqn:En; [discriminate |].
      injection H as <-. left. exists neg, c'. split; [reflexivity |].
      split; [exact Hc' | apply ndigits_bound; [exact Hc' | rewrite Z.gtb_ltb, Z.ltb_ge in En; lia]].
  - discriminate.
  - discriminate.
  - injection H as <-. right. exists neg, (p mod 10 ^ 28). split; [reflexivity |].
    apply Z.mod_pos_bound. lia.
Qed.

Lemma format_f_cents (neg : bool) (c : Z) :
  0 <= c < 10 ^ 28 ->
  exists ip fp,
    format_f (Finite neg c (-2)) = sign_str neg ++ ip ++ 46 :: fp /\
    ip <> [] /\ (List.length ip <= 26)%nat /\ List.length fp = 2%nat /\
    Forall is_digit_char (ip ++ fp) /\ value_of_digits (ip ++ fp) = c.
Proof.
  intros Hc.
  assert (Hlen : (1 <= List.length (digits_of c) <= 28)%nat).
  { split.
    - destruct (digits_of c) eqn:E; [exfalso; exact (digits_of_nonempty c E) | simpl; lia].
    - apply digits_of_length; [exact Hc | lia]. }
  pose proof (digits_of_digits c (proj1 Hc)) as Hdig.
  pose proof (digits_of_value c (proj1 Hc)) as Hval.
  unfold format_f. cbv zeta.
  replace ((c =? 0) && (-2 >? 0)) with false by (rewrite andb_comm; reflexivity).
  change (if neg then [45] else []) with (sign_str neg).
  remember (digits_of c) as ds eqn:Eds. clear Eds.
  destruct (rev ds) as [| b [| a rpre]] eqn:Er;
    apply (f_equal (@rev Z)) in Er; rewrite rev_involutive in Er; simpl in Er; subst ds.
  - simpl in Hlen. lia.
  - exists [48], [48; b]. simpl. split; [reflexivity |].
    split; [discriminate |]. split; [lia |]. split; [reflexivity |].
    inversion_clear Hdig. split.
    + apply Forall_cons; [unfold is_digit_char; lia |]. apply Forall_cons; [unfold is_digit_char; lia |].
      constructor; [assumption | constructor].
    + rewrite <- Hval. change [48; 48; b] with (repeat 48 2 ++ [b]).
      apply value_of_digits_zeros.
  - rewrite <- app_assoc in *. cbn [app] in *.
    rewrite length_app in *. cbn [List.length] in *.
    replace (-2 + Z.of_nat (List.length (rev rpre) + 2)) with (Z.of_nat (List.length (rev rpre))) by lia.
    replace (Z.of_nat (List.length (rev rpre)) <? 0) with false by (symmetry; apply Z.ltb_ge; lia).
    replace (Z.of_nat (List.length (rev rpre)) >? Z.of_nat (List.length (rev rpre) + 2)) with false
      by (symmetry; rewrite Z.gtb_ltb; apply Z.ltb_ge; lia).
    rewrite Nat2Z.id, firstn_app, skipn_app, firstn_all, skipn_all, Nat.sub_diag.
    cbn [firstn skipn]. rewrite app_nil_r.
    destruct (rev rpre) as [| x pre] eqn:Ep.
    + exists [48], [a; b]. split; [reflexivity |].
      split; [discriminate |]. split; [simpl; lia |]. split; [reflexivity |]. split.
      * constructor; [unfold is_digit_char; lia | exact Hdig].
      * rewrite <- Hval. exact (value_of_digits_zeros 1 [a; b]).
    + exists (x :: pre), [a; b]. split; [reflexivity |].
      split; [discriminate |]. split; [simpl in Hlen |- *; lia |]. split; [reflexivity |].
      split; [exact Hdig | exact Hval].
Qed.

Lemma py_isspace_visible (c : Z) : 33 <= c <= 126 -> py_isspace c = false.
Proof.
  intros Hc. destruct (py_isspace c) eqn:E; [| reflexivity]. exfalso.
  unfold py_isspace in E. repeat rewrite orb_true_iff in E. repeat rewrite andb_true_iff in E.
  rewrite ?Z.leb_le, ?Z.eqb_eq in E. lia.
Qed.

Lemma lstrip_visible (s : pystr) :
  Forall (fun c => 33 <= c <= 126) s -> lstrip s = s.
Proof.
  intros H. destruct s as [| c s]; [reflexivity |]. inversion_clear H.
  simpl. rewrite py_isspace_visible by assumption. reflexivity.
Qed.

Lemma numeric_as_ascii_plain (s : pystr) :
  Forall (fun c => 33 <= c <= 126 /\ c <> 95) s -> numeric_as_ascii s = Some s.
Proof.
  intros H. unfold numeric_as_ascii, py_strip.
  assert (Hv : Forall (fun c => 33 <= c <= 126) s) by (eapply Forall_impl; [| exact H]; intros c []; assumption).
  rewrite (lstrip_visible s Hv), (lstrip_visible (rev s)) by (apply Forall_rev, Hv).
  rewrite rev_involutive. clear Hv.
  induction H as [| c s [Hc Hc'] _ IH]; [reflexivity |]. simpl. rewrite IH. simpl.
  replace (c =? 95) with false by (symmetry; apply Z.eqb_neq, Hc').
  replace ((0 <? c) && (c <=? 127)) with true by (symmetry; apply andb_true_iff; split; [apply Z.ltb_lt | apply Z.leb_le]; lia).
  reflexivity.
Qed.

Lemma span_digits_app (ip r : pystr) :
  Forall is_digit_char ip ->
  span_digits (ip ++ r) = (ip ++ fst (span_digits r), snd (span_digits r)).
Proof.
  intros H. induction H as [| c ip Hc _ IH]; simpl.
  - destruct (span_digits r); reflexivity.
  - replace (is_ascii_digit c) with true
      by (symmetry; unfold is_digit_char in Hc; apply andb_true_iff; split; apply Z.leb_le; lia).
    rewrite IH. reflexivity.
Qed.

Lemma span_digits_all (ds : pystr) :
  Forall is_digit_char ds -> span_digits ds = (ds, []).
Proof. intros H. rewrite <- (app_nil_r ds) at 1. rewrite span_digits_app by exact H. rewrite app_nil_r. reflexivity. Qed.

Lemma parse_sign_sign_str (neg : bool) (d : Z) (r : pystr) :
  d <> 45 -> d <> 43 -> parse_sign (sign_str neg ++ d :: r) = (neg, d :: r).
Proof.
  intros H1 H2. destruct neg; [reflexivity |]. simpl.
  rewrite (proj2 (Z.eqb_neq d 45) H1), (proj2 (Z.eqb_neq d 43) H2). reflexivity.
Qed.

Lemma parse_numeric_cents (neg : bool) (ip fp : pystr) :
  Forall is_digit_char ip -> ip <> [] -> Forall is_digit_char fp ->
  parse_numeric (sign_str neg ++ ip ++ 46 :: fp)
  = Some (Finite neg (value_of_digits (ip ++ fp)) (- Z.of_nat (List.length fp))).
Proof.
  intros Hip Hne Hfp. unfold parse_numeric.
  destruct ip as [| d ip']; [contradiction |].
  assert (Hd : is_digit_char d) by (inversion Hip; assumption).
  unfold is_digit_char in Hd.
  rewrite <- app_comm_cons, parse_sign_sign_str by lia. rewrite app_comm_cons.
  rewrite span_digits_app by exact Hip. cbn [span_digits is_ascii_digit]. simpl fst. simpl snd.
  rewrite app_nil_r, Z.eqb_refl, span_digits_all by exact Hfp.
  cbv zeta. simpl List.length at 1. reflexivity.
Qed.

Lemma map_to_lower_digits (ds : pystr) :
  Forall is_digit_char ds -> map to_lower ds = ds.
Proof.
  intros H. induction H as [| c ds Hc _ IH]; [reflexivity |]. simpl. rewrite IH.
  unfold to_lower, is_digit_char in *.
  replace ((65 <=? c) && (c <=? 90)) with false by (symmetry; apply andb_false_iff; left; apply Z.leb_gt; lia).
  reflexivity.
Qed.

Lemma parse_numeric_nan (neg : bool) (ds : pystr) :
  Forall is_digit_char ds ->
  parse_numeric (sign_str neg ++ [78; 97; 78] ++ ds) = Some (DNaN neg (value_of_digits ds) false).
Proof.
  intros Hds. unfold parse_numeric.
  change ([78; 97; 78] ++ ds) with (78 :: [97; 78] ++ ds). rewrite parse_sign_sign_str by lia.
  cbv zeta. simpl.
  rewrite map_to_lower_digits by exact Hds. simpl.
  rewrite span_digits_all by exact Hds. reflexivity.
Qed.

Lemma digits_plain (ds : pystr) :
  Forall is_digit_char ds -> Forall (fun c => 33 <= c <= 126 /\ c <> 95) ds.
Proof. intros H. eapply Forall_impl; [| exact H]. unfold is_digit_char. intros c Hc. lia. Qed.

Lemma sign_str_plain (neg : bool) :
  Forall (fun c => 33 <= c <= 126 /\ c <> 95) (sign_str neg).
Proof. destruct neg; repeat constructor; lia. Qed.

Lemma quantize_cents_fixed (neg : bool) (c : Z) :
  0 <= c < 10 ^ 28 -> quantize_cents (Finite neg c (-2)) = Ok (Finite neg c (-2)).
Proof.
  intros Hc. unfold quantize_cents.
  destruct (c =? 0) eqn:E0; [apply Z.eqb_eq in E0; subst c; reflexivity |].
  pose proof (ndigits_le c 28 Hc ltac:(lia)) as Hn. pose proof (ndigits_pos c) as Hp.
  replace (-2 + ndigits c - 1 >? 999999) with false by (symmetry; rewrite Z.gtb_ltb; apply Z.ltb_ge; lia).
  replace (-2 + ndigits c - 1 + 2 + 1 >? 28) with false by (symmetry; rewrite Z.gtb_ltb; apply Z.ltb_ge; lia).
  cbv zeta. change (-2 >=? -2) with true. cbv iota.
  change (-2 + 2) with 0. rewrite Z.pow_0_r, Z.mul_1_r.
  replace (ndigits c >? 28) with false by (symmetry; rewrite Z.gtb_ltb; apply Z.ltb_ge; lia).
  reflexivity.
Qed.

Lemma Decimal_of_str_cents (neg : bool) (ip fp : pystr) (c : Z) :
  Forall is_digit_char (ip ++ fp) -> ip <> [] -> List.length fp = 2%nat ->
  value_of_digits (ip ++ fp) = c -> 0 <= c < 10 ^ 28 ->
  Decimal_of_str (sign_str neg ++ ip ++ 46 :: fp) = Some (Finite neg c (-2)).
Proof.
  intros Hd Hne Hl Hv Hc. apply Forall_app in Hd as [Hip Hfp].
  assert (Hex : exact_in_maxcontext (Finite neg c (-2)) = true).
  { unfold exact_in_maxcontext. destruct (c =? 0); [reflexivity |].
    pose proof (ndigits_le c 28 Hc ltac:(lia)) as Hn. pose proof (ndigits_pos c) as Hp.
    unfold MAX_ETINY, MAX_EMAX. apply andb_true_iff; split; apply Z.leb_le; lia. }
  unfold Decimal_of_str. rewrite numeric_as_ascii_plain.
  - cbn [opt_bind]. rewrite parse_numeric_cents by assumption. rewrite Hl, Hv.
    change (- Z.of_nat 2) with (-2). cbn [opt_bind]. rewrite Hex. reflexivity.
  - apply Forall_app; split; [apply sign_str_plain |].
    apply Forall_app; split; [apply digits_plain, Hip |].
    constructor; [lia | apply digits_plain, Hfp].
Qed.

Lemma Decimal_of_str_nan (neg : bool) (ds : pystr) :
  Forall is_digit_char ds ->
  Decimal_of_str (sign_str neg ++ [78; 97; 78] ++ ds) = Some (DNaN neg (value_of_digits ds) false).
Proof.
  intros Hd. unfold Decimal_of_str. rewrite numeric_as_ascii_plain.
  - cbn [opt_bind]. rewrite parse_numeric_nan by exact Hd. reflexivity.
  - apply Forall_app; split; [apply sign_str_plain |].
    apply Forall_app; split; [repeat constructor; lia | apply digits_plain, Hd].
Qed.

Lemma fmt2_ok_cents (x y : pystr) :
  _fmt2 x = Ok y -> exists r, cents_form r /\ y = format_f r.
Proof.
  unfold _fmt2.
  assert (Hq : dec_nonneg (match Decimal_of_str x with Some d => d | None => Finite false 0 0 end)).
  { destruct (Decimal_of_str x) eqn:E; [exact (Decimal_of_str_nonneg x d E) | simpl; lia]. }
  destruct (quantize_cents _) as [r | e] eqn:E; simpl; intros H; [| discriminate].
  injection H as <-. exists r. split; [exact (quantize_cents_form _ r Hq E) | reflexivity].
Qed.

Lemma format_f_nan (neg : bool) (p : Z) :
  0 <= p < 10 ^ 28 ->
  exists ds,
    format_f (DNaN neg p false) = sign_str neg ++ [78; 97; 78] ++ ds /\
    (List.length ds <= 28)%nat /\ Forall is_digit_char ds /\ value_of_digits ds = p.
Proof.
  intros Hp. unfold format_f. destruct (p =? 0) eqn:E.
  - apply Z.eqb_eq in E. subst p. exists []. repeat split; [simpl; lia | constructor].
  - exists (digits_of p). split; [reflexivity |]. split; [apply digits_of_length; [lia | lia] |].
    split; [apply digits_of_digits; lia | apply digits_of_value; lia].
Qed.

Lemma fmt2_format_cents (r : decimal) :
  cents_form r -> _fmt2 (format_f r) = Ok (format_f r).
Proof.
  intros [(neg & c & -> & Hc) | (neg & p & -> & Hp)].
  - destruct (format_f_cents neg c Hc) as (ip & fp & Hf & Hne & _ & Hl & Hd & Hv).
    rewrite Hf. unfold _fmt2. rewrite (Decimal_of_str_cents neg ip fp c Hd Hne Hl Hv Hc).
    rewrite quantize_cents_fixed by exact Hc. exact (f_equal Ok Hf).
  - destruct (format_f_nan neg p Hp) as (ds & Hf & _ & Hd & Hv).
    rewrite Hf. unfold _fmt2. rewrite (Decimal_of_str_nan neg ds Hd), Hv.
    cbn [quantize_cents bind]. rewrite Z.mod_small by exact Hp. exact (f_equal Ok Hf).
Qed.

(** Output shape of [_fmt2]. Whenever [_fmt2] returns, its text is an
    optional minus sign, one to 26 digits, a point and exactly two digits;
    or an optional minus sign, [NaN] and at most 28 digits (a quiet NaN
    input keeps its payload). *)
Theorem fmt2_shape (x y : pystr) :
  _fmt2 x = Ok y ->
  (exists neg ip fp,
     y = sign_str neg ++ ip ++ 46 :: fp /\ ip <> [] /\ (List.length ip <= 26)%nat /\
     List.length fp = 2%nat /\ Forall is_digit_char (ip ++ fp)) \/
  (exists neg ds,
     y = sign_str neg ++ py "NaN" ++ ds /\ (List.length ds <= 28)%nat /\
     Forall is_digit_char ds).
Proof.
  intros H. destruct (fmt2_ok_cents x y H) as (r & [(neg & c & -> & Hc) | (neg & p & -> & Hp)] & ->).
  - left. destruct (format_f_cents neg c Hc) as (ip & fp & Hf & Hne & Hli & Hl & Hd & _).
    exists neg, ip, fp. repeat split; assumption.
  - right. destruct (format_f_nan neg p Hp) as (ds & Hf & Hl & Hd & _).
    exists neg, ds. repeat split; assumption.
Qed.

Lemma fmt2_shape_witness :
  _fmt2 (py "-nan7") = Ok (py "-NaN7") /\
  ((exists neg ip fp,
     py "-NaN7" = sign_str neg ++ ip ++ 46 :: fp /\ ip <> [] /\ (List.length ip <= 26)%nat /\
     List.length fp = 2%nat /\ Forall is_digit_char (ip ++ fp)) \/
   (exists neg ds,
     py "-NaN7" = sign_str neg ++ py "NaN" ++ ds /\ (List.length ds <= 28)%nat /\
     Forall is_digit_char ds)).
Proof.
  split; [vm_compute; reflexivity |].
  apply (fmt2_shape (py "-nan7")). vm_compute. reflexivity.
Defined.

(** [_fmt2] is idempotent. Feeding a result of [_fmt2] back to it
    returns the same text: the output parses back to the quantized value,
    which quantizing leaves unchanged. *)
Theorem fmt2_idempotent (x y : pystr) :
  _fmt2 x = Ok y -> _fmt2 y = Ok y.
Proof.
  intros H. destruct (fmt2_ok_cents x y H) as (r & Hr & ->).
  apply fmt2_format_cents, Hr.
Qed.

Lemma fmt2_idempotent_witness :
  _fmt2 (py "10.005") = Ok (py "10.01") /\ _fmt2 (py "10.01") = Ok (py "10.01").
Proof.
  split; [vm_compute; reflexivity |].
  apply (fmt2_idempotent (py "10.005")). vm_compute. reflexivity.
Defined.

(** ** Base64 *)

Lemma b64_char_index (i : Z) : 0 <= i < 64 -> b64_index (b64_char i) = Some i.
Proof.
  intros Hi. unfold b64_char, b64_index.
  destruct (i <? 26) eqn:E1; [apply Z.ltb_lt in E1 |apply Z.ltb_ge in E1].
  { replace ((65 <=? 65 + i) && (65 + i <=? 90)) with true
      by (symmetry; apply andb_true_iff; split; apply Z.leb_le; lia).
    f_equal; lia. }
  destruct (i <? 52) eqn:E2; [apply Z.ltb_lt in E2 |apply Z.ltb_ge in E2].
  { replace ((65 <=? 97 + (i - 26)) && (97 + (i - 26) <=? 90)) with false
      by (symmetry; apply andb_false_iff; right; apply Z.leb_gt; lia).
    replace ((97 <=? 97 + (i - 26)) && (97 + (i - 26) <=? 122)) with true
      by (symmetry; apply andb_true_iff; split; apply Z.leb_le; lia).
    f_equal; lia. }
  destruct (i <? 62) eqn:E3; [apply Z.ltb_lt in E3 |apply Z.ltb_ge in E3].
  { replace ((65 <=? 48 + (i - 52)) && (48 + (i - 52) <=? 90)) with false
      by (symmetry; apply andb_false_iff; left; apply Z.leb_gt; lia).
    replace ((97 <=? 48 + (i - 52)) && (48 + (i - 52) <=? 122)) with false
      by (symmetry; apply andb_false_iff; left; apply Z.leb_gt; lia).
    replace ((48 <=? 48 + (i - 52)) && (48 + (i - 52) <=? 57)) with true
      by (symmetry; apply andb_true_iff; split; apply Z.leb_le; lia).
    f_equal; lia. }
  destruct (i =? 62) eqn:E4; [apply Z.eqb_eq in E4; subst; reflexivity |].
  apply Z.eqb_neq in E4. replace i with 63 by lia. reflexivity.
Qed.

Lemma b64_char_not_pad (i : Z) : 0 <= i < 64 -> (b64_char i =? 61) = false.
Proof.
  intros Hi. apply Z.eqb_neq. intros E.
  pose proof (b64_char_index i Hi) as H. rewrite E in H. discriminate H.
Qed.

Lemma b64encode_nil (bs : pybytes) : b64encode bs = [] -> bs = [].
Proof. destruct bs as [| a [| b [| c r]]]; simpl; congruence. Qed.

Lemma b64_decode_group3 (a b c : Z) :
  0 <= a <= 255 -> 0 <= b <= 255 -> 0 <= c <= 255 ->
  let n := a * 65536 + b * 256 + c in
  0 <= n / 262144 < 64 /\ 0 <= n / 4096 mod 64 < 64 /\
  0 <= n / 64 mod 64 < 64 /\ 0 <= n mod 64 < 64 /\
  let m := n / 262144 * 262144 + n / 4096 mod 64 * 4096 + n / 64 mod 64 * 64 + n mod 64 in
  m / 65536 = a /\ m / 256 mod 256 = b /\ m mod 256 = c.
Proof.
  intros Ha Hb Hc. cbv zeta.
  repeat split; Z.div_mod_to_equations; lia.
Qed.

Lemma b64_decode_group2 (a b : Z) :
  0 <= a <= 255 -> 0 <= b <= 255 ->
  let n := a * 65536 + b * 256 in
  0 <= n / 262144 < 64 /\ 0 <= n / 4096 mod 64 < 64 /\ 0 <= n / 64 mod 64 < 64 /\
  let m := n / 262144 * 262144 + n / 4096 mod 64 * 4096 + n / 64 mod 64 * 64 in
  m / 65536 = a /\ m / 256 mod 256 = b.
Proof. intros Ha Hb. cbv zeta. repeat split; Z.div_mod_to_equations; lia. Qed.

Lemma b64_decode_group1 (a : Z) :
  0 <= a <= 255 ->
  let n := a * 65536 in
  0 <= n / 262144 < 64 /\ 0 <= n / 4096 mod 64 < 64 /\
  (n / 262144 * 262144 + n / 4096 mod 64 * 4096) / 65536 = a.
Proof. intros Ha. cbv zeta. repeat split; Z.div_mod_to_equations; lia. Qed.

Lemma b64_roundtrip_aux (k : nat) (bs : pybytes) :
  (List.length bs <= k)%nat -> Forall (fun x => 0 <= x <= 255) bs ->
  b64decode (b64encode bs) = Some bs.
Proof.
  revert bs. induction k as [| k IH]; intros bs Hl Hb.
  { destruct bs; [reflexivity | simpl in Hl; lia]. }
  destruct bs as [| a [| b [| c rest]]]; [reflexivity | | |].
  - inversion_clear Hb as [| ? ? Ha _].
    destruct (b64_decode_group1 a Ha) as (H1 & H2 & G).
    cbn [b64encode]. cbv zeta. cbn [b64decode].
    rewrite !b64_char_index by assumption. cbn [opt_bind].
    rewrite !Z.eqb_refl. cbn [andb]. rewrite G. reflexivity.
  - inversion_clear Hb as [| ? ? Ha Hb']. inversion_clear Hb' as [| ? ? Hb _].
    destruct (b64_decode_group2 a b Ha Hb) as (H1 & H2 & H3 & G1 & G2).
    cbn [b64encode]. cbv zeta. cbn [b64decode].
    rewrite !b64_char_index by assumption. cbn [opt_bind].
    rewrite b64_char_not_pad by assumption. rewrite Z.eqb_refl. cbn [andb].
    rewrite G1, G2. reflexivity.
  - inversion_clear Hb as [| ? ? Ha Hb']. inversion_clear Hb' as [| ? ? Hb Hc'].
    inversion_clear Hc' as [| ? ? Hc Hr].
    destruct (b64_decode_group3 a b c Ha Hb Hc) as (H1 & H2 & H3 & H4 & G1 & G2 & G3).
    assert (IHr : b64decode (b64encode rest) = Some rest) by (apply IH; [simpl in Hl; lia | exact Hr]).
    cbn [b64encode]. cbv zeta. cbn [app b64decode].
    rewrite !b64_char_index by assumption. cbn [opt_bind].
    destruct (b64encode rest) as [| y ys] eqn:Er.
    + apply b64encode_nil in Er. subst rest.
      rewrite !b64_char_not_pad by assumption. cbn [andb].
      cbn [opt_bind]. rewrite G1, G2, G3. reflexivity.
    + cbn [opt_bind]. rewrite IHr. cbn [opt_bind].
      rewrite G1, G2, G3. reflexivity.
Qed.

Lemma lor_byte (a b : Z) : 0 <= a <= 255 -> 0 <= b <= 255 -> 0 <= Z.lor a b <= 255.
Proof.
  intros Ha Hb. assert (Hn : 0 <= Z.lor a b) by (apply Z.lor_nonneg; lia).
  assert (E : Z.shiftr (Z.lor a b) 8 = 0).
  { rewrite Z.shiftr_lor, !Z.shiftr_div_pow2 by lia.
    rewrite (Z.div_small a), (Z.div_small b) by (change (2 ^ 8) with 256; lia). reflexivity. }
  rewrite Z.shiftr_div_pow2 in E by lia. change (2 ^ 8) with 256 in E.
  split; [exact Hn |]. Z.div_mod_to_equations. lia.
Qed.

Lemma utf8_char_bytes (c : Z) (b : pybytes) :
  0 <= c < 1114112 -> utf8_char c = Ok b -> Forall (fun x => 0 <= x <= 255) b.
Proof.
  intros Hc H. unfold utf8_char in H.
  assert (L63 : forall x, 0 <= Z.land x 63 <= 63).
  { intros x. replace (Z.land x 63) with (x mod 64)
      by (change 63 with (Z.ones 6); rewrite Z.land_ones by lia; reflexivity).
    pose proof (Z.mod_pos_bound x 64 ltac:(lia)). lia. }
  assert (M : forall x, 0 <= Z.lor 128 (Z.land x 63) <= 255) by (intros x; apply lor_byte; [lia | specialize (L63 x); lia]).
  assert (S : forall k q, 0 <= k -> 0 <= c < q * 2 ^ k -> q <= 256 ->
                0 <= Z.shiftr c k <= 255).
  { intros k q Hk Hq Hq'. rewrite Z.shiftr_div_pow2 by exact Hk.
    assert (0 < 2 ^ k) by (apply Z.pow_pos_nonneg; lia).
    split; [apply Z.div_pos; lia |].
    assert (c / 2 ^ k < q) by (apply Z.div_lt_upper_bound; lia). lia. }
  destruct (c <? 128) eqn:E1.
  { injection H as <-. apply Z.ltb_lt in E1. constructor; [lia | constructor]. }
  destruct (c <? 2048) eqn:E2.
  { injection H as <-. apply Z.ltb_lt in E2.
    constructor; [| constructor; [apply M | constructor]].
    exact (lor_byte 192 (Z.shiftr c 6) ltac:(lia) (S 6 32 ltac:(lia) ltac:(change (2 ^ 6) with 64; lia) ltac:(lia))). }
  destruct (c <? 65536) eqn:E3.
  { destruct (_ && _); [discriminate |]. injection H as <-. apply Z.ltb_lt in E3.
    constructor; [| constructor; [apply M | constructor; [apply M | constructor]]].
    exact (lor_byte 224 (Z.shiftr c 12) ltac:(lia) (S 12 16 ltac:(lia) ltac:(change (2 ^ 12) with 4096; lia) ltac:(lia))). }
  injection H as <-.
  constructor; [| constructor; [apply M | constructor; [apply M | constructor; [apply M | constructor]]]].
  exact (lor_byte 240 (Z.shiftr c 18) ltac:(lia) (S 18 5 ltac:(lia) ltac:(change (2 ^ 18) with 262144; lia) ltac:(lia))).
Qed.

Lemma utf8_encode_bytes (s : pystr) (b : pybytes) :
  Forall (fun c => 0 <= c < 1114112) s -> utf8_encode s = Ok b ->
  Forall (fun x => 0 <= x <= 255) b.
Proof.
  revert b. induction s as [| c s IH]; intros b Hs H; simpl in H.
  - injection H as <-. constructor.
  - inversion_clear Hs as [| ? ? Hc Hs'].
    destruct (utf8_char c) as [bc |] eqn:Ec; simpl in H; [| discriminate].
    destruct (utf8_encode s) as [bs |] eqn:Es; simpl in H; [| discriminate].
    injection H as <-. apply Forall_app. split; [exact (utf8_char_bytes c bc Hc Ec) | exact (IH bs Hs' eq_refl)].
Qed.

(** Base64 round trip. For any byte string, decoding the text
    [base64.b64encode] produces gives back exactly those bytes. *)
Theorem b64_roundtrip (bs : pybytes) :
  Forall (fun x => 0 <= x <= 255) bs -> b64decode (b64encode bs) = Some bs.
Proof. intros H. exact (b64_roundtrip_aux (List.length bs) bs (le_n _) H). Qed.

Lemma b64_roundtrip_witness :
  Forall (fun x => 0 <= x <= 255) [0; 255; 128; 7] /\
  b64decode (py "AP+ABw==") = Some [0; 255; 128; 7].
Proof.
  assert (H : Forall (fun x => 0 <= x <= 255) [0; 255; 128; 7])
    by (repeat (apply Forall_cons; [lia |]); apply Forall_nil).
  split; [exact H |]. exact (b64_roundtrip [0; 255; 128; 7] H).
Defined.

Lemma tlv_ok_bound (tag : Z) (val : pystr) (e : pybytes) :
  _tlv tag val = Ok e ->
  exists b, utf8_encode val = Ok b /\ Z.of_nat (List.length b) <= 255 /\
            e = tag :: Z.of_nat (List.length b) :: b.
Proof.
  unfold _tlv. destruct (utf8_encode val) as [b |]; simpl; [| discriminate].
  destruct (Z.of_nat (List.length b) >? 255) eqn:E; [discriminate |].
  rewrite Z.gtb_ltb, Z.ltb_ge in E.
  unfold bytes_of_list. destruct (forallb _ _); simpl; [| discriminate].
  intros H. injection H as <-. exists b. split; [reflexivity | split; [exact E | reflexivity]].
Qed.

Lemma decode_tlv_app (tag : Z) (b more : pybytes) :
  decode_tlv (tag :: Z.of_nat (List.length b) :: b ++ more)
  = Some (tag, Z.of_nat (List.length b), b, more).
Proof.
  unfold decode_tlv. rewrite Nat2Z.id, length_app.
  replace (Nat.leb (List.length b) (List.length b + List.length more)) with true
    by (symmetry; apply Nat.leb_le; lia).
  rewrite firstn_app, skipn_app, firstn_all, skipn_all, Nat.sub_diag. simpl.
  rewrite app_nil_r. reflexivity.
Qed.

Lemma codepoints_ok (l : pystr) :
  forallb (fun c => (0 <=? c) && (c <? 1114112)) l = true ->
  Forall (fun c => 0 <= c < 1114112) l.
Proof.
  intros H. apply Forall_forall. intros c Hc. rewrite forallb_forall in H.
  specialize (H c Hc). apply andb_true_iff in H as [H1 H2].
  apply Z.leb_le in H1. apply Z.ltb_lt in H2. lia.
Qed.

(** What a scanner reads back from the QR text. When
    [build_zatca_base64] returns a text, base64-decoding it gives a byte
    string made of exactly five TLV records, tagged 1 to 5 in order, whose
    values are the UTF-8 encodings of the seller, VAT number, timestamp,
    total and VAT amount. *)
Theorem build_zatca_readback (seller vat dt_iso total vat_s b64 : pystr) :
  Forall (fun c => 0 <= c < 1114112) (seller ++ vat ++ dt_iso ++ total ++ vat_s) ->
  build_zatca_base64 seller vat dt_iso total vat_s = Ok b64 ->
  exists b1 b2 b3 b4 b5 p,
    utf8_encode seller = Ok b1 /\ utf8_encode vat = Ok b2 /\
    utf8_encode dt_iso = Ok b3 /\ utf8_encode total = Ok b4 /\
    utf8_encode vat_s = Ok b5 /\
    b64decode b64 = Some p /\
    decode_records 5 p = Some [(1, b1); (2, b2); (3, b3); (4, b4); (5, b5)].
Proof.
  intros Hc. rewrite !Forall_app in Hc. destruct Hc as (C1 & C2 & C3 & C4 & C5).
  unfold build_zatca_base64, zatca_payload.
  destruct (_tlv 1 seller) as [e1 |] eqn:T1; simpl; [| discriminate].
  destruct (_tlv 2 vat) as [e2 |] eqn:T2; simpl; [| discriminate].
  destruct (_tlv 3 dt_iso) as [e3 |] eqn:T3; simpl; [| discriminate].
  destruct (_tlv 4 total) as [e4 |] eqn:T4; simpl; [| discriminate].
  destruct (_tlv 5 vat_s) as [e5 |] eqn:T5; simpl; [| discriminate].
  intros H. injection H as <-.
  destruct (tlv_ok_bound _ _ _ T1) as (b1 & U1 & L1 & ->).
  destruct (tlv_ok_bound _ _ _ T2) as (b2 & U2 & L2 & ->).
  destruct (tlv_ok_bound _ _ _ T3) as (b3 & U3 & L3 & ->).
  destruct (tlv_ok_bound _ _ _ T4) as (b4 & U4 & L4 & ->).
  destruct (tlv_ok_bound _ _ _ T5) as (b5 & U5 & L5 & ->).
  pose proof (utf8_encode_bytes _ _ C1 U1) as B1.
  pose proof (utf8_encode_bytes _ _ C2 U2) as B2.
  pose proof (utf8_encode_bytes _ _ C3 U3) as B3.
  pose proof (utf8_encode_bytes _ _ C4 U4) as B4.
  pose proof (utf8_encode_bytes _ _ C5 U5) as B5.
  do 6 eexists. do 5 (split; [eassumption |]). split.
  - apply (b64_roundtrip_aux _ _ (le_n _)).
    repeat (apply Forall_app; split); try (apply Forall_nil);
      repeat (apply Forall_cons; [lia |]); assumption.
  - simpl List.concat. rewrite !app_nil_r. rewrite <- !app_comm_cons.
    pose proof (decode_tlv_app 5 b5 []) as D5. rewrite app_nil_r in D5.
    cbn [decode_records].
    rewrite decode_tlv_app. cbn [opt_bind].
    rewrite decode_tlv_app. cbn [opt_bind].
    rewrite decode_tlv_app. cbn [opt_bind].
    rewrite decode_tlv_app. cbn [opt_bind].
    rewrite D5. cbn [opt_bind]. reflexivity.
Qed.

Lemma build_zatca_readback_witness :
  exists b64,
    build_zatca_base64 [1588; 1585; 1603; 1577] (py "300000000000003")
      (py "2024-01-01T12:00:00Z") (py "115.00") (py "15.00") = Ok b64 /\
    exists b1 b2 b3 b4 b5 p,
      utf8_encode [1588; 1585; 1603; 1577] = Ok b1 /\ utf8_encode (py "300000000000003") = Ok b2 /\
      utf8_encode (py "2024-01-01T12:00:00Z") = Ok b3 /\ utf8_encode (py "115.00") = Ok b4 /\
      utf8_encode (py "15.00") = Ok b5 /\
      b64decode b64 = Some p /\
      decode_records 5 p = Some [(1, b1); (2, b2); (3, b3); (4, b4); (5, b5)].
Proof.
  eexists. split; [vm_compute; reflexivity |].
  apply (build_zatca_readback [1588; 1585; 1603; 1577] (py "300000000000003")
           (py "2024-01-01T12:00:00Z") (py "115.00") (py "15.00")).
  - apply codepoints_ok. vm_compute. reflexivity.
  - vm_compute. reflexivity.
Defined.

(** ** [sanitize] *)

Lemma py_strip_stripped (x : pystr) :
  (forall c r, x = c :: r -> py_isspace c = false) ->
  (forall c r, x = r ++ [c] -> py_isspace c = false) ->
  py_strip x = x.
Proof.
  intros Hh Hl. destruct x as [| c r]; [reflexivity |].
  destruct (exists_last (l := c :: r) ltac:(discriminate)) as (r' & c' & Er).
  assert (E : py_strip ([] ++ (c :: r) ++ []) = c :: r).
  { apply py_strip_pad; [reflexivity | reflexivity | discriminate | |].
    - exact (Hh c r eq_refl).
    - rewrite Er, last_last. exact (Hl c' r' Er). }
  rewrite app_nil_r in E. exact E.
Qed.

(** [sanitize] is idempotent: its result is ASCII, holds no
    Arabic-Indic digit or bidirectional control and is already stripped,
    so sanitizing it again changes nothing. *)
Theorem sanitize_idempotent (s : pystr) : sanitize (sanitize s) = sanitize s.
Proof.
  assert (Ha : Forall (fun c => c < 128) (sanitize s)).
  { unfold sanitize. apply Forall_py_strip, Forall_forall. intros c Hc.
    apply filter_In in Hc as [_ Hc]. apply Z.ltb_lt, Hc. }
  pose proof (py_strip_edges (filter (fun ch => ch <? 128)
     (filter (fun c => negb (is_bidi_control c)) (map ARABIC_DIGITS s)))) as [Hh Hl].
  fold (sanitize s) in Hh, Hl.
  remember (sanitize s) as t eqn:Et. clear Et.
  unfold sanitize at 1.
  assert (E1 : map ARABIC_DIGITS t = t).
  { clear Hh Hl. induction Ha as [| c t Hc _ IH]; [reflexivity |]. simpl. rewrite IH. f_equal.
    unfold ARABIC_DIGITS. replace ((1632 <=? c) && (c <=? 1641)) with false
      by (symmetry; apply andb_false_iff; left; apply Z.leb_gt; lia). reflexivity. }
  assert (E2 : filter (fun c => negb (is_bidi_control c)) t = t).
  { apply forallb_filter_id. apply forallb_forall. intros c Hc.
    rewrite Forall_forall in Ha. specialize (Ha c Hc). unfold is_bidi_control.
    replace (c =? 8206) with false by (symmetry; apply Z.eqb_neq; lia).
    replace (c =? 8207) with false by (symmetry; apply Z.eqb_neq; lia).
    replace (c =? 65279) with false by (symmetry; apply Z.eqb_neq; lia).
    replace (8234 <=? c) with false by (symmetry; apply Z.leb_gt; lia).
    replace (8294 <=? c) with false by (symmetry; apply Z.leb_gt; lia). reflexivity. }
  assert (E3 : filter (fun ch => ch <? 128) t = t).
  { apply forallb_filter_id. apply forallb_forall. intros c Hc.
    rewrite Forall_forall in Ha. apply Z.ltb_lt, Ha, Hc. }
  cbv zeta. rewrite E1, E2, E3. apply py_strip_stripped; assumption.
Qed.

(** ** The QR button after the VAT check *)

Lemma utf8_char_ok (c : Z) :
  ~ (55296 <= c <= 57343) -> exists b, utf8_char c = Ok b /\ (List.length b <= 4)%nat.
Proof.
  intros Hs. unfold utf8_char.
  destruct (c <? 128); [eexists; split; [reflexivity | simpl; lia] |].
  destruct (c <? 2048); [eexists; split; [reflexivity | simpl; lia] |].
  destruct (c <? 65536).
  - replace ((55296 <=? c) && (c <=? 57343)) with false
      by (symmetry; apply not_true_iff_false; intros H;
          apply andb_true_iff in H as [H1 H2]; apply Z.leb_le in H1, H2; lia).
    eexists; split; [reflexivity | simpl; lia].
  - eexists; split; [reflexivity | simpl; lia].
Qed.

Lemma utf8_encode_ok (s : pystr) :
  Forall (fun c => ~ (55296 <= c <= 57343)) s ->
  exists b, utf8_encode s = Ok b /\ (List.length b <= 4 * List.length s)%nat.
Proof.
  induction 1 as [| c s Hc _ IH]; [exists []; split; [reflexivity | simpl; lia] |].
  destruct (utf8_char_ok c Hc) as (bc & Ec & Lc). destruct IH as (bs & Es & Ls).
  exists (bc ++ bs). simpl. rewrite Ec, Es. split; [reflexivity |].
  rewrite length_app. simpl. lia.
Qed.

Lemma utf8_encode_ascii (s : pystr) :
  Forall (fun c => c < 128) s -> utf8_encode s = Ok s.
Proof.
  induction 1 as [| c s Hc _ IH]; [reflexivity |]. simpl. rewrite IH.
  unfold utf8_char. replace (c <? 128) with true by (symmetry; apply Z.ltb_lt, Hc).
  reflexivity.
Qed.

Lemma nd_value_run (c v : Z) (l : list Z) :
  fold_right (fun st acc => if (st <=? c) && (c <? st + 10) then Some (c - st) else acc) None l
    = Some v -> exists st, In st l /\ st <= c < st + 10.
Proof.
  induction l as [| st l IH]; simpl; [discriminate |].
  destruct ((st <=? c) && (c <? st + 10)) eqn:E.
  - intros _. apply andb_true_iff in E as [E1 E2]. apply Z.leb_le in E1. apply Z.ltb_lt in E2.
    exists st. split; [left; reflexivity | lia].
  - intros H. destruct (IH H) as (st' & Hin & Hb). exists st'. split; [right; exact Hin | exact Hb].
Qed.

Lemma nd_not_surrogate (c : Z) : is_nd c = true -> ~ (55296 <= c <= 57343).
Proof.
  unfold is_nd. destruct (nd_value c) as [v |] eqn:E; [| discriminate]. intros _.
  destruct (nd_value_run c v nd_starts E) as (st & Hin & Hb).
  assert (A : forallb (fun st => (st + 10 <=? 55296) || (57343 <? st)) nd_starts = true)
    by (vm_compute; reflexivity).
  rewrite forallb_forall in A. specialize (A st Hin).
  apply orb_true_iff in A as [A | A]; [apply Z.leb_le in A | apply Z.ltb_lt in A]; lia.
Qed.

Lemma tlv_ok_small (tag : Z) (s : pystr) (b : pybytes) :
  0 <= tag <= 255 -> utf8_encode s = Ok b -> (List.length b <= 255)%nat ->
  exists e, _tlv tag s = Ok e.
Proof.
  intros Ht Hb Hl. eexists. apply (tlv_within tag s b Ht Hb). lia.
Qed.

Lemma strftime_iso_ascii (u : datetime) :
  valid_datetime u = true ->
  Forall (fun c => c < 128) (strftime_iso u) /\ (List.length (strftime_iso u) <= 20)%nat.
Proof.
  intros V. pose proof (valid_datetime_bounds u V) as (Hy & Hmo & Hd & Hh & Hmi & Hs).
  assert (P : forall n, 0 <= n <= 99 -> Forall (fun c => c < 128) (pad2 n) /\ List.length (pad2 n) = 2%nat).
  { intros n Hn. destruct (pad2_digits n Hn) as (a & b & -> & Ha & Hb & _).
    split; [repeat (apply Forall_cons; [lia |]); apply Forall_nil | reflexivity]. }
  assert (Y : Forall (fun c => c < 128) (strftime_Y (dt_year u)) /\
              (List.length (strftime_Y (dt_year u)) <= 4)%nat).
  { unfold strftime_Y. split.
    - eapply Forall_impl; [| apply digits_of_digits; lia]. unfold is_digit_char. intros c Hc. lia.
    - apply digits_of_length; [change (10 ^ Z.of_nat 4) with 10000; lia | lia]. }
  destruct (P (dt_month u) ltac:(lia)) as [Pm Lm].
  destruct (P (dt_day u) ltac:(lia)) as [Pd Ld].
  destruct (P (dt_hour u) ltac:(lia)) as [Ph Lh].
  destruct (P (dt_minute u) ltac:(lia)) as [Pi Li].
  destruct (P (dt_second u) ltac:(lia)) as [Ps Ls].
  destruct Y as [Py Ly].
  unfold strftime_iso. split.
  - repeat (apply Forall_app; split); try assumption;
      repeat (apply Forall_cons; [lia |]); apply Forall_nil.
  - rewrite !length_app. cbn [List.length]. lia.
Qed.

Lemma fmt2_ascii (x y : pystr) :
  _fmt2 x = Ok y -> Forall (fun c => c < 128) y /\ (List.length y <= 32)%nat.
Proof.
  intros H. destruct (fmt2_ok_cents x y H) as (r & [(neg & c & -> & Hc) | (neg & p & -> & Hp)] & ->).
  - destruct (format_f_cents neg c Hc) as (ip & fp & -> & _ & Hli & Hl & Hd & _).
    apply Forall_app in Hd as [Hi Hf]. split.
    + apply Forall_app; split; [destruct neg; repeat constructor; lia |].
      apply Forall_app; split; [eapply Forall_impl; [| exact Hi]; unfold is_digit_char; intros; lia |].
      constructor; [lia | eapply Forall_impl; [| exact Hf]; unfold is_digit_char; intros; lia].
    + rewrite !length_app. cbn [List.length]. destruct neg; simpl; lia.
  - destruct (format_f_nan neg p Hp) as (ds & -> & Hl & Hd & _). split.
    + apply Forall_app; split; [destruct neg; repeat constructor; lia |].
      apply Forall_app; split; [repeat (apply Forall_cons; [lia |]); apply Forall_nil |].
      eapply Forall_impl; [| exact Hd]; unfold is_digit_char; intros; lia.
    + rewrite !length_app. cbn [List.length]. destruct neg; simpl; lia.
Qed.

Lemma quantize_cents_raise (d : decimal) (e : exn) :
  quantize_cents d = Raise e -> e = InvalidOperation.
Proof.
  destruct d as [neg c ex | neg | neg p [|]]; unfold quantize_cents; cbv zeta;
    repeat match goal with |- context [if ?b then _ else _] => destruct b end;
    intros H; try discriminate H; injection H as <-; reflexivity.
Qed.

Lemma fmt2_raise (x : pystr) (e : exn) : _fmt2 x = Raise e -> e = InvalidOperation.
Proof.
  unfold _fmt2. destruct (quantize_cents _) as [r | e'] eqn:E; cbn [bind]; intros H; [discriminate H |].
  injection H as <-. exact (quantize_cents_raise _ _ E).
Qed.

(** Once the VAT number has 15 digits, the "generate QR" handler
    reaches [st.code] (line 263) exactly when both amounts go through
    [_fmt2] and the stripped seller name fits a TLV record; the VAT number
    and the timestamp never make it fail. Every exception raised before
    [st.code] is [InvalidOperation] from [_fmt2] or the seller record's
    error; [make_qr] (line 264) runs only after that. (Python
    [date], [time] and [datetime] values are always valid, whatever the
    timezone conversion returns.) *)
Theorem qr_button_after_vat (conv : datetime -> option datetime) (ss : session) :
  (forall dt u, conv dt = Some u -> valid_datetime u = true) ->
  valid_datetime (datetime_combine (qr_date ss) (qr_time ss)) = true ->
  List.length (_clean_vat (qr_vat_number ss)) = 15%nat ->
  ((exists b64, qr_button (_iso_utc conv) ss = QrShown b64) <->
   (exists t v e1, _fmt2 (qr_total ss) = Ok t /\ _fmt2 (qr_vat ss) = Ok v /\
                   _tlv 1 (py_strip (qr_seller ss)) = Ok e1)) /\
  (forall e, qr_button (_iso_utc conv) ss = QrRaised e ->
     e = InvalidOperation \/ _tlv 1 (py_strip (qr_seller ss)) = Raise e).
Proof.
  intros Hconv Hlocal H15.
  set (iso := _iso_utc conv (qr_date ss) (qr_time ss)).
  assert (Hiso : Forall (fun c => c < 128) iso /\ (List.length iso <= 20)%nat).
  { subst iso. unfold _iso_utc. destruct (conv _) as [u |] eqn:Ec.
    - apply strftime_iso_ascii, (Hconv _ _ Ec).
    - apply strftime_iso_ascii, Hlocal. }
  destruct Hiso as [Ai Li].
  destruct (tlv_ok_small 3 iso iso ltac:(lia) (utf8_encode_ascii iso Ai) ltac:(lia)) as [e3 T3].
  set (vclean := _clean_vat (qr_vat_number ss)) in *.
  assert (Hv : Forall (fun c => ~ (55296 <= c <= 57343)) vclean).
  { apply Forall_forall. intros c Hc. subst vclean. unfold _clean_vat in Hc.
    apply filter_In in Hc as [_ Hc]. apply nd_not_surrogate, Hc. }
  destruct (utf8_encode_ok vclean Hv) as (b2 & U2 & L2).
  destruct (tlv_ok_small 2 vclean b2 ltac:(lia) U2 ltac:(lia)) as [e2 T2].
  unfold qr_button. fold vclean. fold iso. rewrite H15. cbn [Nat.eqb negb].
  destruct (_fmt2 (qr_total ss)) as [t | ex] eqn:F1; cbn [bind].
  2:{ split.
      - split; [intros [b64 H]; discriminate H | intros (t & v & e1 & H & _); discriminate H].
      - intros e H. injection H as <-. left. exact (fmt2_raise _ _ F1). }
  destruct (fmt2_ascii _ _ F1) as [At Lt].
  destruct (tlv_ok_small 4 t t ltac:(lia) (utf8_encode_ascii t At) ltac:(lia)) as [e4 T4].
  destruct (_fmt2 (qr_vat ss)) as [v | ex] eqn:F2; cbn [bind].
  2:{ split.
      - split; [intros [b64 H]; discriminate H | intros (t' & v & e1 & _ & H & _); discriminate H].
      - intros e H. injection H as <-. left. exact (fmt2_raise _ _ F2). }
  destruct (fmt2_ascii _ _ F2) as [Av Lv].
  destruct (tlv_ok_small 5 v v ltac:(lia) (utf8_encode_ascii v Av) ltac:(lia)) as [e5 T5].
  unfold build_zatca_base64, zatca_payload.
  destruct (_tlv 1 (py_strip (qr_seller ss))) as [e1 | ex] eqn:T1; cbn [bind].
  - rewrite T2, T3, T4, T5. cbn [bind]. split.
    + split; [intros _; exists t, v, e1; repeat split; reflexivity | intros _; eexists; reflexivity].
    + intros e H. discriminate H.
  - split.
    + split; [intros [b64 H]; discriminate H | intros (t' & v' & e1 & _ & _ & H); discriminate H].
    + intros e H. injection H as <-. right. reflexivity.
Qed.

Lemma qr_button_after_vat_witness :
  (forall dt u, tz_overflow dt = Some u -> valid_datetime u = true) /\
  valid_datetime (datetime_combine (qr_date session_huge_total) (qr_time session_huge_total)) = true /\
  List.length (_clean_vat (qr_vat_number session_huge_total)) = 15%nat /\
  qr_button (_iso_utc tz_overflow) session_huge_total = QrRaised InvalidOperation /\
  (InvalidOperation = InvalidOperation \/
   _tlv 1 (py_strip (qr_seller session_huge_total)) = Raise InvalidOperation).
Proof.
  assert (H1 : forall dt u, tz_overflow dt = Some u -> valid_datetime u = true)
    by (intros dt u H; discriminate H).
  assert (H2 : valid_datetime (datetime_combine (qr_date session_huge_total)
                                (qr_time session_huge_total)) = true) by reflexivity.
  assert (H3 : List.length (_clean_vat (qr_vat_number session_huge_total)) = 15%nat)
    by (vm_compute; reflexivity).
  assert (H4 : qr_button (_iso_utc tz_overflow) session_huge_total = QrRaised InvalidOperation)
    by (vm_compute; reflexivity).
  split; [exact H1 |]. split; [exact H2 |]. split; [exact H3 |]. split; [exact H4 |].
  exact (proj2 (qr_button_after_vat tz_overflow session_huge_total H1 H2 H3) InvalidOperation H4).
Defined.

(** ** Arabic-Indic digits in the VAT number *)

Lemma arabic_indic_char (c : Z) :
  1632 <= c <= 1641 ->
  is_nd c = true /\ utf8_char c = Ok [217; c - 1472] /\ ARABIC_DIGITS c = c - 1584.
Proof.
  intros Hc.
  assert (E : c = 1632 \/ c = 1633 \/ c = 1634 \/ c = 1635 \/ c = 1636 \/ c = 1637 \/
              c = 1638 \/ c = 1639 \/ c = 1640 \/ c = 1641) by lia.
  repeat destruct E as [-> | E]; subst; repeat split; vm_compute; reflexivity.
Qed.

Lemma clean_vat_arabic_indic_id (v : pystr) :
  Forall (fun c => 1632 <= c <= 1641) v -> _clean_vat v = v.
Proof.
  unfold _clean_vat. induction 1 as [| c v Hc _ IH]; [reflexivity |].
  cbn [filter]. rewrite (proj1 (arabic_indic_char c Hc)), IH. reflexivity.
Qed.

Lemma utf8_encode_arabic_indic (v : pystr) :
  Forall (fun c => 1632 <= c <= 1641) v ->
  utf8_encode v = Ok (flat_map (fun c => [217; c - 1472]) v).
Proof.
  induction 1 as [| c v Hc _ IH]; [reflexivity |].
  cbn [utf8_encode]. rewrite (proj1 (proj2 (arabic_indic_char c Hc))), IH. reflexivity.
Qed.

Lemma length_arabic_indic_utf8 (v : pystr) :
  List.length (flat_map (fun c => [217; c - 1472]) v) = (2 * List.length v)%nat.
Proof. induction v as [| c v IH]; [reflexivity |]. cbn [flat_map app List.length]. lia. Qed.

Lemma sanitize_arabic_indic (v : pystr) :
  Forall (fun c => 1632 <= c <= 1641) v -> sanitize v = map ARABIC_DIGITS v.
Proof.
  intros Hv. unfold sanitize. cbv zeta. rewrite sanitize_filters.
  assert (E : flat_map sanitize_char_spec v = map ARABIC_DIGITS v).
  { induction Hv as [| c v Hc _ IH]; [reflexivity |].
    cbn [flat_map map]. rewrite IH, (proj2 (proj2 (arabic_indic_char c Hc))).
    unfold sanitize_char_spec.
    replace ((1632 <=? c) && (c <=? 1641)) with true
      by (symmetry; apply andb_true_iff; split; apply Z.leb_le; lia).
    replace (c - 1632 + 48) with (c - 1584) by lia. reflexivity. }
  rewrite E.
  assert (Vis : Forall (fun c => 33 <= c <= 126) (map ARABIC_DIGITS v)).
  { apply Forall_map. eapply Forall_impl; [| exact Hv]. intros c Hc. cbv beta in Hc |- *.
    rewrite (proj2 (proj2 (arabic_indic_char c Hc))). lia. }
  apply py_strip_stripped.
  - intros c r Ex. rewrite Ex in Vis. inversion_clear Vis. apply py_isspace_visible. assumption.
  - intros c r Ex. rewrite Ex in Vis. apply Forall_app in Vis as [_ Vis].
    inversion_clear Vis. apply py_isspace_visible. assumption.
Qed.

(** C6: on ASCII input [_clean_vat] keeps exactly the digits '0'..'9',
    but it keeps Arabic-Indic digits (U+0660..U+0669) as they are, while its sibling [sanitize] turns the same characters into the
    ASCII digits '0'..'9'. A VAT number typed as fifteen Arabic-Indic
    digits therefore passes the 15-digit check of the "generate QR"
    handler, and its tag-2 record holds 30 bytes of UTF-8 (two non-ASCII
    bytes per digit, D9 A0..D9 A9) instead of 15 ASCII digits; when the
    handler shows a QR text, that text is the base64 of a payload holding
    exactly this record. *)
Theorem clean_vat_arabic_indic (v : pystr) :
  Forall (fun c => 1632 <= c <= 1641) v ->
  (forall w, Forall (fun c => 0 <= c < 128) w -> _clean_vat w = filter is_ascii_digit w) /\
  _clean_vat v = v /\
  (v <> [] -> ~ Forall is_digit_char (_clean_vat v)) /\
  sanitize v = map ARABIC_DIGITS v /\ Forall is_digit_char (sanitize v) /\
  utf8_encode (_clean_vat v) = Ok (flat_map (fun c => [217; c - 1472]) v) /\
  Forall (fun b => 128 <= b) (flat_map (fun c => [217; c - 1472]) v) /\
  (List.length v = 15%nat ->
   _tlv 2 (_clean_vat v) = Ok (2 :: 30 :: flat_map (fun c => [217; c - 1472]) v) /\
   forall iso ss, qr_vat_number ss = v ->
     qr_button iso ss <> VatLengthError /\
     (forall b64, qr_button iso ss = QrShown b64 ->
        exists p1 p2, b64 = b64encode (p1 ++ 2 :: 30 :: flat_map (fun c => [217; c - 1472]) v ++ p2))).
Proof.
  intros Hv. pose proof (clean_vat_arabic_indic_id v Hv) as C.
  pose proof (utf8_encode_arabic_indic v Hv) as U. split.
  { intros w Hw. unfold _clean_vat. induction Hw as [| c w Hc _ IH]; [reflexivity |].
    cbn [filter]. rewrite (is_nd_ascii c Hc), IH. reflexivity. }
  rewrite C. split; [reflexivity |]. split.
  { intros Hne Hd. destruct v as [| c v]; [contradiction |].
    inversion_clear Hv. inversion_clear Hd. unfold is_digit_char in *. lia. }
  rewrite (sanitize_arabic_indic v Hv). split; [reflexivity |]. split.
  { apply Forall_map. eapply Forall_impl; [| exact Hv]. intros c Hc. cbv beta in Hc |- *.
    rewrite (proj2 (proj2 (arabic_indic_char c Hc))). unfold is_digit_char. lia. }
  split; [exact U |]. split.
  { apply Forall_flat_map. eapply Forall_impl; [| exact Hv]. intros c Hc. cbv beta in Hc |- *.
    apply Forall_cons; [lia | apply Forall_cons; [lia | apply Forall_nil]]. }
  intros H15.
  assert (T2 : _tlv 2 v = Ok (2 :: 30 :: flat_map (fun c => [217; c - 1472]) v)).
  { unfold _tlv. rewrite U. cbn [bind].
    rewrite length_arabic_indic_utf8, H15. reflexivity. }
  split; [exact T2 |]. intros iso ss Hss.
  unfold qr_button. rewrite Hss, C, H15. cbn [Nat.eqb negb].
  destruct (_fmt2 (qr_total ss)) as [t | ex]; cbn [bind];
    [| split; [discriminate | intros b64 H; discriminate H]].
  destruct (_fmt2 (qr_vat ss)) as [w | ex]; cbn [bind];
    [| split; [discriminate | intros b64 H; discriminate H]].
  unfold build_zatca_base64, zatca_payload.
  destruct (_tlv 1 (py_strip (qr_seller ss))) as [e1 | ex]; cbn [bind];
    [| split; [discriminate | intros b64 H; discriminate H]].
  rewrite T2. cbn [bind].
  destruct (_tlv 3 (iso (qr_date ss) (qr_time ss))) as [e3 | ex]; cbn [bind];
    [| split; [discriminate | intros b64 H; discriminate H]].
  destruct (_tlv 4 t) as [e4 | ex]; cbn [bind];
    [| split; [discriminate | intros b64 H; discriminate H]].
  destruct (_tlv 5 w) as [e5 | ex]; cbn [bind];
    [| split; [discriminate | intros b64 H; discriminate H]].
  split; [discriminate |]. intros b64 H. injection H as <-.
  exists e1, (e3 ++ e4 ++ e5). cbn [List.concat]. rewrite app_nil_r. reflexivity.
Qed.

Lemma clean_vat_arabic_indic_witness :
  Forall (fun c => 1632 <= c <= 1641) (qr_vat_number session_arabic_vat) /\
  List.length (qr_vat_number session_arabic_vat) = 15%nat /\
  _clean_vat (qr_vat_number session_arabic_vat) = qr_vat_number session_arabic_vat /\
  qr_button iso_fixed session_arabic_vat <> VatLengthError.
Proof.
  assert (Hv : Forall (fun c => 1632 <= c <= 1641) (qr_vat_number session_arabic_vat)).
  { cbn [qr_vat_number session_arabic_vat].
    repeat (apply Forall_cons; [lia |]). apply Forall_nil. }
  assert (H15 : List.length (qr_vat_number session_arabic_vat) = 15%nat) by reflexivity.
  destruct (clean_vat_arabic_indic _ Hv) as (_ & C & _ & _ & _ & _ & _ & Q).
  split; [exact Hv |]. split; [exact H15 |]. split; [exact C |].
  exact (proj1 (proj2 (Q H15) iso_fixed session_arabic_vat eq_refl)).
Defined.
